(** * Hope Log: journal-to-suggestion pipeline, verified against its specification

    A shallow embedding of the parts of the Hope Log web application that the
    specification of the suggestion pipeline talks about:

    - [JsString]: the JavaScript string primitives the code relies on
      ([toLowerCase], [includes], [trim], [length]);
    - [Client]: the helpers of [client/src/pages/goals-page-backup.tsx]
      ([getGoalCategory], [determineFrequency], the filter that hides
      suggested goals similar to existing ones);
    - [Model], [Effects]: the tables of the database, the calls to outside
      services, the responses, and the monad the handlers are written in;
    - [Store], [Pipeline]: the storage layer ([server/storage.ts]) and the
      suggestion module ([server/ai-suggestion-module.ts]), neither of which
      is in the source tree; they are modelled from the specification and
      every such definition says so;
    - [Server]: the request handlers of [server/routes.ts] over an explicit
      store, with the calls to outside services recorded in a trace;
    - [System]: requests and detached runs as steps of a transition system;
    - [GoalsPage]: the rest of the goals page, its state as a record and its
      event handlers as functions to the new state and the requests sent
      (suggestions, submission with the duplicate check, groups by category,
      the recycle bin);
    - [Json], [Accounts], [GoalsApi], [Chat], [Entries]: further handlers of
      [server/routes.ts] (users, forgotten passwords, goals, chat responses,
      single entries, titles for entries without one); the handlers on
      tables that the store above does not hold are functions of the
      storage calls they make, or return the storage call they would make;
    - [PaypalSettings]: the router of the PayPal settings;
    - [Routing]: the routes of [server/routes.ts] and of the task router in
      the order of their registration, and the dispatch of a request;
    - [Progress]: what a request may do to the goals.

    The facts and the claims of the specification follow the definitions.

    Modelling conventions.  A JavaScript string is a Rocq [string] whose
    characters are the code units below 256 (Latin-1).  Identifiers are [Z].
    The storage layer is an in-memory finite map per table and does not fail;
    the language-model services may fail, which an [Oracle] decides. *)

From Stdlib Require Import ZArith List Ascii String Bool Lia Sorted Permutation.
From Stdlib Require Import DecimalString DecimalNat.
From stdpp Require Import base option gmap strings list sorting.

Local Open Scope Z_scope.

(* ===================================================================== *)
(** * JavaScript strings *)
(* ===================================================================== *)

Module JsString.

(** Code unit of a character. *)
Definition code (c : ascii) : nat := nat_of_ascii c.

(** [A-Z], and the Latin-1 capitals U+00C0..U+00DE without the
    multiplication sign U+00D7, are the characters [toLowerCase] moves. *)
Definition isUpper (c : ascii) : bool :=
  let n := code c in
  ((65 <=? n) && (n <=? 90))%nat
  || (((192 <=? n) && (n <=? 222))%nat && negb (n =? 215)%nat).

Definition lowerChar (c : ascii) : ascii :=
  if isUpper c then ascii_of_nat (code c + 32) else c.

(** [String.prototype.toLowerCase]. *)
Fixpoint toLowerCase (s : string) : string :=
  match s with
  | EmptyString => EmptyString
  | String c r => String (lowerChar c) (toLowerCase r)
  end.

(** [s.startsWith(p)]. *)
Fixpoint startsWith (s p : string) {struct p} : bool :=
  match p with
  | EmptyString => true
  | String a p' =>
      match s with
      | EmptyString => false
      | String b s' => Ascii.eqb a b && startsWith s' p'
      end
  end.

(** [s.includes(p)]: [p] occurs in [s] as a contiguous run of characters. *)
Fixpoint includes (s p : string) : bool :=
  startsWith s p ||
  match s with
  | EmptyString => false
  | String _ s' => includes s' p
  end.

(** White space of ECMAScript within Latin-1: TAB, LF, VT, FF, CR, SP, NBSP. *)
Definition isWhitespace (c : ascii) : bool :=
  let n := code c in
  (((9 <=? n) && (n <=? 13)) || (n =? 32) || (n =? 160))%nat.

(** Drop the longest prefix, resp. suffix, whose characters satisfy [p]. *)
Fixpoint dropStartWhile (p : ascii -> bool) (s : string) : string :=
  match s with
  | EmptyString => EmptyString
  | String c r => if p c then dropStartWhile p r else s
  end.

Fixpoint dropEndWhile (p : ascii -> bool) (s : string) : string :=
  match s with
  | EmptyString => EmptyString
  | String c r =>
      match dropEndWhile p r with
      | EmptyString => if p c then EmptyString else String c EmptyString
      | r' => String c r'
      end
  end.

Definition trimStart (s : string) : string := dropStartWhile isWhitespace s.
Definition trimEnd (s : string) : string := dropEndWhile isWhitespace s.

(** [String.prototype.trim]. *)
Definition trim (s : string) : string := trimEnd (trimStart s).

(** Every character of [s] satisfies [p]. *)
Fixpoint all (p : ascii -> bool) (s : string) : bool :=
  match s with
  | EmptyString => true
  | String c r => p c && all p r
  end.

(** The mathematical notion [includes] decides. *)
Definition Substring (p s : string) : Prop :=
  exists a b, s = a +:+ p +:+ b.

End JsString.

(* ===================================================================== *)
(** * The goals page ([client/src/pages/goals-page-backup.tsx]) *)
(* ===================================================================== *)

Module Client.
Import JsString.

(** [interface Goal extends GoalBase]: a durable goal of the user, as the
    page receives it from [GET /api/goals/:userId]. *)
Record Goal := {
  goal_id : Z;
  goal_userId : Z;
  goal_name : string;
  goal_target : Z;
  goal_progress : Z;
  goal_unit : string;
  goal_colorScheme : Z;
  goal_description : option string;
  goal_category : string;
  goal_targetDate : option string
}.

(** An element of [typeof AI_SUGGESTED_GOALS]: a suggested goal as shown. *)
Record SuggestedGoal := {
  sg_id : string;
  sg_name : string;
  sg_description : string;
  sg_category : string;
  sg_targetDate : option string;
  sg_source : string
}.

(** [getGoalCategory]: the chain of [if]s, in the order of the source. *)
Definition getGoalCategory (goalName : string) : string :=
  let name := toLowerCase goalName in
  if includes name "read" || includes name "learn" || includes name "study"
  then "Learning"
  else if includes name "exercise" || includes name "workout"
          || includes name "run" || includes name "meditate"
  then "Health"
  else if includes name "save" || includes name "budget" || includes name "invest"
  then "Financial"
  else if includes name "family" || includes name "friend"
          || includes name "relationship"
  then "Relationships"
  else if includes name "job" || includes name "career" || includes name "work"
  then "Career"
  else "Personal".

(** [determineFrequency]. *)
Definition determineFrequency (habitName : string) : string :=
  let name := toLowerCase habitName in
  if includes name "weekly" || includes name "each week" then "weekly"
  else if includes name "monthly" || includes name "each month" then "monthly"
  else "daily".

(** The keyword table the specification asks for: rules in order of
    precedence, each a list of keywords and the category they give. *)
Definition categoryTable : list (list string * string) :=
  [ (["read"; "learn"; "study"], "Learning");
    (["exercise"; "workout"; "run"; "meditate"], "Health");
    (["save"; "budget"; "invest"], "Financial");
    (["family"; "friend"; "relationship"], "Relationships");
    (["job"; "career"; "work"], "Career") ].

Definition mentionsAny (name : string) (keywords : list string) : bool :=
  existsb (includes name) keywords.

(** First rule of the table with a keyword in [name]; [default] otherwise. *)
Fixpoint classify (table : list (list string * string)) (default name : string)
  : string :=
  match table with
  | [] => default
  | (keywords, category) :: rest =>
      if mentionsAny name keywords then category else classify rest default name
  end.

(** The body of the callback of [goals.some(...)]: both names are already
    lower-cased by the caller. *)
Definition similarNames (aiGoalName userGoalName : string) : bool :=
  includes userGoalName aiGoalName
  || includes aiGoalName userGoalName
  || (includes aiGoalName "meditate" && includes userGoalName "meditat")
  || (includes aiGoalName "read" && includes userGoalName "read")
  || (includes aiGoalName "learn" && includes userGoalName "learn").

(** [goals.some(userGoal => ...)] for one suggested goal. *)
Definition similarToExisting (goals : list Goal) (aiGoal : SuggestedGoal) : bool :=
  let aiGoalName := toLowerCase (sg_name aiGoal) in
  existsb (fun userGoal =>
             let userGoalName := toLowerCase (goal_name userGoal) in
             similarNames aiGoalName userGoalName)
          goals.

(** The effect that computes [filteredAiSuggestedGoals] from [goals] and
    [aiSuggestedGoals]. *)
Definition filteredAiSuggestedGoals
    (goals : list Goal) (aiSuggestedGoals : list SuggestedGoal)
  : list SuggestedGoal :=
  if (0 <? length goals)%nat
  then List.filter (fun aiGoal => negb (similarToExisting goals aiGoal))
                   aiSuggestedGoals
  else aiSuggestedGoals.


End Client.

(* ===================================================================== *)
(** * The data model and the store *)
(* ===================================================================== *)

Module Model.

(** One goal mentioned by the sentiment analysis of an entry. *)
Record SentimentGoal := {
  sentgoal_name : string;
  sentgoal_isNew : bool;
  sentgoal_completion : option Z
}.

(** The result of [analyzeSentiment]. *)
Record Sentiment := {
  sent_score : Z;
  sent_emotions : list string;
  sent_themes : list string;
  sent_goals : list SentimentGoal;
  sent_tasks : list string
}.

(** The value the handlers start from when the analysis fails. *)
Definition defaultSentiment : Sentiment :=
  {| sent_score := 0; sent_emotions := []; sent_themes := [];
     sent_goals := []; sent_tasks := [] |}.

(** Modelled from the spec: JournalEntry of section 3, with the fields
    routes.ts reads and writes (shared/schema.ts is missing).  The primary
    key is the key of the map that holds the row; [je_date] is the entry's
    date as a time stamp; [je_deleted] says that the row is in the recycle
    bin. *)
Record JournalEntry := {
  je_userId : Z;
  je_content : string;
  je_title : string;
  je_date : Z;
  je_isAiResponse : bool;
  je_isJournal : bool;
  je_transcript : option string;
  je_analyzed : bool;
  je_sentiment : option Sentiment;
  je_deleted : bool
}.

(** Modelled from the spec: the durable Goal of section 3, with the fields
    routes.ts passes to [createGoal] (shared/schema.ts is missing). *)
Record Goal := {
  g_userId : Z;
  g_name : string;
  g_description : option string;
  g_category : option string;
  g_target : Z;
  g_progress : Z;
  g_unit : string;
  g_colorScheme : Z;
  g_status : string
}.

(** Modelled from the spec: the durable Task of section 3 (shared/schema.ts
    is missing). *)
Record Task := {
  t_userId : Z;
  t_title : string;
  t_description : option string;
  t_completed : bool;
  t_goalId : option Z
}.

(** Modelled from the spec: the durable Habit of section 3 (shared/schema.ts
    is missing). *)
Record Habit := {
  h_userId : Z;
  h_title : string;
  h_description : option string;
  h_frequency : string;
  h_streak : Z
}.

(** Modelled from the spec: SuggestedGoal of section 3, a row of the table
    [ai_goals] (shared/schema.ts is missing). *)
Record AiGoal := {
  ag_userId : Z;
  ag_name : string;
  ag_description : option string;
  ag_category : option string;
  ag_source : string
}.

(** Modelled from the spec: SuggestedTask of section 3, a row of the table
    [ai_tasks] (shared/schema.ts is missing). *)
Record AiTask := {
  at_userId : Z;
  at_title : string;
  at_description : option string;
  at_parentGoalId : option Z;
  at_source : string
}.

(** Modelled from the spec: SuggestedHabit of section 3, a row of the table
    [ai_habits] (shared/schema.ts is missing). *)
Record AiHabit := {
  ah_userId : Z;
  ah_title : string;
  ah_description : option string;
  ah_frequency : string;
  ah_source : string
}.

(** Modelled from the spec: the persistence boundary of section 6 as a
    database: one finite map per table, and the next serial number of each
    table (server/storage.ts and server/db.ts are missing). *)
Record Storage := {
  journalEntries : gmap Z JournalEntry;
  nextJournalEntryId : Z;
  goals : gmap Z Goal;
  nextGoalId : Z;
  tasks : gmap Z Task;
  nextTaskId : Z;
  habits : gmap Z Habit;
  nextHabitId : Z;
  aiGoals : gmap Z AiGoal;
  nextAiGoalId : Z;
  aiTasks : gmap Z AiTask;
  nextAiTaskId : Z;
  aiHabits : gmap Z AiHabit;
  nextAiHabitId : Z
}.

Definition emptyStorage : Storage :=
  {| journalEntries := ∅; nextJournalEntryId := 1;
     goals := ∅; nextGoalId := 1;
     tasks := ∅; nextTaskId := 1;
     habits := ∅; nextHabitId := 1;
     aiGoals := ∅; nextAiGoalId := 1;
     aiTasks := ∅; nextAiTaskId := 1;
     aiHabits := ∅; nextAiHabitId := 1 |}.

(** Field updates. *)
Definition withJournal (m : gmap Z JournalEntry) (n : Z) (s : Storage) : Storage :=
  {| journalEntries := m; nextJournalEntryId := n;
     goals := goals s; nextGoalId := nextGoalId s;
     tasks := tasks s; nextTaskId := nextTaskId s;
     habits := habits s; nextHabitId := nextHabitId s;
     aiGoals := aiGoals s; nextAiGoalId := nextAiGoalId s;
     aiTasks := aiTasks s; nextAiTaskId := nextAiTaskId s;
     aiHabits := aiHabits s; nextAiHabitId := nextAiHabitId s |}.

Definition withGoals (m : gmap Z Goal) (n : Z) (s : Storage) : Storage :=
  {| journalEntries := journalEntries s; nextJournalEntryId := nextJournalEntryId s;
     goals := m; nextGoalId := n;
     tasks := tasks s; nextTaskId := nextTaskId s;
     habits := habits s; nextHabitId := nextHabitId s;
     aiGoals := aiGoals s; nextAiGoalId := nextAiGoalId s;
     aiTasks := aiTasks s; nextAiTaskId := nextAiTaskId s;
     aiHabits := aiHabits s; nextAiHabitId := nextAiHabitId s |}.

Definition withTasks (m : gmap Z Task) (n : Z) (s : Storage) : Storage :=
  {| journalEntries := journalEntries s; nextJournalEntryId := nextJournalEntryId s;
     goals := goals s; nextGoalId := nextGoalId s;
     tasks := m; nextTaskId := n;
     habits := habits s; nextHabitId := nextHabitId s;
     aiGoals := aiGoals s; nextAiGoalId := nextAiGoalId s;
     aiTasks := aiTasks s; nextAiTaskId := nextAiTaskId s;
     aiHabits := aiHabits s; nextAiHabitId := nextAiHabitId s |}.

Definition withHabits (m : gmap Z Habit) (n : Z) (s : Storage) : Storage :=
  {| journalEntries := journalEntries s; nextJournalEntryId := nextJournalEntryId s;
     goals := goals s; nextGoalId := nextGoalId s;
     tasks := tasks s; nextTaskId := nextTaskId s;
     habits := m; nextHabitId := n;
     aiGoals := aiGoals s; nextAiGoalId := nextAiGoalId s;
     aiTasks := aiTasks s; nextAiTaskId := nextAiTaskId s;
     aiHabits := aiHabits s; nextAiHabitId := nextAiHabitId s |}.

Definition withAiGoals (m : gmap Z AiGoal) (n : Z) (s : Storage) : Storage :=
  {| journalEntries := journalEntries s; nextJournalEntryId := nextJournalEntryId s;
     goals := goals s; nextGoalId := nextGoalId s;
     tasks := tasks s; nextTaskId := nextTaskId s;
     habits := habits s; nextHabitId := nextHabitId s;
     aiGoals := m; nextAiGoalId := n;
     aiTasks := aiTasks s; nextAiTaskId := nextAiTaskId s;
     aiHabits := aiHabits s; nextAiHabitId := nextAiHabitId s |}.

Definition withAiTasks (m : gmap Z AiTask) (n : Z) (s : Storage) : Storage :=
  {| journalEntries := journalEntries s; nextJournalEntryId := nextJournalEntryId s;
     goals := goals s; nextGoalId := nextGoalId s;
     tasks := tasks s; nextTaskId := nextTaskId s;
     habits := habits s; nextHabitId := nextHabitId s;
     aiGoals := aiGoals s; nextAiGoalId := nextAiGoalId s;
     aiTasks := m; nextAiTaskId := n;
     aiHabits := aiHabits s; nextAiHabitId := nextAiHabitId s |}.

Definition withAiHabits (m : gmap Z AiHabit) (n : Z) (s : Storage) : Storage :=
  {| journalEntries := journalEntries s; nextJournalEntryId := nextJournalEntryId s;
     goals := goals s; nextGoalId := nextGoalId s;
     tasks := tasks s; nextTaskId := nextTaskId s;
     habits := habits s; nextHabitId := nextHabitId s;
     aiGoals := aiGoals s; nextAiGoalId := nextAiGoalId s;
     aiTasks := aiTasks s; nextAiTaskId := nextAiTaskId s;
     aiHabits := m; nextAiHabitId := n |}.

(** Rows of a table in the order of their keys. *)
Definition keyLe {A} (x y : Z * A) : Prop := x.1 <= y.1.

#[global] Instance keyLe_dec {A} : RelDecision (@keyLe A).
Proof. intros x y. unfold keyLe. apply _. Defined.

Definition rows {A} (m : gmap Z A) : list (Z * A) :=
  merge_sort keyLe (map_to_list m).

End Model.

(* ===================================================================== *)
(** * Outside services, responses and the handler monad *)
(* ===================================================================== *)

Module Effects.
Import Model.

(** Modelled from the spec: the candidates of an ExtractionResult of
    section 3 (ai-suggestion-module.ts is missing). *)
Record GoalCandidate := {
  gc_name : string;
  gc_description : option string;
  gc_category : option string
}.

Record TaskCandidate := {
  tc_title : string;
  tc_description : option string
}.

Record HabitCandidate := {
  hc_title : string;
  hc_description : option string;
  hc_frequency : string
}.

(** Modelled from the spec: ExtractionResult of section 3, what the
    extraction returns for one batch of entries (ai-suggestion-module.ts is
    missing). *)
Record ExtractionResult := {
  ex_goals : list GoalCandidate;
  ex_tasks : list TaskCandidate;
  ex_habits : list HabitCandidate
}.

(** The counters a run reports, as routes.ts reads them off the result of
    [processAllEntriesForUser]. *)
Record RunSummary := {
  goalsCreated : nat;
  tasksCreated : nat;
  habitsCreated : nat;
  goalsSkipped : nat;
  tasksSkipped : nat;
  habitsSkipped : nat
}.

Definition zeroSummary : RunSummary :=
  {| goalsCreated := 0; tasksCreated := 0; habitsCreated := 0;
     goalsSkipped := 0; tasksSkipped := 0; habitsSkipped := 0 |}.

(** Calls that leave the handler, in the order they are made.  The two
    [Start...] events start a detached background run of the suggestion
    module; [CallProcessAllEntriesForUser] is the run a handler awaits;
    [CallExtract] is the request to the language model that extracts
    candidates from a batch of entries. *)
Inductive Event :=
| CallGenerateJournalTitle (text : string)
| CallAnalyzeSentiment (text : string)
| CallStoreEmbedding (entryId : Z) (text : string)
| StartProcessSingleEntry (entryId : Z)
| StartProcessAllEntries
| CallProcessAllEntriesForUser (userId : Z) (limit : option nat)
| CallExtract (entryIds : list Z).

(** The outcome of everything the handlers cannot decide themselves:
    the environment, the clock, and the answers of the language model
    ([None] and [false] stand for a thrown exception, [inl message] for an
    error thrown with that message); [startFails id] says that starting the
    detached processing of entry [id] throws. *)
Record Oracle := {
  apiKeyConfigured : bool;
  now : Z;
  generateJournalTitle : string -> option string;
  analyzeSentiment : string -> option Sentiment;
  storeEmbedding : Z -> string -> bool;
  startFails : Z -> bool;
  extract : list (string * Z) -> list (string * Z) -> list (string * bool)
            -> string + ExtractionResult
}.

(** JSON bodies of the responses, as far as the properties need them. *)
Inductive Body :=
| NoBody
| ErrorBody (error : string)
| MessageBody (message : string)
| EntryBody (entryId : Z)
| RecordBody (recordId : Z)
| SuggestionsBody (goalIds habitIds taskIds : list Z)
                  (summary : RunSummary) (message : option string)
| ProcessedBody (result : RunSummary).

Record Response := { status : Z; body : Body }.

(** [res.sendStatus(n)] and [res.status(n).json(b)]. *)
Definition sendStatus (n : Z) : Response := {| status := n; body := NoBody |}.
Definition json (n : Z) (b : Body) : Response := {| status := n; body := b |}.

(** The state a handler runs in. *)
Record World := { store : Storage; trace : list Event }.

(** A computation either finishes early with an [E] (a [return res...] in
    a handler, a thrown error in the suggestion module) or yields an [A]. *)
Definition M (E A : Type) : Type := World -> (E + A) * World.

Definition ret {E A} (a : A) : M E A := fun w => (inr a, w).

Definition bind {E A B} (m : M E A) (f : A -> M E B) : M E B :=
  fun w => match m w with
           | (inl e, w') => (inl e, w')
           | (inr a, w') => f a w'
           end.

Definition fail {E A} (e : E) : M E A := fun w => (inl e, w).

Definition emit {E} (ev : Event) : M E unit :=
  fun w => (inr tt, {| store := store w; trace := trace w ++ [ev] |}).

Definition getStore {E} : M E Storage := fun w => (inr (store w), w).

Definition modify {E} (f : Storage -> Storage) : M E unit :=
  fun w => (inr tt, {| store := f (store w); trace := trace w |}).

(** A storage call that changes the store and returns a value. *)
Definition update {E A} (f : Storage -> A * Storage) : M E A :=
  fun w => let '(a, s') := f (store w) in
           (inr a, {| store := s'; trace := trace w |}).

(** [try { m } catch (e) { h e }]. *)
Definition catch {E E' A} (m : M E A) (h : E -> M E' A) : M E' A :=
  fun w => match m w with
           | (inl e, w') => h e w'
           | (inr a, w') => (inr a, w')
           end.

(** [for (const x of xs) body(x)]. *)
Fixpoint forEach {E A} (xs : list A) (body : A -> M E unit) : M E unit :=
  match xs with
  | [] => ret tt
  | x :: rest => bind (body x) (fun _ => forEach rest body)
  end.

(** A handler always answers: the early and the final response. *)
Definition handle (m : M Response Response) (w : World) : Response * World :=
  match m w with
  | (inl r, w') => (r, w')
  | (inr r, w') => (r, w')
  end.

(** [Step R m]: whatever [m] does, the world it leaves is [R]-related to the
    world it started in. *)
Definition Step {E A} (R : relation World) (m : M E A) : Prop :=
  forall w, R w (m w).2.

End Effects.

Declare Scope handler_scope.
Delimit Scope handler_scope with handler.
Notation "'do' x <- m ; k" := (Effects.bind m (fun x => k))
  (at level 10, x name, m at level 100, k at level 200) : handler_scope.
Notation "'run' m ; k" := (Effects.bind m (fun _ => k))
  (at level 10, m at level 100, k at level 200) : handler_scope.

(* ===================================================================== *)
(** * The storage layer *)
(* ===================================================================== *)

(** [server/storage.ts] is not part of the source tree.  Its operations are
    modelled from the specification's persistence boundary (section 6) and
    from the way [server/routes.ts] calls them. *)
Module Store.
Import Model.

(** Modelled from the spec: [createJournalEntry] inserts a row under the
    next serial number of the table (storage.ts is missing). *)
Definition createJournalEntry (e : JournalEntry) (s : Storage) : Z * Storage :=
  let id := nextJournalEntryId s in
  (id, withJournal (<[id := e]> (journalEntries s)) (id + 1) s).

Definition setAnalyzed (b : bool) (e : JournalEntry) : JournalEntry :=
  {| je_userId := je_userId e; je_content := je_content e;
     je_title := je_title e; je_date := je_date e;
     je_isAiResponse := je_isAiResponse e; je_isJournal := je_isJournal e;
     je_transcript := je_transcript e; je_analyzed := b;
     je_sentiment := je_sentiment e; je_deleted := je_deleted e |}.

Definition setSentiment (x : Sentiment) (e : JournalEntry) : JournalEntry :=
  {| je_userId := je_userId e; je_content := je_content e;
     je_title := je_title e; je_date := je_date e;
     je_isAiResponse := je_isAiResponse e; je_isJournal := je_isJournal e;
     je_transcript := je_transcript e; je_analyzed := je_analyzed e;
     je_sentiment := Some x; je_deleted := je_deleted e |}.

Definition setDeleted (b : bool) (e : JournalEntry) : JournalEntry :=
  {| je_userId := je_userId e; je_content := je_content e;
     je_title := je_title e; je_date := je_date e;
     je_isAiResponse := je_isAiResponse e; je_isJournal := je_isJournal e;
     je_transcript := je_transcript e; je_analyzed := je_analyzed e;
     je_sentiment := je_sentiment e; je_deleted := b |}.

Definition alterJournal (f : JournalEntry -> JournalEntry) (id : Z) (s : Storage)
  : Storage :=
  withJournal (alter f id (journalEntries s)) (nextJournalEntryId s) s.

(** The fields a call of [updateJournalEntry] sets; the handlers only ever
    pass [{ analyzed: true }]. *)
Record JournalEntryPatch := { patch_analyzed : option bool }.

Definition applyPatch (patch : JournalEntryPatch) (e : JournalEntry) : JournalEntry :=
  match patch_analyzed patch with
  | Some b => setAnalyzed b e
  | None => e
  end.

(** [{ analyzed: true }]. *)
Definition analyzedTrue : JournalEntryPatch := {| patch_analyzed := Some true |}.

(** Modelled from the spec: [updateJournalEntry(id, patch)], the update of
    the journal-entry store (storage.ts is missing). *)
Definition updateJournalEntry (id : Z) (patch : JournalEntryPatch) (s : Storage)
  : Storage :=
  alterJournal (applyPatch patch) id s.

(** Modelled from the spec: "mark analyzed" of section 4.4 for one entry
    (storage.ts is missing). *)
Definition markAnalyzed (id : Z) (s : Storage) : Storage :=
  updateJournalEntry id analyzedTrue s.

(** Modelled from the spec: [updateJournalEntrySentiment] (storage.ts is
    missing). *)
Definition updateJournalEntrySentiment (id : Z) (x : Sentiment) (s : Storage)
  : Storage :=
  alterJournal (setSentiment x) id s.

(** Modelled from the spec: [getJournalEntryById] (storage.ts is missing). *)
Definition getJournalEntryById (id : Z) (s : Storage) : option JournalEntry :=
  journalEntries s !! id.

(** Modelled from the spec: [deleteJournalEntry] moves the row to the recycle
    bin, [restoreJournalEntry] takes it back, [permanentlyDeleteJournalEntry]
    removes it (storage.ts is missing). *)
Definition deleteJournalEntry (id : Z) (s : Storage) : Storage :=
  alterJournal (setDeleted true) id s.

Definition restoreJournalEntry (id : Z) (s : Storage) : Storage :=
  alterJournal (setDeleted false) id s.

Definition permanentlyDeleteJournalEntry (id : Z) (s : Storage) : Storage :=
  withJournal (delete id (journalEntries s)) (nextJournalEntryId s) s.

(** Entries ordered by date, oldest first. *)
Definition dateLe (x y : Z * JournalEntry) : Prop := je_date x.2 <= je_date y.2.

#[global] Instance dateLe_dec : RelDecision dateLe.
Proof. intros x y. unfold dateLe. apply _. Defined.

Definition oldestFirst (l : list (Z * JournalEntry)) : list (Z * JournalEntry) :=
  merge_sort dateLe l.

Definition entriesOf (userId : Z) (s : Storage) : list (Z * JournalEntry) :=
  List.filter (fun r => Z.eqb (je_userId r.2) userId) (rows (journalEntries s)).

(** Modelled from the spec: [getRecentJournalEntriesByUserId(userId, n)], the
    [n] latest entries of the user outside the recycle bin, latest first
    (storage.ts is missing). *)
Definition getRecentJournalEntriesByUserId (userId : Z) (n : nat) (s : Storage)
  : list (Z * JournalEntry) :=
  take n (rev (oldestFirst
                 (List.filter (fun r => negb (je_deleted r.2)) (entriesOf userId s)))).

(** Modelled from the spec: the selection of section 4.4, an entry of the
    user with [isJournal == true && analyzed == false] (storage.ts is
    missing). *)
Definition eligible (userId : Z) (r : Z * JournalEntry) : bool :=
  Z.eqb (je_userId r.2) userId && je_isJournal r.2 && negb (je_analyzed r.2).

(** Modelled from the spec: [getUnanalyzedJournalEntriesByUserId], the
    entries of the user with [isJournal] set and [analyzed] unset, oldest
    first (storage.ts is missing). *)
Definition getUnanalyzedJournalEntriesByUserId (userId : Z) (s : Storage)
  : list (Z * JournalEntry) :=
  oldestFirst (List.filter (eligible userId) (rows (journalEntries s))).

(** Modelled from the spec: list-by-user of the durable and of the
    suggestion collections (storage.ts is missing). *)
Definition getGoalsByUserId (userId : Z) (s : Storage) : list (Z * Goal) :=
  List.filter (fun r => Z.eqb (g_userId r.2) userId) (rows (goals s)).

Definition getTasksByUserId (userId : Z) (s : Storage) : list (Z * Task) :=
  List.filter (fun r => Z.eqb (t_userId r.2) userId) (rows (tasks s)).

Definition getHabitsByUserId (userId : Z) (s : Storage) : list (Z * Habit) :=
  List.filter (fun r => Z.eqb (h_userId r.2) userId) (rows (habits s)).

Definition getAiGoalsByUserId (userId : Z) (s : Storage) : list (Z * AiGoal) :=
  List.filter (fun r => Z.eqb (ag_userId r.2) userId) (rows (aiGoals s)).

Definition getAiTasksByUserId (userId : Z) (s : Storage) : list (Z * AiTask) :=
  List.filter (fun r => Z.eqb (at_userId r.2) userId) (rows (aiTasks s)).

Definition getAiHabitsByUserId (userId : Z) (s : Storage) : list (Z * AiHabit) :=
  List.filter (fun r => Z.eqb (ah_userId r.2) userId) (rows (aiHabits s)).

(** Modelled from the spec: [createGoal] and [updateGoalProgress]
    (storage.ts is missing). *)
Definition createGoal (g : Goal) (s : Storage) : Z * Storage :=
  let id := nextGoalId s in
  (id, withGoals (<[id := g]> (goals s)) (id + 1) s).

Definition setProgress (p : Z) (g : Goal) : Goal :=
  {| g_userId := g_userId g; g_name := g_name g;
     g_description := g_description g; g_category := g_category g;
     g_target := g_target g; g_progress := p; g_unit := g_unit g;
     g_colorScheme := g_colorScheme g; g_status := g_status g |}.

Definition updateGoalProgress (id p : Z) (s : Storage) : Storage :=
  withGoals (alter (setProgress p) id (goals s)) (nextGoalId s) s.

(** Modelled from the spec: get-by-id and delete of the three suggestion
    collections (storage.ts is missing). *)
Definition getAiGoalById (id : Z) (s : Storage) : option AiGoal := aiGoals s !! id.
Definition getAiTaskById (id : Z) (s : Storage) : option AiTask := aiTasks s !! id.
Definition getAiHabitById (id : Z) (s : Storage) : option AiHabit := aiHabits s !! id.

Definition deleteAiGoal (id : Z) (s : Storage) : Storage :=
  withAiGoals (delete id (aiGoals s)) (nextAiGoalId s) s.
Definition deleteAiTask (id : Z) (s : Storage) : Storage :=
  withAiTasks (delete id (aiTasks s)) (nextAiTaskId s) s.
Definition deleteAiHabit (id : Z) (s : Storage) : Storage :=
  withAiHabits (delete id (aiHabits s)) (nextAiHabitId s) s.

(** Modelled from the spec: the durable record a suggestion is promoted to,
    "with default progress/status" (storage.ts is missing). *)
Definition promoteGoal (a : AiGoal) : Goal :=
  {| g_userId := ag_userId a; g_name := ag_name a;
     g_description := ag_description a; g_category := ag_category a;
     g_target := 100; g_progress := 0; g_unit := "%"; g_colorScheme := 1;
     g_status := "in_progress" |}.

Definition promoteTask (a : AiTask) : Task :=
  {| t_userId := at_userId a; t_title := at_title a;
     t_description := at_description a; t_completed := false;
     t_goalId := at_parentGoalId a |}.

Definition promoteHabit (a : AiHabit) : Habit :=
  {| h_userId := ah_userId a; h_title := ah_title a;
     h_description := ah_description a; h_frequency := ah_frequency a;
     h_streak := 0 |}.

(** Modelled from the spec: "promote to durable record" (section 4.6):
    create the durable record with default progress and status and delete
    the suggestion row, as one step; [None] when the row does not exist
    (storage.ts is missing). *)
Definition acceptAiGoal (id : Z) (s : Storage) : option (Z * Storage) :=
  match aiGoals s !! id with
  | None => None
  | Some a =>
      let new := nextGoalId s in
      Some (new, deleteAiGoal id
                   (withGoals (<[new := promoteGoal a]> (goals s)) (new + 1) s))
  end.

Definition acceptAiTask (id : Z) (s : Storage) : option (Z * Storage) :=
  match aiTasks s !! id with
  | None => None
  | Some a =>
      let new := nextTaskId s in
      Some (new, deleteAiTask id
                   (withTasks (<[new := promoteTask a]> (tasks s)) (new + 1) s))
  end.

Definition acceptAiHabit (id : Z) (s : Storage) : option (Z * Storage) :=
  match aiHabits s !! id with
  | None => None
  | Some a =>
      let new := nextHabitId s in
      Some (new, deleteAiHabit id
                   (withHabits (<[new := promoteHabit a]> (habits s)) (new + 1) s))
  end.

(** Modelled from the spec: create of the three suggestion collections
    (storage.ts is missing). *)
Definition createAiGoal (a : AiGoal) (s : Storage) : Storage :=
  withAiGoals (<[nextAiGoalId s := a]> (aiGoals s)) (nextAiGoalId s + 1) s.
Definition createAiTask (a : AiTask) (s : Storage) : Storage :=
  withAiTasks (<[nextAiTaskId s := a]> (aiTasks s)) (nextAiTaskId s + 1) s.
Definition createAiHabit (a : AiHabit) (s : Storage) : Storage :=
  withAiHabits (<[nextAiHabitId s := a]> (aiHabits s)) (nextAiHabitId s + 1) s.

End Store.

(* ===================================================================== *)
(** * The suggestion module *)
(* ===================================================================== *)

(** [server/ai-suggestion-module.ts] is not part of the source tree.  The
    definitions of this module follow sections 4.1 to 4.5 of the
    specification. *)
Module Pipeline.
Import JsString Model Effects Store.

(** Modelled from the spec: the "terminal punctuation" of section 4.1
    (ai-suggestion-module.ts is missing). *)
Definition isPunctuation (c : ascii) : bool :=
  existsb (Ascii.eqb c) ["."; ","; ";"; ":"; "!"; "?"]%char.

(** Modelled from the spec: "collapses whitespace" of section 4.1, every run
    of white space becoming one space (ai-suggestion-module.ts is missing). *)
Fixpoint collapseFrom (inRun : bool) (s : string) : string :=
  match s with
  | EmptyString => EmptyString
  | String c r =>
      if isWhitespace c
      then if inRun then collapseFrom true r
           else String " "%char (collapseFrom true r)
      else String c (collapseFrom false r)
  end.

Definition collapseWhitespace (s : string) : string := collapseFrom false s.

(** Whether the text read so far ends inside a run of white space (used to
    reason about [collapseFrom]). *)
Fixpoint runAfter (inRun : bool) (s : string) : bool :=
  match s with
  | EmptyString => inRun
  | String c r => runAfter (isWhitespace c) r
  end.

Definition space : string := String " "%char EmptyString.

(** Modelled from the spec: "strips terminal punctuation" of section 4.1
    (ai-suggestion-module.ts is missing). *)
Definition stripTerminalPunctuation (s : string) : string :=
  dropEndWhile isPunctuation s.

(** Modelled from the spec: [normalize] of section 4.1, "lower-cases, trims,
    collapses whitespace, strips terminal punctuation"
    (ai-suggestion-module.ts is missing). *)
Definition normalize (text : string) : string :=
  stripTerminalPunctuation (collapseWhitespace (trim (toLowerCase text))).

(** Modelled from the spec: the curated stems of section 4.2
    (ai-suggestion-module.ts is missing). *)
Definition strongKeywords : list string := ["meditat"; "read"; "walk"; "water"].

(** Modelled from the spec: two canonical texts denote the same item when
    they are equal, one occurs in the other, or they share a strong keyword
    (ai-suggestion-module.ts is missing). *)
Definition sameItem (a b : string) : bool :=
  String.eqb a b
  || includes a b
  || includes b a
  || existsb (fun k => includes a k && includes b k) strongKeywords.

(** Modelled from the spec: [isDuplicate] of section 4.2, "normalize both
    sides; match if canonical forms are equal, if one is a substring of the
    other, or if both contain a shared strong keyword"
    (ai-suggestion-module.ts is missing). *)
Definition isDuplicate (candidateText : string) (existingTexts : list string) : bool :=
  let c := normalize candidateText in
  existsb (fun e => sameItem c (normalize e)) existingTexts.

(** Modelled from the spec: step 4 of section 4.5 for one category: a
    duplicate is counted as skipped and dropped, a survivor is kept and its
    text joins the pool of the run (ai-suggestion-module.ts is missing).
    The result is the survivors, in order, and the number skipped. *)
Fixpoint dedup {A} (text : A -> string) (pool : list string) (candidates : list A)
  : list A * nat :=
  match candidates with
  | [] => ([], 0%nat)
  | c :: rest =>
      if isDuplicate (text c) pool
      then let '(kept, skipped) := dedup text pool rest in (kept, S skipped)
      else let '(kept, skipped) := dedup text (pool ++ [normalize (text c)]) rest in
           (c :: kept, skipped)
  end.

Local Open Scope handler_scope.

(** Modelled from the spec: ExtractionError of section 7, with the message
    of the thrown error (ai-suggestion-module.ts is missing). *)
Inductive PipelineError := ExtractionError (message : string).

(** Modelled from the spec: [selectUnanalyzed(userId, limit)] of section
    4.4, "filters to isJournal == true && analyzed == false, ordered
    oldest-first, capped at limit"; a call that passes no limit is not
    capped (ai-suggestion-module.ts is missing). *)
Definition selectUnanalyzed (userId : Z) (limit : option nat) (s : Storage)
  : list (Z * JournalEntry) :=
  let unanalyzed := getUnanalyzedJournalEntriesByUserId userId s in
  match limit with
  | Some n => take n unanalyzed
  | None => unanalyzed
  end.

(** Modelled from the spec: [markAnalyzed(entryIds)] of section 4.4
    (ai-suggestion-module.ts is missing). *)
Definition markAllAnalyzed (entryIds : list Z) (s : Storage) : Storage :=
  fold_left (fun acc id => markAnalyzed id acc) entryIds s.

(** Modelled from the spec: the existing-text pools of step 2 of section
    4.5, durable records and live suggestions of the user, per category
    (ai-suggestion-module.ts is missing). *)
Definition goalPool (userId : Z) (s : Storage) : list string :=
  map (fun r => g_name r.2) (getGoalsByUserId userId s)
  ++ map (fun r => ag_name r.2) (getAiGoalsByUserId userId s).

Definition taskPool (userId : Z) (s : Storage) : list string :=
  map (fun r => t_title r.2) (getTasksByUserId userId s)
  ++ map (fun r => at_title r.2) (getAiTasksByUserId userId s).

Definition habitPool (userId : Z) (s : Storage) : list string :=
  map (fun r => h_title r.2) (getHabitsByUserId userId s)
  ++ map (fun r => ah_title r.2) (getAiHabitsByUserId userId s).

(** Modelled from the spec: the suggestion rows written for the survivors,
    with source "AI" (ai-suggestion-module.ts is missing). *)
Definition toAiGoal (userId : Z) (c : GoalCandidate) : AiGoal :=
  {| ag_userId := userId; ag_name := gc_name c;
     ag_description := gc_description c; ag_category := gc_category c;
     ag_source := "AI" |}.

Definition toAiTask (userId : Z) (c : TaskCandidate) : AiTask :=
  {| at_userId := userId; at_title := tc_title c;
     at_description := tc_description c; at_parentGoalId := None;
     at_source := "AI" |}.

Definition toAiHabit (userId : Z) (c : HabitCandidate) : AiHabit :=
  {| ah_userId := userId; ah_title := hc_title c;
     ah_description := hc_description c; ah_frequency := hc_frequency c;
     ah_source := "AI" |}.

(** Modelled from the spec: "persist via Suggestion Store Adapter" of step
    4 of section 4.5, for the survivors of the three categories
    (ai-suggestion-module.ts is missing). *)
Definition persist (userId : Z) (gs : list GoalCandidate) (ts : list TaskCandidate)
    (hs : list HabitCandidate) (s : Storage) : Storage :=
  let s1 := fold_left (fun acc c => createAiGoal (toAiGoal userId c) acc) gs s in
  let s2 := fold_left (fun acc c => createAiTask (toAiTask userId c) acc) ts s1 in
  fold_left (fun acc c => createAiHabit (toAiHabit userId c) acc) hs s2.

(** Modelled from the spec: the request of section 4.3,
    [extract(entries, existingGoals, existingTasks)], for a batch: the
    content and date of each entry, the name and progress of each durable
    goal, the title and completion of each durable task
    (ai-suggestion-module.ts is missing). *)
Definition askExtraction (o : Oracle) (userId : Z) (batch : list (Z * JournalEntry))
    (s : Storage) : string + ExtractionResult :=
  extract o (map (fun r => (je_content r.2, je_date r.2)) batch)
            (map (fun r => (g_name r.2, g_progress r.2)) (getGoalsByUserId userId s))
            (map (fun r => (t_title r.2, t_completed r.2)) (getTasksByUserId userId s)).

(** Modelled from the spec: steps 2 to 6 of section 4.5 on a batch that is
    not empty: build the pools, call the extraction once, on its failure
    abort and leave the entries unanalyzed, else deduplicate, persist the
    survivors, mark the batch analyzed and report the counters
    (ai-suggestion-module.ts is missing). *)
Definition runOnBatch (o : Oracle) (userId : Z) (batch : list (Z * JournalEntry))
  : M PipelineError RunSummary :=
  do s <- getStore;
  run emit (CallExtract (map fst batch));
  match askExtraction o userId batch s with
  | inl message => fail (ExtractionError message)
  | inr result =>
      let '(gs, gskip) := dedup gc_name (goalPool userId s) (ex_goals result) in
      let '(ts, tskip) := dedup tc_title (taskPool userId s) (ex_tasks result) in
      let '(hs, hskip) := dedup hc_title (habitPool userId s) (ex_habits result) in
      run modify (persist userId gs ts hs);
      run modify (markAllAnalyzed (map fst batch));
      ret {| goalsCreated := length gs; tasksCreated := length ts;
             habitsCreated := length hs; goalsSkipped := gskip;
             tasksSkipped := tskip; habitsSkipped := hskip |}
  end.

(** Modelled from the spec: [runForUser(userId, limit)] of section 4.5;
    with no unanalyzed entry the summary is all zero and the extraction is
    not contacted (ai-suggestion-module.ts is missing). *)
Definition processAllEntriesForUser (o : Oracle) (userId : Z) (limit : option nat)
  : M PipelineError RunSummary :=
  do s <- getStore;
  let batch := selectUnanalyzed userId limit s in
  match batch with
  | [] => ret zeroSummary
  | _ :: _ => runOnBatch o userId batch
  end.

(** Modelled from the spec: the run a save handler starts for the entry it
    has just stored: steps 2 to 6 on that entry alone; nothing happens when
    the entry is gone or already analyzed (ai-suggestion-module.ts is
    missing). *)
Definition processSingleEntry (o : Oracle) (entryId : Z) : M PipelineError RunSummary :=
  do s <- getStore;
  match getJournalEntryById entryId s with
  | Some e =>
      if je_analyzed e then ret zeroSummary
      else runOnBatch o (je_userId e) [(entryId, e)]
  | None => ret zeroSummary
  end.

(** Modelled from the spec: the users with at least one unanalyzed entry,
    each once (ai-suggestion-module.ts is missing). *)
Definition usersWithUnanalyzed (s : Storage) : list Z :=
  remove_dups
    (map (fun r => je_userId r.2)
         (List.filter (fun r => je_isJournal r.2 && negb (je_analyzed r.2))
                      (rows (journalEntries s)))).

(** Modelled from the spec: [runForAllUsers()] of section 4.5: one run per
    user with unanalyzed entries, the failure of one run not stopping the
    others (ai-suggestion-module.ts is missing). *)
Definition processAllEntries (o : Oracle) : M PipelineError unit :=
  do s <- getStore;
  forEach (usersWithUnanalyzed s)
          (fun userId =>
             catch (run processAllEntriesForUser o userId None; ret tt)
                   (fun _ : PipelineError => ret tt)).

End Pipeline.

(* ===================================================================== *)
(** * The request handlers ([server/routes.ts]) *)
(* ===================================================================== *)

Module Server.
Import JsString Model Effects Store.
Local Open Scope handler_scope.

(** [req.user] of an authenticated request. *)
Record User := { user_id : Z; user_isAdmin : bool }.

(** [if (!req.isAuthenticated()) return res.sendStatus(401)]. *)
Definition requireAuth (user : option User) : M Response User :=
  match user with
  | None => fail (sendStatus 401)
  | Some u => ret u
  end.

(** [if (req.user?.id !== userId) return res.sendStatus(403)]. *)
Definition requireSelf (u : User) (userId : Z) : M Response unit :=
  if negb (Z.eqb (user_id u) userId) then fail (sendStatus 403) else ret tt.

Definition orElse {A} (x : option A) (d : A) : A :=
  match x with Some a => a | None => d end.

(** [goal.completion !== undefined]: update the progress of the first goal
    of the user with the same lower-cased name, if there is one. *)
Definition updateMatchingGoal (userId : Z) (goal : SentimentGoal) : M Response unit :=
  match sentgoal_completion goal with
  | None => ret tt
  | Some completion =>
      do s <- getStore;
      match List.find (fun g => String.eqb (toLowerCase (g_name g.2))
                                           (toLowerCase (sentgoal_name goal)))
                      (getGoalsByUserId userId s) with
      | Some matchingGoal => modify (updateGoalProgress matchingGoal.1 completion)
      | None => ret tt
      end
  end.

(** The body of [POST /api/journal-entries]. *)
Record JournalEntryBody := {
  jb_content : option string;
  jb_userId : Z;
  jb_transcript : option string;
  jb_date : option Z
}.

Definition newJournalEntry (userId : Z) (content title : string) (date : Z)
    (transcript : string) : JournalEntry :=
  {| je_userId := userId; je_content := content; je_title := title;
     je_date := date; je_isAiResponse := false; je_isJournal := true;
     je_transcript := Some transcript; je_analyzed := false;
     je_sentiment := None; je_deleted := false |}.

(** [transcript || content]. *)
Definition transcriptOr (transcript : option string) (content : string) : string :=
  match transcript with
  | Some t => if String.eqb t EmptyString then content else t
  | None => content
  end.

(** [POST /api/journal-entries]. *)
Definition postJournalEntry (o : Oracle) (user : option User) (b : JournalEntryBody)
  : M Response Response :=
  do u <- requireAuth user;
  run requireSelf u (jb_userId b);
  let userId := jb_userId b in
  match jb_content b with
  | None => fail (json 400 (ErrorBody "Content is required for journal entries"))
  | Some content =>
      if String.eqb content EmptyString || String.eqb (trim content) EmptyString
      then fail (json 400 (ErrorBody "Content is required for journal entries"))
      else
        let entryDate := orElse (jb_date b) (now o) in
        run emit (CallGenerateJournalTitle content);
        let title := orElse (generateJournalTitle o content) "Journal Entry" in
        do id <- update (createJournalEntry
                           (newJournalEntry userId content title entryDate
                              (transcriptOr (jb_transcript b) content)));
        run emit (CallAnalyzeSentiment content);
        do sentiment <-
          match analyzeSentiment o content with
          | Some x => run modify (updateJournalEntrySentiment id x); ret x
          | None => ret defaultSentiment
          end;
        run (if (100 <? String.length content)%nat
             then if startFails o id
                  then modify (updateJournalEntry id analyzedTrue)
                  else emit (StartProcessSingleEntry id)
             else modify (updateJournalEntry id analyzedTrue));
        run forEach (sent_goals sentiment) (updateMatchingGoal userId);
        run emit (CallStoreEmbedding id content);
        ret (json 201 (EntryBody id))
  end.

(** The body of [POST /api/journal-entries/save-chat]. *)
Record SaveChatBody := {
  sc_userId : Z;
  sc_date : option Z
}.

Definition newline : string := String "010"%char EmptyString.

(** [lines.join(sep)]. *)
Fixpoint join (sep : string) (lines : list string) : string :=
  match lines with
  | [] => EmptyString
  | [l] => l
  | l :: rest => l +:+ sep +:+ join sep rest
  end.

Definition transcriptLine (e : JournalEntry) : string :=
  (if je_isAiResponse e then "Hope Log: " else "You: ") +:+ je_content e.

(** [goal.isNew]: create the goal; otherwise update the matching one. *)
Definition recordChatGoal (userId : Z) (goal : SentimentGoal) : M Response unit :=
  if sentgoal_isNew goal
  then run update (createGoal
                     {| g_userId := userId; g_name := sentgoal_name goal;
                        g_description := None; g_category := None;
                        g_target := 100; g_progress := 0; g_unit := "%";
                        g_colorScheme := 1; g_status := "in_progress" |});
       ret tt
  else updateMatchingGoal userId goal.

(** [POST /api/journal-entries/save-chat]. *)
Definition saveChat (o : Oracle) (user : option User) (b : SaveChatBody)
  : M Response Response :=
  do u <- requireAuth user;
  run requireSelf u (sc_userId b);
  let userId := sc_userId b in
  do s <- getStore;
  let recentEntries := getRecentJournalEntriesByUserId userId 50 s in
  let chatEntries :=
    oldestFirst (List.filter (fun r => negb (je_isJournal r.2)) recentEntries) in
  match chatEntries with
  | [] => fail (json 400 (ErrorBody "No chat entries to save"))
  | _ :: _ =>
      let transcript :=
        join (newline +:+ newline) (map (fun r => transcriptLine r.2) chatEntries) in
      let userMessages := List.filter (fun r => negb (je_isAiResponse r.2)) chatEntries in
      let content :=
        match last userMessages with
        | Some r => je_content r.2
        | None => "Chat transcript"
        end in
      run emit (CallGenerateJournalTitle transcript);
      let title := orElse (generateJournalTitle o transcript) "Chat Transcript" in
      run emit (CallAnalyzeSentiment transcript);
      let sentiment := orElse (analyzeSentiment o transcript) defaultSentiment in
      let entryDate := orElse (sc_date b) (now o) in
      do id <- update (createJournalEntry
                         (newJournalEntry userId content title entryDate transcript));
      run modify (updateJournalEntrySentiment id sentiment);
      run forEach (sent_goals sentiment) (recordChatGoal userId);
      run emit (CallStoreEmbedding id transcript);
      run (if storeEmbedding o id transcript then ret tt
           else fail (json 500 (ErrorBody "Failed to save chat transcript")));
      run (if startFails o id
           then modify (updateJournalEntry id analyzedTrue)
           else emit (StartProcessSingleEntry id));
      run forEach chatEntries (fun r => modify (deleteJournalEntry r.1));
      ret (json 201 (EntryBody id))
  end.

(** The three handlers on one journal entry share their checks: the entry
    exists (404) and belongs to the requesting user (403). *)
Definition onOwnEntry (user : option User) (entryId : Z) (forbidden : string)
    (action : M Response Response) : M Response Response :=
  do u <- requireAuth user;
  do s <- getStore;
  match getJournalEntryById entryId s with
  | None => fail (json 404 (ErrorBody "Journal entry not found"))
  | Some entry =>
      if negb (Z.eqb (je_userId entry) (user_id u))
      then fail (json 403 (ErrorBody forbidden))
      else action
  end.

(** [DELETE /api/journal-entries/:id]. *)
Definition deleteEntry (user : option User) (entryId : Z) : M Response Response :=
  onOwnEntry user entryId "You don't have permission to delete this entry"
    (run modify (deleteJournalEntry entryId);
     ret (json 200 (MessageBody "Journal entry deleted successfully"))).

(** [POST /api/journal-entries/:id/restore]. *)
Definition restoreEntry (user : option User) (entryId : Z) : M Response Response :=
  onOwnEntry user entryId "You don't have permission to restore this entry"
    (run modify (restoreJournalEntry entryId);
     ret (json 200 (EntryBody entryId))).

(** [DELETE /api/journal-entries/:id/permanent]. *)
Definition permanentlyDeleteEntry (user : option User) (entryId : Z)
  : M Response Response :=
  onOwnEntry user entryId "You don't have permission to delete this entry"
    (run modify (permanentlyDeleteJournalEntry entryId);
     ret (json 200 (MessageBody "Journal entry permanently deleted"))).

(** ** Accepting and rejecting suggestions *)

(** The six handlers share their checks: the suggestion exists (404) and
    its [userId] is the requesting user's (403). *)
Definition onOwnSuggestion {A} (get : Z -> Storage -> option A) (owner : A -> Z)
    (notFound forbidden : Response) (user : option User) (id : Z)
    (action : M Response Response) : M Response Response :=
  do u <- requireAuth user;
  do s <- getStore;
  match get id s with
  | None => fail notFound
  | Some suggestion =>
      if negb (Z.eqb (user_id u) (owner suggestion))
      then fail forbidden
      else action
  end.

(** [await storage.acceptAi...(id)] and the answer with the new record; a
    failure of the storage call ends in the handler's [catch]. *)
Definition promote (accept : Z -> Storage -> option (Z * Storage)) (id : Z)
    (failure : string) : M Response Response :=
  do new <- update (fun s => match accept id s with
                             | Some (new, s') => (Some new, s')
                             | None => (None, s)
                             end);
  match new with
  | Some recordId => ret (json 200 (RecordBody recordId))
  | None => ret (json 500 (ErrorBody failure))
  end.

(** [POST /api/ai-goals/:id/accept]. *)
Definition acceptAiGoalHandler (user : option User) (goalId : Z) : M Response Response :=
  onOwnSuggestion getAiGoalById ag_userId
    (json 404 (ErrorBody "AI suggested goal not found"))
    (json 403 (ErrorBody "You don't have permission to accept this goal"))
    user goalId
    (promote acceptAiGoal goalId "Failed to accept AI suggested goal").

(** [POST /api/ai-tasks/:id/accept]. *)
Definition acceptAiTaskHandler (user : option User) (taskId : Z) : M Response Response :=
  onOwnSuggestion getAiTaskById at_userId
    (json 404 (ErrorBody "AI suggested task not found"))
    (json 403 (ErrorBody "You don't have permission to accept this task"))
    user taskId
    (promote acceptAiTask taskId "Failed to accept AI suggested task").

(** [POST /api/ai-habits/:id/accept]. *)
Definition acceptAiHabitHandler (user : option User) (habitId : Z) : M Response Response :=
  onOwnSuggestion getAiHabitById ah_userId
    (json 404 (ErrorBody "AI suggested habit not found"))
    (json 403 (ErrorBody "You don't have permission to accept this habit"))
    user habitId
    (promote acceptAiHabit habitId "Failed to accept AI suggested habit").

(** [DELETE /api/ai-goals/:id]. *)
Definition rejectAiGoalHandler (user : option User) (goalId : Z) : M Response Response :=
  onOwnSuggestion getAiGoalById ag_userId
    (json 404 (ErrorBody "AI suggested goal not found")) (sendStatus 403)
    user goalId
    (run modify (deleteAiGoal goalId); ret (sendStatus 204)).

(** [DELETE /api/ai-tasks/:id]. *)
Definition rejectAiTaskHandler (user : option User) (taskId : Z) : M Response Response :=
  onOwnSuggestion getAiTaskById at_userId
    (json 404 (ErrorBody "AI suggested task not found")) (sendStatus 403)
    user taskId
    (run modify (deleteAiTask taskId); ret (sendStatus 204)).

(** [DELETE /api/ai-habits/:id]. *)
Definition rejectAiHabitHandler (user : option User) (habitId : Z) : M Response Response :=
  onOwnSuggestion getAiHabitById ah_userId
    (json 404 (ErrorBody "AI suggested habit not found")) (sendStatus 403)
    user habitId
    (run modify (deleteAiHabit habitId); ret (sendStatus 204)).

(** The lifecycle surface of the specification: [accept] and [reject] of a
    suggestion of a given kind. *)
Inductive Kind := KGoal | KTask | KHabit.

Definition accept (kind : Kind) : option User -> Z -> M Response Response :=
  match kind with
  | KGoal => acceptAiGoalHandler
  | KTask => acceptAiTaskHandler
  | KHabit => acceptAiHabitHandler
  end.

Definition reject (kind : Kind) : option User -> Z -> M Response Response :=
  match kind with
  | KGoal => rejectAiGoalHandler
  | KTask => rejectAiTaskHandler
  | KHabit => rejectAiHabitHandler
  end.

(** The owner of the suggestion [id] of a kind, when the row exists. *)
Definition suggestionOwner (kind : Kind) (id : Z) (s : Storage) : option Z :=
  match kind with
  | KGoal => ag_userId <$> getAiGoalById id s
  | KTask => at_userId <$> getAiTaskById id s
  | KHabit => ah_userId <$> getAiHabitById id s
  end.

Definition NotFoundError (r : Response) : Prop := status r = 404.
Definition ForbiddenError (r : Response) : Prop := status r = 403.

(** ** Triggering the suggestion module *)

(** [error.toString()] of a thrown [Error]. *)
Definition errorToString (e : Pipeline.PipelineError) : string :=
  match e with
  | Pipeline.ExtractionError message => "Error: " +:+ message
  end.

(** [const result = await processAllEntriesForUser(userId, limit)] inside a
    [try] whose [catch] answers 500. *)
Definition awaitRun (o : Oracle) (userId : Z) (limit : option nat)
    (onError : Pipeline.PipelineError -> Response) : M Response RunSummary :=
  run emit (CallProcessAllEntriesForUser userId limit);
  catch (Pipeline.processAllEntriesForUser o userId limit)
        (fun e => fail (onError e)).

Definition suggestionError (generic : string) (e : Pipeline.PipelineError) : Response :=
  if includes (errorToString e) "OpenAI API"
  then json 500 (ErrorBody "There was an issue with the AI suggestion system. Please try again later or contact support.")
  else json 500 (ErrorBody generic).

Definition noEntriesMessage : string :=
  "No journal entries to analyze. Write in your journal first to get suggestions.".

Definition missingKey : Response :=
  json 500 (ErrorBody "OpenAI API key is missing. Please contact support to enable AI features.").

(** The three endpoints that generate suggestions differ in what they list
    next to the summary. *)
Inductive Listing := ListGoals | ListTasks | ListHabits.

(** What the endpoint lists when there is nothing to analyze and after a
    run: suggested goals and habits, the user's tasks, suggested habits. *)
Definition listingBefore (l : Listing) (userId : Z) (s : Storage)
  : list Z * list Z * list Z :=
  match l with
  | ListGoals => ([], [], [])
  | ListTasks => ([], [], map fst (getTasksByUserId userId s))
  | ListHabits => ([], map fst (getAiHabitsByUserId userId s), [])
  end.

Definition listingAfter (l : Listing) (userId : Z) (s : Storage)
  : list Z * list Z * list Z :=
  match l with
  | ListGoals => (map fst (getAiGoalsByUserId userId s),
                  map fst (getAiHabitsByUserId userId s), [])
  | ListTasks => ([], [], map fst (getTasksByUserId userId s))
  | ListHabits => ([], map fst (getAiHabitsByUserId userId s), [])
  end.

Definition genericError (l : Listing) : string :=
  match l with
  | ListGoals => "Failed to generate AI suggestions. Please try again later."
  | ListTasks => "Failed to generate task suggestions. Please try again later."
  | ListHabits => "Failed to generate habit suggestions. Please try again later."
  end.

Definition suggestionsBody (listed : list Z * list Z * list Z)
    (summary : RunSummary) (message : option string) : Body :=
  let '(goalIds, habitIds, taskIds) := listed in
  SuggestionsBody goalIds habitIds taskIds summary message.

(** [GET /api/goals/:userId/generate-suggestions],
    [GET /api/tasks/:userId/suggestions] and
    [GET /api/habits/:userId/suggestions]. *)
Definition generateSuggestions (l : Listing) (o : Oracle) (user : option User)
    (userId : Z) : M Response Response :=
  do u <- requireAuth user;
  run requireSelf u userId;
  run (if negb (apiKeyConfigured o) then fail missingKey else ret tt);
  do s <- getStore;
  let journalEntries := getUnanalyzedJournalEntriesByUserId userId s in
  if (length journalEntries =? 0)%nat
  then fail (json 200 (suggestionsBody (listingBefore l userId s) zeroSummary
                                       (Some noEntriesMessage)))
  else
    do result <- awaitRun o userId (Some 3%nat) (suggestionError (genericError l));
    do s' <- getStore;
    ret (json 200 (suggestionsBody (listingAfter l userId s') result None)).

(** [POST /api/suggestions/process-user/:userId]. *)
Definition processUser (o : Oracle) (user : option User) (userId : Z)
  : M Response Response :=
  do u <- requireAuth user;
  run (if negb (Z.eqb (user_id u) userId) && negb (user_isAdmin u)
       then fail (sendStatus 403) else ret tt);
  do result <- awaitRun o userId None
                 (fun _ => json 500 (ErrorBody "Failed to process journal entries"));
  ret (json 200 (ProcessedBody result)).

(** [POST /api/admin/process-all-journal-entries]. *)
Definition adminProcessAll (user : option User) : M Response Response :=
  match user with
  | Some u =>
      if user_isAdmin u
      then run emit StartProcessAllEntries;
           ret (json 200 (MessageBody "AI suggestion processing has been triggered for all users and will run in the background."))
      else fail (sendStatus 403)
  | None => fail (sendStatus 403)
  end.

(** The requests that start a run for one user, and the limit each passes
    to [processAllEntriesForUser]. *)
Inductive Trigger :=
| GenerateSuggestions (l : Listing)
| ProcessUser.

Definition trigger (t : Trigger) : Oracle -> option User -> Z -> M Response Response :=
  match t with
  | GenerateSuggestions l => generateSuggestions l
  | ProcessUser => processUser
  end.


(** The six counters of a response that carries a summary. *)
Definition summaryOf (r : Response) : option RunSummary :=
  match body r with
  | SuggestionsBody _ _ _ summary _ => Some summary
  | ProcessedBody summary => Some summary
  | _ => None
  end.

End Server.

(* ===================================================================== *)
(** * The system as a transition system *)
(* ===================================================================== *)

Module System.
Import Model Effects Store Server.

(** One step of the system: a request answered by a handler, or a detached
    run of the suggestion module started earlier by a handler. *)
Inductive Op :=
| PostJournalEntry (user : option User) (b : JournalEntryBody)
| SaveChat (user : option User) (b : SaveChatBody)
| DeleteEntry (user : option User) (entryId : Z)
| RestoreEntry (user : option User) (entryId : Z)
| PermanentlyDeleteEntry (user : option User) (entryId : Z)
| Accept (kind : Kind) (user : option User) (id : Z)
| Reject (kind : Kind) (user : option User) (id : Z)
| Run (t : Trigger) (user : option User) (userId : Z)
| AdminProcessAll (user : option User)
| BackgroundSingleEntry (entryId : Z)
| BackgroundAllEntries.

(** A detached run: its result and its error are dropped. *)
Definition background {A} (m : M Pipeline.PipelineError A) (w : World) : World :=
  (m w).2.

Definition step (o : Oracle) (op : Op) (w : World) : World :=
  match op with
  | PostJournalEntry user b => (handle (postJournalEntry o user b) w).2
  | SaveChat user b => (handle (saveChat o user b) w).2
  | DeleteEntry user id => (handle (deleteEntry user id) w).2
  | RestoreEntry user id => (handle (restoreEntry user id) w).2
  | PermanentlyDeleteEntry user id => (handle (permanentlyDeleteEntry user id) w).2
  | Accept kind user id => (handle (accept kind user id) w).2
  | Reject kind user id => (handle (reject kind user id) w).2
  | Run t user userId => (handle (trigger t o user userId) w).2
  | AdminProcessAll user => (handle (adminProcessAll user) w).2
  | BackgroundSingleEntry id => background (Pipeline.processSingleEntry o id) w
  | BackgroundAllEntries => background (Pipeline.processAllEntries o) w
  end.

(** The states a sequence of steps goes through, the first one included. *)
Fixpoint states (w : World) (ops : list (Oracle * Op)) : list World :=
  w :: match ops with
       | [] => []
       | (o, op) :: rest => states (step o op w) rest
       end.

(** The [analyzed] flag of an entry, when the entry exists. *)
Definition analyzedFlag (entryId : Z) (w : World) : option bool :=
  je_analyzed <$> journalEntries (store w) !! entryId.

(** How often the flag of [entryId] goes from [before] to [after] between
    two successive states. *)
Fixpoint transitions (before after : bool) (entryId : Z) (ws : list World) : nat :=
  match ws with
  | w :: ((w' :: _) as rest) =>
      (if decide (analyzedFlag entryId w = Some before
                  /\ analyzedFlag entryId w' = Some after)
       then 1 else 0)%nat
      + transitions before after entryId rest
  | _ => 0%nat
  end.

(** The serial number of the journal table is above every key in use. *)
Definition WellFormed (s : Storage) : Prop :=
  forall id, is_Some (journalEntries s !! id) -> id < nextJournalEntryId s.

(** The stage of life of an entry id: not yet issued (0), stored and not
    analyzed (1), stored and analyzed (2), issued and gone (3). *)
Definition stage (s : Storage) (entryId : Z) : nat :=
  match journalEntries s !! entryId with
  | Some e => if je_analyzed e then 2%nat else 1%nat
  | None => if decide (entryId < nextJournalEntryId s) then 3%nat else 0%nat
  end.

(** From a well-formed store a step leads to a well-formed store in which no
    entry id is at an earlier stage. *)
Definition Forward (w w' : World) : Prop :=
  WellFormed (store w) ->
  WellFormed (store w') /\ forall id, (stage (store w) id <= stage (store w') id)%nat.

(** The journal table, its serial number and the trace are left alone. *)
Definition SameJournal (w w' : World) : Prop :=
  journalEntries (store w') = journalEntries (store w)
  /\ nextJournalEntryId (store w') = nextJournalEntryId (store w)
  /\ trace w' = trace w.

(** The flag of one entry and the trace are left alone. *)
Definition SameFlag (entryId : Z) (w w' : World) : Prop :=
  analyzedFlag entryId w' = analyzedFlag entryId w /\ trace w' = trace w.

End System.

(* ===================================================================== *)
(** * Users, stores and oracles of the scenarios *)
(* ===================================================================== *)

Module Examples.
Import Model Effects Server.

Definition alice : User := {| user_id := 7; user_isAdmin := false |}.
Definition mallory : User := {| user_id := 8; user_isAdmin := false |}.

(** A journal row of [userId] written at [date]. *)
Definition entry (userId : Z) (content : string) (date : Z)
    (isJournal analyzed : bool) : JournalEntry :=
  {| je_userId := userId; je_content := content; je_title := "Journal Entry";
     je_date := date; je_isAiResponse := false; je_isJournal := isJournal;
     je_transcript := None; je_analyzed := analyzed; je_sentiment := None;
     je_deleted := false |}.

(** The language model answers every extraction with [result]; titles and
    sentiment analysis fail, so the handlers use their defaults. *)
Definition extracting (result : ExtractionResult) : Oracle :=
  {| apiKeyConfigured := true; now := 1000;
     generateJournalTitle := fun _ => None;
     analyzeSentiment := fun _ => None;
     storeEmbedding := fun _ _ => true;
     startFails := fun _ => false;
     extract := fun _ _ _ => inr result |}.

Definition nothingExtracted : ExtractionResult :=
  {| ex_goals := []; ex_tasks := []; ex_habits := [] |}.

Definition quiet : Oracle := extracting nothingExtracted.

Definition goalNamed (userId : Z) (name : string) : Goal :=
  {| g_userId := userId; g_name := name; g_description := None;
     g_category := None; g_target := 100; g_progress := 0; g_unit := "%";
     g_colorScheme := 1; g_status := "in_progress" |}.

Definition candidateNamed (name : string) : GoalCandidate :=
  {| gc_name := name; gc_description := None; gc_category := None |}.

(** Section 8 of the specification: one durable goal "Read more books", one
    unanalyzed entry, and an extraction that yields "read more books daily". *)
Definition readingStore : Storage :=
  withGoals {[ 1 := goalNamed 7 "Read more books" ]} 2
    (withJournal {[ 1 := entry 7 "I want to read more books every day." 10 true false ]}
                 2 emptyStorage).

Definition readingOracle : Oracle :=
  extracting {| ex_goals := [candidateNamed "read more books daily"];
                ex_tasks := []; ex_habits := [] |}.

(** The goals page with the same goal and the same suggestion. *)
Definition pageGoal (name : string) : Client.Goal :=
  {| Client.goal_id := 1; Client.goal_userId := 7; Client.goal_name := name;
     Client.goal_target := 100; Client.goal_progress := 0;
     Client.goal_unit := "%"; Client.goal_colorScheme := 1;
     Client.goal_description := None; Client.goal_category := "Personal";
     Client.goal_targetDate := None |}.

Definition pageSuggestion (name : string) : Client.SuggestedGoal :=
  {| Client.sg_id := "ai-goal-0"; Client.sg_name := name;
     Client.sg_description := "From your journal";
     Client.sg_category := Client.getGoalCategory name;
     Client.sg_targetDate := None;
     Client.sg_source := "Based on your journal entries" |}.

(** Two suggested goals, one of each user. *)
Definition suggestedGoal (userId : Z) (name : string) : AiGoal :=
  {| ag_userId := userId; ag_name := name; ag_description := None;
     ag_category := None; ag_source := "AI" |}.

Definition suggestionStore : Storage :=
  withAiGoals {[ 1 := suggestedGoal 7 "Walk every morning";
                 2 := suggestedGoal 8 "Drink more water" ]} 3 emptyStorage.

Definition suggestionWorld : World :=
  {| store := suggestionStore; trace := [] |}.


(** Four unanalyzed entries of one user, stored out of order of date. *)
Definition busyStore : Storage :=
  withJournal {[ 1 := entry 7 "Fourth" 40 true false;
                 2 := entry 7 "Second" 20 true false;
                 3 := entry 7 "First" 10 true false;
                 4 := entry 7 "Third" 30 true false ]} 5 emptyStorage.

(** A chat of two messages waiting to be saved. *)
Definition chatStore : Storage :=
  withJournal {[ 1 := entry 7 "ok" 10 false false;
                 2 := {| je_userId := 7; je_content := "Glad to hear it.";
                         je_title := "Chat"; je_date := 11; je_isAiResponse := true;
                         je_isJournal := false; je_transcript := None;
                         je_analyzed := false; je_sentiment := None;
                         je_deleted := false |} ]} 3 emptyStorage.

(** A note long enough (over 100 characters) to be handed to the suggestion
    module, and the request that saves it. *)
Definition longNote : string :=
  "Today I walked to the lake before work, wrote down three things I am grateful for and called my sister in the evening.".

Definition saveLongNote : JournalEntryBody :=
  {| jb_content := Some longNote; jb_userId := 7; jb_transcript := None;
     jb_date := Some 5 |}.

End Examples.

(* ===================================================================== *)
(** * The goals page: suggestions, submission, groups and the recycle bin *)
(* ===================================================================== *)

(** The rest of [client/src/pages/goals-page-backup.tsx]: the state of the
    component is a record, an event handler a function from the state to the
    new state and the requests it sends. *)
Module GoalsPage.
Import JsString Client.

(** [String(index)] of an array index: its decimal digits. *)
Definition numberToString (n : nat) : string :=
  NilEmpty.string_of_uint (Nat.to_uint n).

(** [x || ''] of a [string | null]: the empty string for [null]. *)
Definition orEmpty (x : option string) : string :=
  match x with Some s => s | None => EmptyString end.

(** [interface AISuggestion]; [type] is whatever the server sent. *)
Record AISuggestion := {
  as_name : string;
  as_type : string;
  as_description : string
}.

(** An element of [typeof AI_SUGGESTED_HABITS]. *)
Record SuggestedHabit := {
  sh_id : string;
  sh_title : string;
  sh_description : string;
  sh_frequency : string;
  sh_source : string
}.

(** [Habit] of the schema, with the fields the page reads. *)
Record Habit := {
  habit_id : Z;
  habit_title : string;
  habit_description : string;
  habit_frequency : string;
  habit_streak : Z;
  habit_userId : Z;
  habit_completedToday : bool
}.

Definition AI_SUGGESTED_GOALS : list SuggestedGoal :=
  [ {| sg_id := "ai-1"; sg_name := "Meditate for 10 minutes daily";
       sg_description := "Practice mindfulness meditation to reduce stress";
       sg_category := "Health"; sg_targetDate := None;
       sg_source := "Journal analysis identified stress as a recurring theme" |};
    {| sg_id := "ai-2"; sg_name := "Learn a new programming language";
       sg_description := "Expand your technical skills by learning a new language";
       sg_category := "Learning"; sg_targetDate := None;
       sg_source := "Based on your career interests" |};
    {| sg_id := "ai-3"; sg_name := "Read 20 books this year";
       sg_description := "Cultivate knowledge through regular reading";
       sg_category := "Personal"; sg_targetDate := None;
       sg_source := "Journal mentioned interest in reading more frequently" |} ].

Definition AI_SUGGESTED_HABITS : list SuggestedHabit :=
  [ {| sh_id := "ai-habit-1"; sh_title := "Drink 8 glasses of water";
       sh_description := "Stay hydrated throughout the day";
       sh_frequency := "daily"; sh_source := "General wellness recommendation" |};
    {| sh_id := "ai-habit-2"; sh_title := "15-minute morning walk";
       sh_description := "Start your day with fresh air and light exercise";
       sh_frequency := "daily";
       sh_source := "Journal entries show improved mood after outdoor activities" |};
    {| sh_id := "ai-habit-3"; sh_title := "Phone-free hour before sleep";
       sh_description := "Improve sleep quality by reducing blue light exposure";
       sh_frequency := "daily"; sh_source := "Journal mentioned trouble sleeping" |} ].

(** [aiSuggestions.goals.filter(item => item.type === 'goal').map(...)]: the
    index is the position among the suggestions of that type. *)
Definition goalItems (suggestions : list AISuggestion) : list SuggestedGoal :=
  imap (fun index item =>
          {| sg_id := "ai-goal-" +:+ numberToString index;
             sg_name := as_name item;
             sg_description := as_description item;
             sg_category := getGoalCategory (as_name item);
             sg_targetDate := None;
             sg_source := "Based on your journal entries" |})
       (List.filter (fun item => String.eqb (as_type item) "goal") suggestions).

Definition habitItems (suggestions : list AISuggestion) : list SuggestedHabit :=
  imap (fun index item =>
          {| sh_id := "ai-habit-" +:+ numberToString index;
             sh_title := as_name item;
             sh_description := as_description item;
             sh_frequency := determineFrequency (as_name item);
             sh_source := "Based on your journal entries" |})
       (List.filter (fun item => String.eqb (as_type item) "habit") suggestions).

(** The effect that runs when the suggestions are loaded: the values it
    passes to [setAiSuggestedGoals] and [setAiSuggestedHabits]. *)
Definition processSuggestions (goals : option (list AISuggestion))
  : list SuggestedGoal * list SuggestedHabit :=
  match goals with
  | Some ((_ :: _) as suggestions) =>
      ((if (0 <? length (goalItems suggestions))%nat
        then goalItems suggestions else AI_SUGGESTED_GOALS),
       (if (0 <? length (habitItems suggestions))%nat
        then habitItems suggestions else AI_SUGGESTED_HABITS))
  | _ => (AI_SUGGESTED_GOALS, AI_SUGGESTED_HABITS)
  end.

(** The callback of [habits.some(...)]: both titles are lower-cased. *)
Definition similarTitles (aiHabitTitle userHabitTitle : string) : bool :=
  includes userHabitTitle aiHabitTitle
  || includes aiHabitTitle userHabitTitle
  || (includes aiHabitTitle "water" && includes userHabitTitle "water")
  || (includes aiHabitTitle "walk" && includes userHabitTitle "walk")
  || (includes aiHabitTitle "meditate" && includes userHabitTitle "meditat")
  || (includes aiHabitTitle "read" && includes userHabitTitle "read").

(** [filteredAiSuggestedHabits]. *)
Definition filteredAiSuggestedHabits
    (habits : list Habit) (aiSuggestedHabits : list SuggestedHabit)
  : list SuggestedHabit :=
  List.filter
    (fun aiHabit =>
       let aiHabitTitle := toLowerCase (sh_title aiHabit) in
       negb (existsb (fun userHabit =>
                        let userHabitTitle := toLowerCase (habit_title userHabit) in
                        similarTitles aiHabitTitle userHabitTitle)
                     habits))
    aiSuggestedHabits.

(** [GoalFormValues] and [HabitFormValues], as the handlers fill them. *)
Record GoalFormValues := {
  gv_name : string;
  gv_description : string;
  gv_targetDate : string;
  gv_category : string;
  gv_target : Z;
  gv_progress : Z;
  gv_unit : string;
  gv_colorScheme : Z;
  gv_userId : Z
}.

Record HabitFormValues := {
  hv_title : string;
  hv_description : string;
  hv_frequency : string;
  hv_userId : Z
}.

(** [DeletedGoal]: a goal in the recycle bin of the page, with the time it
    was put there in milliseconds ([new Date(goal.deletedAt).getTime()]). *)
Record DeletedGoal := {
  dg_goal : Goal;
  dg_deletedAt : Z
}.

(** What a handler asks of the outside: a mutation sent to the server, or a
    toast shown to the user. *)
Inductive Request :=
| AddGoal (goal : GoalFormValues)
| AddHabit (habit : HabitFormValues)
| DeleteGoal (id : Z)
| UpdateGoalProgress (id progress : Z)
| Toast (title : string).

(** The [useState] values the handlers below set. *)
Record State := {
  aiSuggestedGoals : list SuggestedGoal;
  filteredGoals : list SuggestedGoal;
  aiSuggestedHabits : list SuggestedHabit;
  deletedGoals : list DeletedGoal;
  showNewGoalDialog : bool;
  showNewHabitDialog : bool
}.

Definition setSuggestedGoals (all shown : list SuggestedGoal) (st : State) : State :=
  {| aiSuggestedGoals := all; filteredGoals := shown;
     aiSuggestedHabits := aiSuggestedHabits st; deletedGoals := deletedGoals st;
     showNewGoalDialog := showNewGoalDialog st;
     showNewHabitDialog := showNewHabitDialog st |}.

Definition setAiSuggestedHabits (l : list SuggestedHabit) (st : State) : State :=
  {| aiSuggestedGoals := aiSuggestedGoals st; filteredGoals := filteredGoals st;
     aiSuggestedHabits := l; deletedGoals := deletedGoals st;
     showNewGoalDialog := showNewGoalDialog st;
     showNewHabitDialog := showNewHabitDialog st |}.

Definition setDeletedGoals (l : list DeletedGoal) (st : State) : State :=
  {| aiSuggestedGoals := aiSuggestedGoals st; filteredGoals := filteredGoals st;
     aiSuggestedHabits := aiSuggestedHabits st; deletedGoals := l;
     showNewGoalDialog := showNewGoalDialog st;
     showNewHabitDialog := showNewHabitDialog st |}.

Definition setShowNewGoalDialog (b : bool) (st : State) : State :=
  {| aiSuggestedGoals := aiSuggestedGoals st; filteredGoals := filteredGoals st;
     aiSuggestedHabits := aiSuggestedHabits st; deletedGoals := deletedGoals st;
     showNewGoalDialog := b; showNewHabitDialog := showNewHabitDialog st |}.

Definition setShowNewHabitDialog (b : bool) (st : State) : State :=
  {| aiSuggestedGoals := aiSuggestedGoals st; filteredGoals := filteredGoals st;
     aiSuggestedHabits := aiSuggestedHabits st; deletedGoals := deletedGoals st;
     showNewGoalDialog := showNewGoalDialog st; showNewHabitDialog := b |}.

(** The effect on [goals] and [aiSuggestedGoals]: it recomputes the list of
    suggestions that are shown. *)
Definition refilter (goals : list Goal) (st : State) : State :=
  setSuggestedGoals (aiSuggestedGoals st)
    (filteredAiSuggestedGoals goals (aiSuggestedGoals st)) st.

(** [goals.find(...)] of [onGoalSubmit]. *)
Definition similarGoal (goals : list Goal) (name : string) : option Goal :=
  List.find (fun goal =>
               includes (toLowerCase (goal_name goal)) (toLowerCase name)
               || includes (toLowerCase name) (toLowerCase (goal_name goal)))
            goals.

Definition quote : string := String "034"%char EmptyString.

Definition similarGoalQuestion (name : string) : string :=
  "A similar goal " +:+ quote +:+ name +:+ quote
  +:+ " already exists. Do you still want to create this goal?".

(** [onGoalSubmit]; [confirm] is [window.confirm]. *)
Definition onGoalSubmit (confirm : string -> bool) (goals : list Goal)
    (values : GoalFormValues) (st : State) : State * list Request :=
  match similarGoal goals (gv_name values) with
  | Some similar =>
      if confirm (similarGoalQuestion (goal_name similar))
      then (st, [AddGoal values])
      else (setShowNewGoalDialog false st, [])
  | None => (st, [AddGoal values])
  end.

(** [habits.find(...)] of [onHabitSubmit]. *)
Definition similarHabit (habits : list Habit) (title : string) : option Habit :=
  List.find (fun habit =>
               includes (toLowerCase (habit_title habit)) (toLowerCase title)
               || includes (toLowerCase title) (toLowerCase (habit_title habit)))
            habits.

Definition similarHabitQuestion (title : string) : string :=
  "A similar habit " +:+ quote +:+ title +:+ quote
  +:+ " already exists. Do you still want to create this habit?".

(** [onHabitSubmit]. *)
Definition onHabitSubmit (confirm : string -> bool) (habits : list Habit)
    (values : HabitFormValues) (st : State) : State * list Request :=
  match similarHabit habits (hv_title values) with
  | Some similar =>
      if confirm (similarHabitQuestion (habit_title similar))
      then (st, [AddHabit values])
      else (setShowNewHabitDialog false st, [])
  | None => (st, [AddHabit values])
  end.

(** [!user?.id]: no user, or a user whose id is 0. *)
Definition noUser (userId : option Z) : bool :=
  match userId with
  | Some id => id =? 0
  | None => true
  end.

(** [adoptAiGoal]. *)
Definition adoptAiGoal (userId : option Z) (aiGoal : SuggestedGoal) (st : State)
  : State * list Request :=
  if noUser userId then (st, [])
  else
    let keep := fun g => negb (String.eqb (sg_id g) (sg_id aiGoal)) in
    (setSuggestedGoals (List.filter keep (aiSuggestedGoals st))
                       (List.filter keep (filteredGoals st)) st,
     [AddGoal {| gv_name := sg_name aiGoal;
                 gv_description := sg_description aiGoal;
                 gv_targetDate := orEmpty (sg_targetDate aiGoal);
                 gv_category := sg_category aiGoal;
                 gv_target := 100; gv_progress := 0; gv_unit := "%";
                 gv_colorScheme := 1;
                 gv_userId := default 0 userId |}]).

(** [adoptAiHabit]. *)
Definition adoptAiHabit (userId : option Z) (aiHabit : SuggestedHabit) (st : State)
  : State * list Request :=
  if noUser userId then (st, [])
  else
    (setAiSuggestedHabits
       (List.filter (fun h => negb (String.eqb (sh_id h) (sh_id aiHabit)))
                    (aiSuggestedHabits st)) st,
     [AddHabit {| hv_title := sh_title aiHabit;
                  hv_description := sh_description aiHabit;
                  hv_frequency := sh_frequency aiHabit;
                  hv_userId := default 0 userId |}]).

(** The property names every object inherits from [Object.prototype]:
    [acc[category]] is a function or an object for them, so that
    [acc[category].push(goal)] throws a [TypeError]. *)
Definition objectPrototypeKeys : list string :=
  [ "constructor"; "__proto__"; "hasOwnProperty"; "isPrototypeOf";
    "propertyIsEnumerable"; "toLocaleString"; "toString"; "valueOf";
    "__defineGetter__"; "__defineSetter__"; "__lookupGetter__";
    "__lookupSetter__" ].

(** [goal.category || "Other"]. *)
Definition categoryOf (goal : Goal) : string :=
  if String.eqb (goal_category goal) EmptyString then "Other" else goal_category goal.

(** The callback of [goals.reduce]; [None] is the thrown [TypeError]. *)
Definition addToCategory (acc : option (gmap string (list Goal))) (goal : Goal)
  : option (gmap string (list Goal)) :=
  match acc with
  | None => None
  | Some groups =>
      let category := categoryOf goal in
      if bool_decide (category ∈ objectPrototypeKeys) then None
      else Some (<[category := default [] (groups !! category) ++ [goal]]> groups)
  end.

(** [goalsByCategory]. *)
Definition goalsByCategory (goals : list Goal) : option (gmap string (list Goal)) :=
  fold_left addToCategory goals (Some ∅).

(** [deleteGoalMutation.mutationFn]: the goal is copied to the recycle bin
    of the page with the time of deletion, then deleted on the server. *)
Definition deleteGoal (now : Z) (goals : list Goal) (id : Z) (st : State)
  : State * list Request :=
  (match List.find (fun g => goal_id g =? id) goals with
   | Some goalToDelete =>
       setDeletedGoals
         (deletedGoals st ++ [{| dg_goal := goalToDelete; dg_deletedAt := now |}]) st
   | None => st
   end,
   [DeleteGoal id]).

Definition notGoal (goalId : Z) (g : DeletedGoal) : bool :=
  negb (goal_id (dg_goal g) =? goalId).

(** [restoreGoal]. *)
Definition restoreGoal (goalId : Z) (st : State) : State * list Request :=
  match List.find (fun g => goal_id (dg_goal g) =? goalId) (deletedGoals st) with
  | None => (st, [])
  | Some goalToRestore =>
      let goalData := dg_goal goalToRestore in
      (setDeletedGoals (List.filter (notGoal goalId) (deletedGoals st)) st,
       [AddGoal {| gv_name := goal_name goalData;
                   gv_description := orEmpty (goal_description goalData);
                   gv_targetDate := orEmpty (goal_targetDate goalData);
                   gv_category := goal_category goalData;
                   gv_target := goal_target goalData;
                   gv_progress := goal_progress goalData;
                   gv_unit := if String.eqb (goal_unit goalData) EmptyString
                              then "%" else goal_unit goalData;
                   gv_colorScheme := if goal_colorScheme goalData =? 0
                                     then 1 else goal_colorScheme goalData;
                   gv_userId := goal_userId goalData |};
        Toast "Goal restored"])
  end.

(** [permanentlyDeleteGoal]. *)
Definition permanentlyDeleteGoal (goalId : Z) (st : State) : State * list Request :=
  (setDeletedGoals (List.filter (notGoal goalId) (deletedGoals st)) st,
   [Toast "Goal deleted permanently"]).

(** [Math.ceil(a / b)] for an integer [a] and a positive integer [b].  The
    division of JavaScript gives the exact ceiling as long as the quotient is
    far below 2^26, which a number of days between two time stamps is. *)
Definition ceilDiv (a b : Z) : Z := - ((- a) / b).

Definition millisecondsPerDay : Z := 24 * 60 * 60 * 1000.

(** [isPremiumUser]. *)
Definition isPremiumUser (userId : option Z) : bool :=
  match userId with
  | Some id => id =? 1
  | None => false
  end.

(** [daysRemaining] of an item of the recycle bin, from the time it was
    deleted and the current time, both in milliseconds. *)
Definition daysRemaining (isPremium : bool) (deletedAt now : Z) : Z :=
  let expiresIn := if isPremium then 30 else 7 in
  let expirationDate := deletedAt + expiresIn * 24 * 60 * 60 * 1000 in
  ceilDiv (expirationDate - now) millisecondsPerDay.

(** The "Update" button of a goal: [Math.min(100, goal.progress + 10)]. *)
Definition updateProgress (goal : Goal) : Request :=
  UpdateGoalProgress (goal_id goal) (Z.min 100 (goal_progress goal + 10)).

End GoalsPage.

(* ===================================================================== *)
(** * Pages, requests and tables of the examples *)
(* ===================================================================== *)

Module Samples.

(** A page on which nothing has happened yet. *)
Definition freshPage : GoalsPage.State :=
  {| GoalsPage.aiSuggestedGoals := GoalsPage.AI_SUGGESTED_GOALS;
     GoalsPage.filteredGoals := GoalsPage.AI_SUGGESTED_GOALS;
     GoalsPage.aiSuggestedHabits := GoalsPage.AI_SUGGESTED_HABITS;
     GoalsPage.deletedGoals := [];
     GoalsPage.showNewGoalDialog := false;
     GoalsPage.showNewHabitDialog := false |}.

(** A goal of user 7 on the page. *)
Definition goal (id : Z) (name category : string) (progress : Z) : Client.Goal :=
  {| Client.goal_id := id; Client.goal_userId := 7; Client.goal_name := name;
     Client.goal_target := 100; Client.goal_progress := progress;
     Client.goal_unit := EmptyString; Client.goal_colorScheme := 0;
     Client.goal_description := None; Client.goal_category := category;
     Client.goal_targetDate := None |}.

Definition marathon : Client.Goal := goal 4 "Run a marathon" "Health" 40.

(** The first of the built-in suggested goals. *)
Definition meditation : Client.SuggestedGoal :=
  {| Client.sg_id := "ai-1"; Client.sg_name := "Meditate for 10 minutes daily";
     Client.sg_description := "Practice mindfulness meditation to reduce stress";
     Client.sg_category := "Health"; Client.sg_targetDate := None;
     Client.sg_source := "Journal analysis identified stress as a recurring theme" |}.

End Samples.

(* ===================================================================== *)
(** * Request bodies *)
(* ===================================================================== *)

(** The body of a request after [express.json()]: an object whose values
    are the primitive values of JSON (the handlers below read nothing
    else).  A key that is absent reads as [undefined]. *)
Module Json.

Inductive Value :=
| Null
| Bool (b : bool)
| Num (n : Z)
| Str (s : string).

#[global] Instance Value_eq_dec : EqDecision Value.
Proof. solve_decision. Defined.

Abbreviation Object := (gmap string Value).

(** Whether [x] counts as true in [if (x)], [!x] and [x && y]. *)
Definition truthy (x : option Value) : bool :=
  match x with
  | None => false
  | Some Null => false
  | Some (Bool b) => b
  | Some (Num n) => negb (n =? 0)
  | Some (Str s) => negb (String.eqb s EmptyString)
  end.

(** [req.user] with the fields the handlers below read. *)
Record Requester := {
  req_id : Z;
  req_isAdmin : bool;
  req_email : Value;
  req_username : string
}.

(** The answers of the handlers below. *)
Inductive Reply :=
| Status (code : Z)                      (* res.sendStatus(code) *)
| Failure (code : Z) (error : string)    (* res.status(code).json({ error }) *)
| Message (code : Z) (message : string)  (* res.status(code).json({ message }) *)
| Row (code : Z) (row : Object).         (* res.status(code).json(row) *)

Definition code (r : Reply) : Z :=
  match r with
  | Status c | Failure c _ | Message c _ | Row c _ => c
  end.

End Json.

(* ===================================================================== *)
(** * Users: profile and password ([server/routes.ts]) *)
(* ===================================================================== *)

(** The handlers on users call the storage layer, which is not part of the
    source tree: they are written over any state [S] of the storage layer
    and any implementation of the calls they make. *)
Module Accounts.
Import Json.

(** [allowedFields] of [PATCH /api/users/:id]. *)
Definition allowedFields : list string :=
  [ "firstName"; "lastName"; "name"; "displayName"; "email"; "avatar";
    "pronouns"; "dateOfBirth"; "location"; "bio"; "hobbies"; "interests" ].

(** The loop over [allowedFields]. *)
Definition copyAllowed (body : Object) : Object :=
  fold_left (fun updateData field =>
               match body !! field with
               | Some value => <[field := value]> updateData
               | None => updateData
               end)
            allowedFields ∅.

(** [updateData.email && updateData.email !== req.user.email]. *)
Definition emailChanged (updateData : Object) (currentEmail : Value) : bool :=
  truthy (updateData !! "email")
  && negb (bool_decide (updateData !! "email" = Some currentEmail)).

(** The object [PATCH /api/users/:id] passes to [storage.updateUser];
    [token] is [crypto.randomBytes(20).toString('hex')]. *)
Definition buildUpdateData (body : Object) (currentEmail : Value) (token : string)
  : Object :=
  let updateData := copyAllowed body in
  if emailChanged updateData currentEmail
  then <["verificationToken" := Str token]> (<["isVerified" := Bool false]> updateData)
  else updateData.

(** [const { password, ...userWithoutPassword } = user]. *)
Definition withoutPassword (user : Object) : Object := delete "password" user.

Definition resetLinkSent : string :=
  "If the email exists, a reset link has been sent".

Section Handlers.
Context {S : Type}.
Variable getUser : Z -> S -> option Object.
Variable getUserByEmail : Value -> S -> option (Z * Object).
Variable updateUser : Z -> Object -> S -> Object * S.

(** [GET /api/users/:id]. *)
Definition getUserHandler (user : option Requester) (userId : Z) (s : S) : Reply * S :=
  match user with
  | None => (Status 401, s)
  | Some u =>
      if negb (req_id u =? userId) && negb (req_isAdmin u) then (Status 403, s)
      else match getUser userId s with
           | None => (Failure 404 "User not found", s)
           | Some row => (Row 200 (withoutPassword row), s)
           end
  end.

(** [PATCH /api/users/:id]. *)
Definition patchUser (user : option Requester) (userId : Z) (body : Object)
    (token : string) (s : S) : Reply * S :=
  match user with
  | None => (Status 401, s)
  | Some u =>
      if negb (req_id u =? userId) && negb (req_isAdmin u) then (Status 403, s)
      else
        let '(updatedUser, s') :=
          updateUser userId (buildUpdateData body (req_email u) token) s in
        (Row 200 (withoutPassword updatedUser), s')
  end.

(** [POST /api/forgot-password]; [resetToken] and [resetExpiry] are the
    random token and the time one hour from now. *)
Definition forgotPassword (body : Object) (resetToken resetExpiry : string) (s : S)
  : Reply * S :=
  match body !! "email" with
  | Some email =>
      if negb (truthy (Some email)) then (Failure 400 "Email is required", s)
      else match getUserByEmail email s with
           | None => (Message 200 resetLinkSent, s)
           | Some (id, _) =>
               let '(_, s') :=
                 updateUser id {[ "resetPasswordToken" := Str resetToken;
                                  "resetPasswordExpires" := Str resetExpiry ]} s in
               (Message 200 resetLinkSent, s')
           end
  | None => (Failure 400 "Email is required", s)
  end.

End Handlers.

End Accounts.

(* ===================================================================== *)
(** * Goals: creating and updating ([server/routes.ts]) *)
(* ===================================================================== *)

Module GoalsApi.
Import Json.

(** The object [POST /api/goals] passes to [storage.createGoal]: the fields
    destructured from the body, and [progress: 0]. *)
Record InsertGoal := {
  ig_userId : option Value;
  ig_name : option Value;
  ig_description : option Value;
  ig_category : option Value;
  ig_targetDate : option Value;
  ig_target : option Value;
  ig_progress : Value;
  ig_unit : option Value;
  ig_colorScheme : option Value
}.

(** [POST /api/goals]: the status of a refusal, or the goal that is created
    and sent back with status 201. *)
Definition postGoal (user : option Requester) (body : Object) : Z + InsertGoal :=
  match user with
  | None => inl 401
  | Some u =>
      if negb (bool_decide (body !! "userId" = Some (Num (req_id u)))) then inl 403
      else inr {| ig_userId := body !! "userId";
                  ig_name := body !! "name";
                  ig_description := body !! "description";
                  ig_category := body !! "category";
                  ig_targetDate := body !! "targetDate";
                  ig_target := body !! "target";
                  ig_progress := Num 0;
                  ig_unit := body !! "unit";
                  ig_colorScheme := body !! "colorScheme" |}
  end.

(** What [PATCH /api/goals/:goalId] asks of the storage layer. *)
Inductive GoalUpdate :=
| ProgressOnly (progress : Value)  (* updateGoalProgress(goalId, progress) *)
| Recreate (updatedData : Object). (* deleteGoal(goalId); createGoal(updatedData) *)

(** [PATCH /api/goals/:goalId]; [owner] is the [userId] of the goal
    [storage.getGoalById] returns, if it returns one. *)
Definition patchGoal (user : option Requester) (owner : option Z) (body : Object)
  : Z + GoalUpdate :=
  match user with
  | None => inl 401
  | Some u =>
      match owner with
      | None => inl 404
      | Some ownerId =>
          if negb (ownerId =? req_id u) then inl 403
          else match body !! "progress" with
               | Some progress =>
                   if (size body =? 1)%nat then inr (ProgressOnly progress)
                   else inr (Recreate (<["userId" := Num (req_id u)]> body))
               | None => inr (Recreate (<["userId" := Num (req_id u)]> body))
               end
      end
  end.

(** [JSON.stringify] of the values of the goal form, as the page sends them
    with [POST /api/goals] and, without the identifier, with
    [PATCH /api/goals/:id]. *)
Definition encodeGoal (values : GoalsPage.GoalFormValues) : Object :=
  {[ "name" := Str (GoalsPage.gv_name values);
     "description" := Str (GoalsPage.gv_description values);
     "targetDate" := Str (GoalsPage.gv_targetDate values);
     "category" := Str (GoalsPage.gv_category values);
     "target" := Num (GoalsPage.gv_target values);
     "progress" := Num (GoalsPage.gv_progress values);
     "unit" := Str (GoalsPage.gv_unit values);
     "colorScheme" := Num (GoalsPage.gv_colorScheme values);
     "userId" := Num (GoalsPage.gv_userId values) ]}.

(** The body of [updateGoalProgressMutation]: [{ progress }]. *)
Definition encodeProgress (progress : Z) : Object :=
  {[ "progress" := Num progress ]}.

End GoalsApi.

(* ===================================================================== *)
(** * The chat: what is asked of the language model ([server/routes.ts]) *)
(* ===================================================================== *)

Module Chat.
Import JsString Json.

Definition multiPartPrefix : string := "__MULTI_PART_PROMPT__:".
Definition askPrefix : string := "ASK_ME_ABOUT:".

(** [s.substring(n)]. *)
Fixpoint dropChars (n : nat) (s : string) : string :=
  match n, s with
  | O, _ => s
  | S n', String _ r => dropChars n' r
  | S _, EmptyString => EmptyString
  end.

(** [s.replace(pattern, '')] for a string [pattern]: the first occurrence
    of the pattern is taken out. *)
Fixpoint removeFirst (s pattern : string) : string :=
  if startsWith s pattern then dropChars (String.length pattern) s
  else match s with
       | EmptyString => EmptyString
       | String c r => String c (removeFirst r pattern)
       end.

(** The content of a message: a text of the conversation, or one of the two
    instruction texts of the handler, which quote the prompt. *)
Inductive Content :=
| Plain (text : string)
| MultiPartGuide (promptContent : string)
| AskGuide (promptContent : string).

Record ChatMessage := { role : string; content : Content }.

(** The arguments of one call of [generateAIResponse]. *)
Record AiCall := {
  prompt : string;
  history : list ChatMessage;
  username : string;
  userId : Z;
  isMultiPart : option bool
}.

(** The body of [POST /api/chat-response]. *)
Record ChatBody := {
  cb_content : string;
  cb_userId : Z;
  cb_history : list (string * string)
}.

(** [req.user.username || "User"]. *)
Definition displayName (u : Requester) : string :=
  if String.eqb (req_username u) EmptyString then "User" else req_username u.

(** [POST /api/chat-response]: the status of a refusal, or the call of
    [generateAIResponse] whose result is sent back. *)
Definition chatResponse (user : option Requester) (b : ChatBody) : Z + AiCall :=
  match user with
  | None => inl 401
  | Some u =>
      if negb (req_id u =? cb_userId b) then inl 403
      else
        let conversationHistory :=
          map (fun entry => {| role := entry.1; content := Plain entry.2 |})
              (cb_history b) in
        if startsWith (cb_content b) multiPartPrefix
        then
          let promptContent := trim (removeFirst (cb_content b) multiPartPrefix) in
          let systemMessage :=
            {| role := "system"; content := MultiPartGuide promptContent |} in
          inr {| prompt := promptContent;
                 history := systemMessage :: conversationHistory;
                 username := displayName u; userId := cb_userId b;
                 isMultiPart := Some true |}
        else if startsWith (cb_content b) askPrefix
        then
          let promptContent := trim (removeFirst (cb_content b) askPrefix) in
          let systemMessage :=
            {| role := "system"; content := AskGuide promptContent |} in
          inr {| prompt := promptContent;
                 history := [systemMessage];
                 username := displayName u; userId := cb_userId b;
                 isMultiPart := Some false |}
        else
          inr {| prompt := cb_content b;
                 history := conversationHistory;
                 username := displayName u; userId := cb_userId b;
                 isMultiPart := None |}
  end.

End Chat.

(* ===================================================================== *)
(** * More handlers on journal entries ([server/routes.ts]) *)
(* ===================================================================== *)

Module Entries.
Import JsString Model Effects Store Server System.
Local Open Scope handler_scope.

(** [GET /api/journal-entries/entry/:id]. *)
Definition getEntry (user : option User) (id : Z) : M Response Response :=
  do u <- requireAuth user;
  do s <- getStore;
  match getJournalEntryById id s with
  | None => fail (json 404 (ErrorBody "Journal entry not found"))
  | Some entry =>
      if negb (Z.eqb (je_userId entry) (user_id u))
      then fail (sendStatus 403)
      else ret (json 200 (EntryBody id))
  end.

(** The four requests on one journal entry. *)
Inductive EntryRequest := Read | Delete | Restore | DeleteForever.

Definition entryRequest (r : EntryRequest) : option User -> Z -> M Response Response :=
  match r with
  | Read => getEntry
  | Delete => deleteEntry
  | Restore => restoreEntry
  | DeleteForever => permanentlyDeleteEntry
  end.

(** The user a request is made by, for the steps that are requests. *)
Definition requester (op : Op) : option (option User) :=
  match op with
  | PostJournalEntry user _ | SaveChat user _ | DeleteEntry user _
  | RestoreEntry user _ | PermanentlyDeleteEntry user _ | Accept _ user _
  | Reject _ user _ | Run _ user _ | AdminProcessAll user => Some user
  | BackgroundSingleEntry _ | BackgroundAllEntries => None
  end.

(** The counters of [POST /api/admin/generate-journal-titles]. *)
Record TitleStats := {
  total : nat;
  generated : nat;
  skipped : nat;
  failed : nat
}.

(** The answers of that handler. *)
Inductive TitlesReply :=
| Refused (code : Z)
| TitlesGenerated (stats : TitleStats).

Definition setTitle (title : string) (e : JournalEntry) : JournalEntry :=
  {| je_userId := je_userId e; je_content := je_content e;
     je_title := title; je_date := je_date e;
     je_isAiResponse := je_isAiResponse e; je_isJournal := je_isJournal e;
     je_transcript := je_transcript e; je_analyzed := je_analyzed e;
     je_sentiment := je_sentiment e; je_deleted := je_deleted e |}.

(** A loop that carries a value from one element to the next. *)
Fixpoint foldEach {E A B} (xs : list A) (acc : B) (body : B -> A -> M E B) : M E B :=
  match xs with
  | [] => ret acc
  | x :: rest => do acc' <- body acc x; foldEach rest acc' body
  end.

(** The body of the loop over the entries: an entry with a title is
    skipped; otherwise a title is generated from the transcript, or from
    the content, and written to the row of the entry; a failure of the
    generation is counted and the loop goes on. *)
Definition titleStep (o : Oracle) (stats : TitleStats) (entry : Z * JournalEntry)
  : M TitlesReply TitleStats :=
  if negb (String.eqb (je_title entry.2) EmptyString)
  then ret {| total := total stats; generated := generated stats;
              skipped := S (skipped stats); failed := failed stats |}
  else
    let contentForTitle := transcriptOr (je_transcript entry.2) (je_content entry.2) in
    run emit (CallGenerateJournalTitle contentForTitle);
    match generateJournalTitle o contentForTitle with
    | Some title =>
        run modify (alterJournal (setTitle title) entry.1);
        ret {| total := total stats; generated := S (generated stats);
               skipped := skipped stats; failed := failed stats |}
    | None =>
        ret {| total := total stats; generated := generated stats;
               skipped := skipped stats; failed := S (failed stats) |}
    end.

(** [if (entry.title)]. *)
Definition titled (r : Z * JournalEntry) : bool :=
  negb (String.eqb (je_title r.2) EmptyString).

(** [db.select().from(journalEntries).where(eq(journalEntries.isJournal, true))]. *)
Definition journalRows (s : Storage) : list (Z * JournalEntry) :=
  List.filter (fun r => je_isJournal r.2) (rows (journalEntries s)).

(** [POST /api/admin/generate-journal-titles]. *)
Definition generateJournalTitles (o : Oracle) (user : option User)
  : M TitlesReply TitlesReply :=
  match user with
  | None => fail (Refused 401)
  | Some u =>
      if negb (user_isAdmin u) then fail (Refused 403)
      else
        do s <- getStore;
        let entriesWithoutTitles := journalRows s in
        do stats <- foldEach entriesWithoutTitles
                      {| total := length entriesWithoutTitles; generated := 0;
                         skipped := 0; failed := 0 |}
                      (titleStep o);
        ret (TitlesGenerated stats)
  end.

End Entries.

(* ===================================================================== *)
(** * The PayPal settings ([server/routes/paypal-settings.ts]) *)
(* ===================================================================== *)

(** The table [system_settings] is a map from its unique key to the value;
    [insert ... onConflictDoUpdate] on the key is the insertion into the
    map.  [process.env] is a map as well. *)
Module PaypalSettings.
Import Json.

Record Config := {
  systemSettings : gmap string string;
  env : gmap string string
}.

Record Settings := {
  clientId : string;
  clientSecret : string;
  mode : string;
  callbackUrl : string
}.

Inductive SettingsReply :=
| Unauthorized                      (* 403 *)
| Current (settings : Settings)     (* 200 *)
| Saved                             (* 200 *)
| Rejected.                         (* 400, the errors of the validation *)

(** [requireAdmin]. *)
Definition requireAdmin (user : option Requester) : bool :=
  match user with
  | Some u => req_isAdmin u
  | None => false
  end.

(** [rows[0]?.value || fallback] of the row with a given key. *)
Definition setting (key fallback : string) (c : Config) : string :=
  match systemSettings c !! key with
  | Some value => if String.eqb value EmptyString then fallback else value
  | None => fallback
  end.

(** [GET /api/admin/paypal-settings]. *)
Definition getSettings (user : option Requester) (c : Config) : SettingsReply :=
  if requireAdmin user
  then Current {| clientId := setting "paypal_client_id" EmptyString c;
                  clientSecret := setting "paypal_client_secret" EmptyString c;
                  mode := setting "paypal_mode" "sandbox" c;
                  callbackUrl := setting "paypal_callback_url" EmptyString c |}
  else Unauthorized.

Definition upsert (key value : string) (c : Config) : Config :=
  {| systemSettings := <[key := value]> (systemSettings c); env := env c |}.

Definition setEnv (key value : string) (c : Config) : Config :=
  {| systemSettings := systemSettings c; env := <[key := value]> (env c) |}.

Section Validation.
(** Whether a string is a URL, as [z.string().url()] decides. *)
Variable isUrl : string -> bool.

(** [z.string().min(1)]. *)
Definition nonEmptyString (x : option Value) : option string :=
  match x with
  | Some (Str s) => if String.eqb s EmptyString then None else Some s
  | _ => None
  end.

(** [paypalSettingsSchema.parse(req.body)]; [None] is the thrown
    [ZodError].  The callback URL may be absent. *)
Definition parseSettings (body : Object) : option (string * string * string * option string) :=
  match nonEmptyString (body !! "clientId"),
        nonEmptyString (body !! "clientSecret"),
        body !! "mode" with
  | Some id, Some secret, Some (Str m) =>
      if String.eqb m "sandbox" || String.eqb m "live"
      then match body !! "callbackUrl" with
           | None => Some (id, secret, m, None)
           | Some (Str url) => if isUrl url then Some (id, secret, m, Some url) else None
           | Some _ => None
           end
      else None
  | _, _, _ => None
  end.

(** [POST /api/admin/paypal-settings]. *)
Definition postSettings (user : option Requester) (body : Object) (c : Config)
  : SettingsReply * Config :=
  if requireAdmin user
  then match parseSettings body with
       | None => (Rejected, c)
       | Some (id, secret, m, url) =>
           let c1 := upsert "paypal_client_id" id c in
           let c2 := upsert "paypal_client_secret" secret c1 in
           let c3 := upsert "paypal_mode" m c2 in
           let c4 := match url with
                     | Some u => if String.eqb u EmptyString then c3
                                 else upsert "paypal_callback_url" u c3
                     | None => c3
                     end in
           (Saved, setEnv "PAYPAL_CLIENT_SECRET" secret (setEnv "PAYPAL_CLIENT_ID" id c4))
       end
  else (Unauthorized, c).

End Validation.

End PaypalSettings.

(* ===================================================================== *)
(** * Which handler answers a request *)
(* ===================================================================== *)

(** The routes [registerRoutes] registers, in the order of registration:
    [setupTaskRoutes(app)] mounts the router of the tasks on [/api/tasks]
    before the first [app.get] of [server/routes.ts].  Express hands a
    request to the first route whose method and path pattern match it, and
    each of these handlers answers the request itself.  A path is the list
    of its segments; a parameter of a pattern matches any one segment, a
    literal matches without regard to case. *)
Module Routing.
Import JsString.

Inductive Method := GET | POST | PATCH | DELETE.

#[global] Instance Method_eq_dec : EqDecision Method.
Proof. solve_decision. Defined.


(** The file a route is registered in. *)
Inductive Origin := RoutesTs | TaskRouter.

#[global] Instance Origin_eq_dec : EqDecision Origin.
Proof. solve_decision. Defined.

















End Routing.

(* ===================================================================== *)
(** * Requesters of the examples *)
(* ===================================================================== *)

Module People.

(** User 7, who is no administrator, and an administrator. *)
Definition runner : Json.Requester :=
  {| Json.req_id := 7; Json.req_isAdmin := false;
     Json.req_email := Json.Str "runner@example.org";
     Json.req_username := "runner" |}.

Definition root : Json.Requester :=
  {| Json.req_id := 1; Json.req_isAdmin := true;
     Json.req_email := Json.Str "root@example.org";
     Json.req_username := "root" |}.

Definition admin : Server.User :=
  {| Server.user_id := 1; Server.user_isAdmin := true |}.

End People.

Module Samples2.

(** Live settings without callback URL, and a table that has one. *)
Definition liveSettings : Json.Object :=
  {[ "clientId" := Json.Str "abc"; "clientSecret" := Json.Str "s3cret";
     "mode" := Json.Str "live" ]}.

Definition storedCallback : PaypalSettings.Config :=
  {| PaypalSettings.systemSettings :=
       {[ "paypal_callback_url" := "https://example.org/back" ]};
     PaypalSettings.env := ∅ |}.


(** A journal entry without title, one with a title and a chat message; a
    language model that calls every entry "Untitled thoughts". *)
Definition halfTitled : Model.Storage :=
  Model.withJournal
    {[ 1 := {| Model.je_userId := 7; Model.je_content := "A walk in the rain.";
               Model.je_title := EmptyString; Model.je_date := 10;
               Model.je_isAiResponse := false; Model.je_isJournal := true;
               Model.je_transcript := None; Model.je_analyzed := true;
               Model.je_sentiment := None; Model.je_deleted := false |};
       2 := Examples.entry 7 "A long day at work." 11 true true;
       3 := Examples.entry 7 "hello" 12 false false ]} 4 Model.emptyStorage.

(** Two chat messages of the user 7, the answer of the assistant between
    them, and a journal entry of the user. *)
Definition chatting : Model.Storage :=
  Model.withJournal
    {[ 1 := Examples.entry 7 "I ran today." 10 false false;
       2 := {| Model.je_userId := 7; Model.je_content := "Well done!";
               Model.je_title := EmptyString; Model.je_date := 11;
               Model.je_isAiResponse := true; Model.je_isJournal := false;
               Model.je_transcript := None; Model.je_analyzed := false;
               Model.je_sentiment := None; Model.je_deleted := false |};
       3 := Examples.entry 7 "Tomorrow again." 12 false false;
       4 := Examples.entry 7 "A long day at work." 9 true true ]} 5
    Model.emptyStorage.

Definition titling : Effects.Oracle :=
  {| Effects.apiKeyConfigured := true; Effects.now := 1000;
     Effects.generateJournalTitle := fun _ => Some "Untitled thoughts";
     Effects.analyzeSentiment := fun _ => None;
     Effects.storeEmbedding := fun _ _ => true;
     Effects.startFails := fun _ => false;
     Effects.extract := fun _ _ _ => inr Examples.nothingExtracted |}.

End Samples2.

(* ===================================================================== *)
(** * What a journal entry does to the goals *)
(* ===================================================================== *)

Module Progress.
Import JsString Model Effects Store.

(** The goal [g] carries the name of the goal [sg] of an analysis, up to
    the case of the letters, and [sg] comes with the completion [c]. *)
Definition reports (sgs : list SentimentGoal) (g : Goal) (c : Z) : Prop :=
  exists sg, In sg sgs
             /\ sentgoal_completion sg = Some c
             /\ toLowerCase (g_name g) = toLowerCase (sentgoal_name sg).

(** From one world to the next no goal appears or disappears, and a goal
    that changes is a goal of [userId] that the analysis reports, with the
    reported completion as its progress. *)
Definition Follows (sgs : list SentimentGoal) (userId : Z) (w w' : World) : Prop :=
  forall gid,
    match goals (store w) !! gid with
    | None => goals (store w') !! gid = None
    | Some g =>
        goals (store w') !! gid = Some g
        \/ (g_userId g = userId
            /\ exists c, reports sgs g c
                         /\ goals (store w') !! gid = Some (setProgress c g))
    end.

(** The goals that the analysis of the content of a request reports. *)
Definition reported (o : Oracle) (b : Server.JournalEntryBody) : list SentimentGoal :=
  match Server.jb_content b with
  | Some content =>
      match analyzeSentiment o content with
      | Some sentiment => sent_goals sentiment
      | None => []
      end
  | None => []
  end.

End Progress.

(* ===================================================================== *)
(** * Facts about strings *)
(* ===================================================================== *)

Section StringFacts.
Import JsString.

Lemma append_nil_l s : EmptyString +:+ s = s.
Proof. reflexivity. Qed.

Lemma append_cons c s t : String c s +:+ t = String c (s +:+ t).
Proof. reflexivity. Qed.

Lemma append_nil_r s : s +:+ EmptyString = s.
Proof.
  induction s as [|c s IH]; [reflexivity|].
  rewrite append_cons, IH. reflexivity.
Qed.

Lemma append_assoc s t u : (s +:+ t) +:+ u = s +:+ t +:+ u.
Proof.
  induction s as [|c s IH]; [reflexivity|].
  rewrite !append_cons, IH. reflexivity.
Qed.

Lemma startsWith_spec s p :
  startsWith s p = true <-> exists b, s = p +:+ b.
Proof.
  revert s; induction p as [|a p IH]; intros s; simpl.
  - split; [intros _; exists s; reflexivity | intros _; reflexivity].
  - destruct s as [|b s].
    + split; [discriminate | intros [r Hr]; discriminate].
    + rewrite andb_true_iff, Ascii.eqb_eq, IH. split.
      * intros [-> [r ->]]. exists r. reflexivity.
      * intros [r Hr]. rewrite append_cons in Hr.
        injection Hr as -> ->. split; [reflexivity | eauto].
Qed.

Lemma includes_spec s p : includes s p = true <-> Substring p s.
Proof.
  unfold Substring. induction s as [|c s IH].
  - simpl. rewrite orb_false_r, startsWith_spec. split.
    + intros [b Hb]. exists EmptyString, b. exact Hb.
    + intros [a [b Hab]]. destruct a.
      * exists b. exact Hab.
      * rewrite append_cons in Hab. discriminate.
  - cbn [includes]. rewrite orb_true_iff, startsWith_spec, IH. split.
    + intros [[b Hb] | [a [b Hab]]].
      * exists EmptyString, b. exact Hb.
      * exists (String c a), b. rewrite append_cons, <- Hab. reflexivity.
    + intros [a [b Hab]]. destruct a as [|c' a].
      * left. exists b. exact Hab.
      * right. rewrite append_cons in Hab. injection Hab as -> ->. eauto.
Qed.

Lemma includes_refl s : includes s s = true.
Proof.
  apply includes_spec. exists EmptyString, EmptyString.
  rewrite append_nil_l, append_nil_r. reflexivity.
Qed.

Lemma includes_empty s : includes s EmptyString = true.
Proof. destruct s; reflexivity. Qed.

Lemma lowerChar_not_upper c : isUpper (lowerChar c) = false.
Proof.
  destruct c as [[] [] [] [] [] [] [] []]; reflexivity.
Qed.

Lemma lowerChar_idem c : lowerChar (lowerChar c) = lowerChar c.
Proof.
  unfold lowerChar at 1. rewrite lowerChar_not_upper. reflexivity.
Qed.

Lemma toLowerCase_idem s : toLowerCase (toLowerCase s) = toLowerCase s.
Proof.
  induction s as [|c s IH]; simpl; [reflexivity|].
  rewrite lowerChar_idem, IH. reflexivity.
Qed.



Lemma toLowerCase_app s t : toLowerCase (s +:+ t) = toLowerCase s +:+ toLowerCase t.
Proof.
  induction s as [|c s IH]; [reflexivity|].
  rewrite append_cons. simpl. rewrite IH. reflexivity.
Qed.

(** Lower-casing keeps occurrences: it acts character by character. *)
Lemma Substring_toLowerCase p s :
  Substring p s -> Substring (toLowerCase p) (toLowerCase s).
Proof.
  intros [a [b ->]]. exists (toLowerCase a), (toLowerCase b).
  rewrite !toLowerCase_app. reflexivity.
Qed.




(** ** Occurrences *)

Lemma Substring_refl s : Substring s s.
Proof.
  exists EmptyString, EmptyString. rewrite append_nil_l, append_nil_r. reflexivity.
Qed.

Lemma Substring_empty s : Substring EmptyString s.
Proof. exists EmptyString, s. reflexivity. Qed.

Lemma Substring_trans p s t : Substring p s -> Substring s t -> Substring p t.
Proof.
  intros [a [b ->]] [a' [b' ->]]. exists (a' +:+ a), (b +:+ b').
  rewrite !append_assoc. reflexivity.
Qed.

Lemma Substring_app_r p s b : Substring p s -> Substring p (s +:+ b).
Proof.
  intros H. apply (Substring_trans _ _ _ H).
  exists EmptyString, b. reflexivity.
Qed.

Lemma Substring_app_l p s a : Substring p s -> Substring p (a +:+ s).
Proof.
  intros H. apply (Substring_trans _ _ _ H).
  exists a, EmptyString. rewrite append_nil_r. reflexivity.
Qed.

Lemma Substring_cons p s c : Substring p s -> Substring p (String c s).
Proof. apply (Substring_app_l p s (String c EmptyString)). Qed.

(** ** Dropping a prefix or a suffix *)

Section Drop.
Variable p : ascii -> bool.

Lemma all_app s t : all p (s +:+ t) = all p s && all p t.
Proof.
  induction s as [|c s IH]; [reflexivity|].
  rewrite append_cons. simpl. rewrite IH, andb_assoc. reflexivity.
Qed.

Lemma dropStartWhile_suffix s : exists a, s = a +:+ dropStartWhile p s.
Proof.
  induction s as [|c s [a IH]]; simpl.
  - exists EmptyString. reflexivity.
  - destruct (p c).
    + exists (String c a). rewrite append_cons, <- IH. reflexivity.
    + exists EmptyString. reflexivity.
Qed.

Lemma dropStartWhile_sub_self s : Substring (dropStartWhile p s) s.
Proof.
  destruct (dropStartWhile_suffix s) as [a Ha].
  exists a, EmptyString. rewrite append_nil_r. exact Ha.
Qed.

Lemma dropStartWhile_prefix_sub s b :
  Substring (dropStartWhile p s) (dropStartWhile p (s +:+ b)).
Proof.
  induction s as [|c s IH].
  - apply Substring_empty.
  - rewrite append_cons. simpl. destruct (p c).
    + exact IH.
    + exists EmptyString, b. rewrite append_cons. reflexivity.
Qed.

Lemma dropStartWhile_Substring s t :
  Substring s t -> Substring (dropStartWhile p s) (dropStartWhile p t).
Proof.
  intros [a [b ->]]. induction a as [|d a IH].
  - rewrite append_nil_l. apply dropStartWhile_prefix_sub.
  - rewrite append_cons. simpl. destruct (p d).
    + exact IH.
    + apply Substring_cons, Substring_app_l, Substring_app_r,
        dropStartWhile_sub_self.
Qed.

Lemma dropEndWhile_all s : all p s = true -> dropEndWhile p s = EmptyString.
Proof.
  induction s as [|c s IH]; simpl; [reflexivity|].
  intros H. apply andb_true_iff in H as [Hc Hs].
  rewrite (IH Hs), Hc. reflexivity.
Qed.

Lemma dropEndWhile_empty s : dropEndWhile p s = EmptyString -> all p s = true.
Proof.
  induction s as [|c s IH]; simpl; [reflexivity|].
  destruct (dropEndWhile p s); [|discriminate].
  destruct (p c); [auto | discriminate].
Qed.

Lemma dropEndWhile_app s t :
  dropEndWhile p (s +:+ t) =
  if all p t then dropEndWhile p s else s +:+ dropEndWhile p t.
Proof.
  induction s as [|c s IH].
  - rewrite !append_nil_l. destruct (all p t) eqn:E; [|reflexivity].
    apply dropEndWhile_all. exact E.
  - rewrite append_cons. simpl. rewrite IH.
    destruct (all p t) eqn:E; [reflexivity|].
    destruct (s +:+ dropEndWhile p t) eqn:F; [|rewrite append_cons; congruence].
    destruct s; [|rewrite append_cons in F; discriminate].
    rewrite append_nil_l in F. apply dropEndWhile_empty in F. congruence.
Qed.

Lemma dropEndWhile_prefix s : exists b, s = dropEndWhile p s +:+ b.
Proof.
  induction s as [|c s [b IH]]; simpl.
  - exists EmptyString. reflexivity.
  - destruct (dropEndWhile p s) eqn:E.
    + destruct (p c).
      * exists (String c s). reflexivity.
      * exists s. reflexivity.
    + exists b. rewrite append_cons, <- IH. reflexivity.
Qed.

Lemma dropEndWhile_sub_self s : Substring (dropEndWhile p s) s.
Proof.
  destruct (dropEndWhile_prefix s) as [b Hb].
  exists EmptyString, b. exact Hb.
Qed.

Lemma dropEndWhile_Substring s t :
  Substring s t -> Substring (dropEndWhile p s) (dropEndWhile p t).
Proof.
  intros [a [b ->]]. rewrite dropEndWhile_app.
  destruct (all p (s +:+ b)) eqn:E.
  - rewrite all_app in E. apply andb_true_iff in E as [Hs _].
    rewrite (dropEndWhile_all _ Hs). apply Substring_empty.
  - apply Substring_app_l. rewrite dropEndWhile_app.
    destruct (all p b).
    + apply Substring_refl.
    + apply Substring_app_r, dropEndWhile_sub_self.
Qed.
End Drop.

Lemma dropStartWhile_all p s :
  all p s = true -> dropStartWhile p s = EmptyString.
Proof.
  induction s as [|c s IH]; simpl; [reflexivity|].
  intros H. apply andb_true_iff in H as [Hc Hs]. rewrite Hc. auto.
Qed.

Lemma dropStartWhile_empty p s :
  dropStartWhile p s = EmptyString -> all p s = true.
Proof.
  induction s as [|c s IH]; simpl; [reflexivity|].
  destruct (p c); [auto | discriminate].
Qed.

Lemma dropStartWhile_head p s c r :
  dropStartWhile p s = String c r -> p c = false.
Proof.
  induction s as [|d s IH]; simpl; [discriminate|].
  destruct (p d) eqn:E; [auto|].
  intros H. injection H as -> _. exact E.
Qed.

(** [trim] yields the empty string exactly on white-space-only input. *)
Lemma trim_empty_iff s :
  trim s = EmptyString <-> all isWhitespace s = true.
Proof.
  unfold trim, trimEnd, trimStart. split.
  - intros H. apply dropEndWhile_empty in H.
    destruct (dropStartWhile isWhitespace s) as [|c r] eqn:E.
    + apply dropStartWhile_empty in E. exact E.
    + apply dropStartWhile_head in E. simpl in H. rewrite E in H. discriminate.
  - intros H. rewrite (dropStartWhile_all _ _ H). reflexivity.
Qed.

Lemma trim_Substring s t : Substring s t -> Substring (trim s) (trim t).
Proof.
  intros H. unfold trim, trimEnd, trimStart.
  apply dropEndWhile_Substring, dropStartWhile_Substring, H.
Qed.

End StringFacts.

(* ===================================================================== *)
(** * Facts about the canonical form of a text *)
(* ===================================================================== *)

Section NormalizeFacts.
Import JsString Pipeline.

(** Collapsing reads its input from left to right with one bit of state. *)
Lemma collapseFrom_app f s t :
  collapseFrom f (s +:+ t) = collapseFrom f s +:+ collapseFrom (runAfter f s) t.
Proof.
  revert f. induction s as [|c s IH]; intros f; [reflexivity|].
  rewrite append_cons. simpl. destruct (isWhitespace c).
  - destruct f; rewrite IH; reflexivity.
  - rewrite IH. reflexivity.
Qed.

(** Starting inside a run only drops the space an initial run would give. *)
Lemma collapseFrom_false s :
  collapseFrom false s = collapseFrom true s
  \/ collapseFrom false s = space +:+ collapseFrom true s.
Proof.
  destruct s as [|c s]; simpl; [left; reflexivity|].
  destruct (isWhitespace c); [right | left]; reflexivity.
Qed.

(** If the text ends inside a run, its collapsed form ends with a space,
    unless the run was entered before the text and nothing else was read. *)
Lemma collapseFrom_ends_in_space f s :
  runAfter f s = true ->
  (exists a, collapseFrom f s = a +:+ space)
  \/ (f = true /\ collapseFrom f s = EmptyString).
Proof.
  revert f. induction s as [|c s IH]; intros f; simpl.
  - intros ->. right. split; reflexivity.
  - intros H. destruct (isWhitespace c).
    + destruct (IH true H) as [[a Ha] | [_ He]].
      * left. destruct f.
        -- exists a. exact Ha.
        -- exists (space +:+ a). rewrite Ha, append_assoc. reflexivity.
      * destruct f.
        -- right. split; [reflexivity | exact He].
        -- left. exists EmptyString. rewrite He. reflexivity.
    + destruct (IH false H) as [[a Ha] | [Hf _]]; [|discriminate].
      left. exists (String c a). rewrite Ha. reflexivity.
Qed.

Lemma collapseFrom_sub f s : Substring (collapseFrom true s) (collapseFrom f s).
Proof.
  destruct f; [apply Substring_refl|].
  destruct (collapseFrom_false s) as [-> | ->].
  - apply Substring_refl.
  - apply Substring_app_l, Substring_refl.
Qed.

Lemma collapseWhitespace_Substring s t :
  Substring s t -> Substring (collapseWhitespace s) (collapseWhitespace t).
Proof.
  intros [a [b ->]]. unfold collapseWhitespace.
  rewrite !collapseFrom_app, <- append_assoc. apply Substring_app_r.
  destruct (runAfter false a) eqn:E.
  - destruct (collapseFrom_false s) as [-> | ->].
    + apply Substring_app_l, Substring_refl.
    + destruct (collapseFrom_ends_in_space false a E) as [[a' ->] | [Hf _]];
        [|discriminate].
      rewrite append_assoc. apply Substring_app_l, Substring_refl.
  - apply Substring_app_l, Substring_refl.
Qed.

(** An occurrence among the lower-cased texts is an occurrence among the
    canonical texts. *)
Lemma normalize_Substring a b :
  Substring (toLowerCase a) (toLowerCase b) ->
  Substring (normalize a) (normalize b).
Proof.
  intros H. unfold normalize, stripTerminalPunctuation.
  apply dropEndWhile_Substring, collapseWhitespace_Substring, trim_Substring, H.
Qed.

Lemma isDuplicate_In candidate existing pool :
  In existing pool ->
  sameItem (normalize candidate) (normalize existing) = true ->
  isDuplicate candidate pool = true.
Proof.
  intros Hin Hsame. unfold isDuplicate. apply existsb_exists.
  exists existing. split; assumption.
Qed.

(** The matcher of section 4.2 reports every candidate whose lower-cased
    text occurs in, or contains, the lower-cased text of a pool member. *)
Lemma isDuplicate_substring candidate existing pool :
  In existing pool ->
  Substring (toLowerCase candidate) (toLowerCase existing)
  \/ Substring (toLowerCase existing) (toLowerCase candidate) ->
  isDuplicate candidate pool = true.
Proof.
  intros Hin H. apply (isDuplicate_In _ existing); [exact Hin|].
  unfold sameItem. destruct H as [H | H];
    apply normalize_Substring, includes_spec in H; rewrite H;
    rewrite ?orb_true_r; reflexivity.
Qed.

Lemma isDuplicate_app candidate pool more :
  isDuplicate candidate pool = true -> isDuplicate candidate (pool ++ more) = true.
Proof.
  unfold isDuplicate. rewrite existsb_app. intros ->. reflexivity.
Qed.

(** A candidate that the pool already covers is never among the survivors
    of the deduplication, wherever it stands in the batch. *)
Lemma dedup_drops {A} (text : A -> string) (c : A) candidates pool :
  isDuplicate (text c) pool = true ->
  ~ In c (dedup text pool candidates).1.
Proof.
  revert pool. induction candidates as [|d rest IH]; intros pool Hdup; simpl.
  - intros [].
  - destruct (isDuplicate (text d) pool) eqn:E.
    + specialize (IH pool Hdup).
      destruct (dedup text pool rest) as [kept skipped]. exact IH.
    + specialize (IH (pool ++ [normalize (text d)])%list (isDuplicate_app _ _ _ Hdup)).
      destruct (dedup text (pool ++ [normalize (text d)]) rest) as [kept skipped].
      simpl in *. intros [-> | Hin]; [congruence | auto].
Qed.

(** Every candidate is either kept or counted as skipped. *)
Lemma dedup_counts {A} (text : A -> string) candidates pool :
  (length (dedup text pool candidates).1 + (dedup text pool candidates).2
   = length candidates)%nat.
Proof.
  revert pool. induction candidates as [|d rest IH]; intros pool; simpl.
  - reflexivity.
  - destruct (isDuplicate (text d) pool).
    + specialize (IH pool). destruct (dedup text pool rest). simpl in *. lia.
    + specialize (IH (pool ++ [normalize (text d)])%list).
      destruct (dedup text (pool ++ [normalize (text d)]) rest). simpl in *. lia.
Qed.

End NormalizeFacts.

(* ===================================================================== *)
(** * The goals page: category heuristic and the filter of suggestions *)
(* ===================================================================== *)

Section ClientFacts.
Import JsString Client.

Lemma mentionsAny3 name a b c :
  mentionsAny name [a; b; c] = includes name a || includes name b || includes name c.
Proof. unfold mentionsAny. simpl. rewrite orb_false_r, orb_assoc. reflexivity. Qed.

Lemma mentionsAny4 name a b c d :
  mentionsAny name [a; b; c; d]
  = includes name a || includes name b || includes name c || includes name d.
Proof. unfold mentionsAny. simpl. rewrite orb_false_r, !orb_assoc. reflexivity. Qed.

(** The chain of [if]s, one rule of the table per test. *)
Lemma getGoalCategory_rules goalName :
  getGoalCategory goalName =
  let name := toLowerCase goalName in
  if mentionsAny name ["read"; "learn"; "study"] then "Learning"
  else if mentionsAny name ["exercise"; "workout"; "run"; "meditate"] then "Health"
  else if mentionsAny name ["save"; "budget"; "invest"] then "Financial"
  else if mentionsAny name ["family"; "friend"; "relationship"] then "Relationships"
  else if mentionsAny name ["job"; "career"; "work"] then "Career"
  else "Personal".
Proof.
  cbv zeta. rewrite !mentionsAny3, mentionsAny4. reflexivity.
Qed.

(** A suggested goal similar to an existing goal does not pass the filter. *)
Lemma filtered_not_similar goals aiSuggestedGoals aiGoal :
  similarToExisting goals aiGoal = true ->
  goals <> [] ->
  ~ In aiGoal (filteredAiSuggestedGoals goals aiSuggestedGoals).
Proof.
  intros Hsim Hne Hin. unfold filteredAiSuggestedGoals in Hin.
  destruct goals as [|g goals]; [congruence|]. simpl in Hin.
  apply filter_In in Hin as [_ Hkeep].
  change (negb (similarToExisting (g :: goals) aiGoal) = true) in Hkeep.
  rewrite Hsim in Hkeep. discriminate.
Qed.

Lemma similarNames_substring a u :
  Substring a u \/ Substring u a -> similarNames a u = true.
Proof.
  unfold similarNames. intros [H | H]; apply includes_spec in H; rewrite H;
    rewrite ?orb_true_r; reflexivity.
Qed.

Lemma similarToExisting_In goals aiGoal userGoal :
  In userGoal goals ->
  similarNames (toLowerCase (sg_name aiGoal)) (toLowerCase (goal_name userGoal)) = true ->
  similarToExisting goals aiGoal = true.
Proof.
  intros Hin H. unfold similarToExisting. apply existsb_exists.
  exists userGoal. split; assumption.
Qed.


End ClientFacts.

(** Claim C9.  The category of a goal is a function of its name alone, read
    off a fixed table of keywords in a fixed order: [getGoalCategory] is the
    first-match classification by [categoryTable] with default "Personal";
    a lower-cased name with "read", "learn" or "study" is "Learning",
    whatever else it contains; failing that, "exercise", "workout", "run" or
    "meditate" give "Health"; then "save", "budget", "invest" give
    "Financial"; then "family", "friend", "relationship" give
    "Relationships"; then "job", "career", "work" give "Career"; every other
    name is "Personal". *)
Theorem getGoalCategory_keyword_table (goalName : string) :
  let name := JsString.toLowerCase goalName in
  let rule1 := Client.mentionsAny name ["read"; "learn"; "study"] in
  let rule2 := Client.mentionsAny name ["exercise"; "workout"; "run"; "meditate"] in
  let rule3 := Client.mentionsAny name ["save"; "budget"; "invest"] in
  let rule4 := Client.mentionsAny name ["family"; "friend"; "relationship"] in
  let rule5 := Client.mentionsAny name ["job"; "career"; "work"] in
  Client.getGoalCategory goalName
  = Client.classify Client.categoryTable "Personal" name
  /\ (rule1 = true -> Client.getGoalCategory goalName = "Learning")
  /\ (rule1 = false -> rule2 = true -> Client.getGoalCategory goalName = "Health")
  /\ (rule1 = false -> rule2 = false -> rule3 = true ->
      Client.getGoalCategory goalName = "Financial")
  /\ (rule1 = false -> rule2 = false -> rule3 = false -> rule4 = true ->
      Client.getGoalCategory goalName = "Relationships")
  /\ (rule1 = false -> rule2 = false -> rule3 = false -> rule4 = false ->
      rule5 = true -> Client.getGoalCategory goalName = "Career")
  /\ (rule1 = false -> rule2 = false -> rule3 = false -> rule4 = false ->
      rule5 = false -> Client.getGoalCategory goalName = "Personal").
Proof.
  intros name rule1 rule2 rule3 rule4 rule5.
  rewrite getGoalCategory_rules. cbv zeta. fold name.
  fold rule1 rule2 rule3 rule4 rule5.
  split; [reflexivity|].
  repeat split; intros; repeat match goal with H : _ = _ |- _ => rewrite H; clear H end;
    reflexivity.
Qed.

(** A name with keywords of the first, second, third and fifth rule. *)
Lemma getGoalCategory_keyword_table_witness :
  Client.mentionsAny (JsString.toLowerCase "Learn to run, save and work")
                     ["read"; "learn"; "study"] = true
  /\ Client.getGoalCategory "Learn to run, save and work" = "Learning".
Proof.
  split; [reflexivity|].
  apply (proj1 (proj2 (getGoalCategory_keyword_table "Learn to run, save and work"))).
  reflexivity.
Defined.

(* ===================================================================== *)
(** * Facts about the store *)
(* ===================================================================== *)

Section StoreFacts.
Import Model Store.

Lemma rows_In {A} (m : gmap Z A) k v : In (k, v) (rows m) <-> m !! k = Some v.
Proof.
  unfold rows. rewrite <- list_elem_of_In, merge_sort_Permutation.
  apply elem_of_map_to_list.
Qed.

#[local] Instance dateLe_trans : Transitive dateLe.
Proof. intros x y z. unfold dateLe. lia. Qed.

#[local] Instance dateLe_total : Total dateLe.
Proof. intros x y. unfold dateLe. lia. Qed.

Lemma oldestFirst_In l r : In r (oldestFirst l) <-> In r l.
Proof.
  unfold oldestFirst. rewrite <- !list_elem_of_In, merge_sort_Permutation.
  reflexivity.
Qed.


Lemma oldestFirst_length l : length (oldestFirst l) = length l.
Proof. unfold oldestFirst. rewrite merge_sort_Permutation. reflexivity. Qed.

(** The unanalyzed entries of a user are the rows of the journal table that
    are the user's, are journal entries and are not analyzed. *)
Lemma getUnanalyzed_In userId s r :
  In r (getUnanalyzedJournalEntriesByUserId userId s)
  <-> journalEntries s !! r.1 = Some r.2 /\ eligible userId r = true.
Proof.
  unfold getUnanalyzedJournalEntriesByUserId.
  rewrite oldestFirst_In, filter_In. destruct r as [k v]. rewrite rows_In.
  reflexivity.
Qed.


Lemma getGoalsByUserId_In userId s id g :
  In (id, g) (getGoalsByUserId userId s)
  <-> goals s !! id = Some g /\ g_userId g = userId.
Proof.
  unfold getGoalsByUserId. rewrite filter_In, rows_In. simpl.
  rewrite Z.eqb_eq. reflexivity.
Qed.



End StoreFacts.

(* ===================================================================== *)
(** * Facts about a run of the suggestion module *)
(* ===================================================================== *)

Section PipelineFacts.
Import JsString Model Effects Store Pipeline.

Lemma createAiGoals_lookup userId gs s id row :
  aiGoals (fold_left (fun acc c => createAiGoal (toAiGoal userId c) acc) gs s) !! id
  = Some row ->
  aiGoals s !! id = Some row \/ exists c, In c gs /\ row = toAiGoal userId c.
Proof.
  revert s. induction gs as [|c gs IH]; intros s; simpl; [auto|].
  intros H. apply IH in H as [H | [c' [Hin ->]]]; [|right; eauto].
  simpl in H. destruct (decide (nextAiGoalId s = id)) as [Heq | Hne].
  - subst id. rewrite lookup_insert_eq in H. injection H as <-. right. eauto.
  - rewrite lookup_insert_ne in H by exact Hne. auto.
Qed.

Lemma createAiTasks_aiGoals userId ts s :
  aiGoals (fold_left (fun acc c => createAiTask (toAiTask userId c) acc) ts s)
  = aiGoals s.
Proof. revert s. induction ts as [|c ts IH]; intros s; simpl; [|rewrite IH]; reflexivity. Qed.

Lemma createAiHabits_aiGoals userId hs s :
  aiGoals (fold_left (fun acc c => createAiHabit (toAiHabit userId c) acc) hs s)
  = aiGoals s.
Proof. revert s. induction hs as [|c hs IH]; intros s; simpl; [|rewrite IH]; reflexivity. Qed.

Lemma markAllAnalyzed_aiGoals ids s : aiGoals (markAllAnalyzed ids s) = aiGoals s.
Proof.
  unfold markAllAnalyzed. revert s.
  induction ids as [|i ids IH]; intros s; simpl; [|rewrite IH]; reflexivity.
Qed.

(** A suggested-goal row present after [persist] was there before or was
    written for one of the survivors. *)
Lemma persist_aiGoals_lookup userId gs ts hs s id row :
  aiGoals (persist userId gs ts hs s) !! id = Some row ->
  aiGoals s !! id = Some row \/ exists c, In c gs /\ row = toAiGoal userId c.
Proof.
  unfold persist. rewrite createAiHabits_aiGoals, createAiTasks_aiGoals.
  apply createAiGoals_lookup.
Qed.

Lemma toAiGoal_inj userId c c' : toAiGoal userId c = toAiGoal userId c' -> c = c'.
Proof.
  destruct c, c'. unfold toAiGoal. simpl. intros H. injection H as -> -> ->.
  reflexivity.
Qed.

(** What a run does when the batch is not empty and the extraction answers. *)
Lemma processAllEntriesForUser_success o userId limit w result :
  selectUnanalyzed userId limit (store w) <> [] ->
  askExtraction o userId (selectUnanalyzed userId limit (store w)) (store w)
  = inr result ->
  let batch := selectUnanalyzed userId limit (store w) in
  let gs := dedup gc_name (goalPool userId (store w)) (ex_goals result) in
  let ts := dedup tc_title (taskPool userId (store w)) (ex_tasks result) in
  let hs := dedup hc_title (habitPool userId (store w)) (ex_habits result) in
  processAllEntriesForUser o userId limit w
  = (inr {| goalsCreated := length gs.1; tasksCreated := length ts.1;
            habitsCreated := length hs.1; goalsSkipped := gs.2;
            tasksSkipped := ts.2; habitsSkipped := hs.2 |},
     {| store := markAllAnalyzed (map fst batch)
                   (persist userId gs.1 ts.1 hs.1 (store w));
        trace := trace w ++ [CallExtract (map fst batch)] |}).
Proof.
  intros Hne Hex. cbv zeta.
  unfold processAllEntriesForUser, bind, getStore.
  destruct (selectUnanalyzed userId limit (store w)) as [|b batch] eqn:Eb;
    [congruence|].
  unfold runOnBatch, bind, getStore, emit. cbn [store trace].
  rewrite Hex.
  destruct (dedup gc_name _ _) as [gs gskip].
  destruct (dedup tc_title _ _) as [ts tskip].
  destruct (dedup hc_title _ _) as [hs hskip].
  reflexivity.
Qed.

(** With no unanalyzed entry a run reports zeros and changes nothing. *)
Lemma processAllEntriesForUser_nothing o userId limit w :
  selectUnanalyzed userId limit (store w) = [] ->
  processAllEntriesForUser o userId limit w = (inr zeroSummary, w).
Proof.
  intros H. unfold processAllEntriesForUser, bind, getStore. rewrite H.
  reflexivity.
Qed.

Lemma goalPool_durable userId s id g :
  goals s !! id = Some g -> g_userId g = userId -> In (g_name g) (goalPool userId s).
Proof.
  intros Hg Hu. unfold goalPool. apply in_or_app. left.
  apply (in_map (fun r : Z * Goal => g_name r.2) _ (id, g)).
  apply getGoalsByUserId_In. auto.
Qed.

End PipelineFacts.


Section DedupFacts.
Import JsString Pipeline.

Lemma dedup_skips {A} (text : A -> string) (c : A) candidates pool :
  In c candidates ->
  isDuplicate (text c) pool = true ->
  (1 <= (dedup text pool candidates).2)%nat.
Proof.
  revert pool. induction candidates as [|d rest IH]; intros pool Hin Hdup; simpl.
  - destruct Hin.
  - destruct (isDuplicate (text d) pool) eqn:E.
    + destruct (dedup text pool rest). simpl. lia.
    + destruct Hin as [-> | Hin]; [congruence|].
      specialize (IH (pool ++ [normalize (text d)])%list Hin
                     (isDuplicate_app _ _ _ Hdup)).
      destruct (dedup text (pool ++ [normalize (text d)]) rest). exact IH.
Qed.

End DedupFacts.

(** Claim C1.  A candidate goal whose lower-cased name occurs in, or
    contains, the lower-cased name of an existing goal of the same user is
    a duplicate and is not created.  On the goals page: such a suggestion
    never passes the filter of suggested goals.  In a run of the suggestion
    module: such a candidate is counted as skipped, and no suggestion row
    is written for it; when it is the only candidate the run reports
    goalsSkipped = 1 and goalsCreated = 0.  In particular the run for the
    user with the durable goal "Read more books" whose extraction yields
    "read more books daily" reports goalsSkipped = 1 and goalsCreated = 0. *)
Theorem substring_candidate_is_duplicate :
  (forall (goals : list Client.Goal) (aiSuggestedGoals : list Client.SuggestedGoal)
          (aiGoal : Client.SuggestedGoal) (userGoal : Client.Goal),
      In userGoal goals ->
      JsString.Substring (JsString.toLowerCase (Client.sg_name aiGoal))
                         (JsString.toLowerCase (Client.goal_name userGoal))
      \/ JsString.Substring (JsString.toLowerCase (Client.goal_name userGoal))
                            (JsString.toLowerCase (Client.sg_name aiGoal)) ->
      ~ In aiGoal (Client.filteredAiSuggestedGoals goals aiSuggestedGoals))
  /\ (forall (o : Effects.Oracle) (userId : Z) (limit : option nat)
             (w : Effects.World) (goalId : Z) (goal : Model.Goal)
             (result : Effects.ExtractionResult) (candidate : Effects.GoalCandidate),
      Model.goals (Effects.store w) !! goalId = Some goal ->
      Model.g_userId goal = userId ->
      JsString.Substring (JsString.toLowerCase (Effects.gc_name candidate))
                         (JsString.toLowerCase (Model.g_name goal))
      \/ JsString.Substring (JsString.toLowerCase (Model.g_name goal))
                            (JsString.toLowerCase (Effects.gc_name candidate)) ->
      Pipeline.selectUnanalyzed userId limit (Effects.store w) <> [] ->
      Pipeline.askExtraction o userId
        (Pipeline.selectUnanalyzed userId limit (Effects.store w)) (Effects.store w)
      = inr result ->
      In candidate (Effects.ex_goals result) ->
      exists summary w',
        Pipeline.processAllEntriesForUser o userId limit w = (inr summary, w')
        /\ (Effects.goalsCreated summary + Effects.goalsSkipped summary
            = length (Effects.ex_goals result))%nat
        /\ (1 <= Effects.goalsSkipped summary)%nat
        /\ (forall id,
               Model.aiGoals (Effects.store w') !! id
               = Some (Pipeline.toAiGoal userId candidate) ->
               Model.aiGoals (Effects.store w) !! id
               = Some (Pipeline.toAiGoal userId candidate))
        /\ (Effects.ex_goals result = [candidate] ->
            Effects.goalsSkipped summary = 1%nat
            /\ Effects.goalsCreated summary = 0%nat
            /\ Model.aiGoals (Effects.store w') = Model.aiGoals (Effects.store w)))
  /\ Server.summaryOf
       (Effects.handle
          (Server.generateSuggestions Server.ListGoals Examples.readingOracle
                                      (Some Examples.alice) 7)
          {| Effects.store := Examples.readingStore; Effects.trace := [] |}).1
     = Some {| Effects.goalsCreated := 0; Effects.tasksCreated := 0;
               Effects.habitsCreated := 0; Effects.goalsSkipped := 1;
               Effects.tasksSkipped := 0; Effects.habitsSkipped := 0 |}.
Proof.
  split; [|split].
  - intros goals aiSuggestedGoals aiGoal userGoal Hin Hsub.
    apply filtered_not_similar.
    + apply (similarToExisting_In _ _ userGoal Hin), similarNames_substring, Hsub.
    + intros ->. destruct Hin.
  - intros o userId limit w goalId goal result candidate Hgoal Huser Hsub Hne Hex Hin.
    assert (Hdup : Pipeline.isDuplicate (Effects.gc_name candidate)
                     (Pipeline.goalPool userId (Effects.store w)) = true).
    { apply (isDuplicate_substring _ (Model.g_name goal)); [|exact Hsub].
      apply (goalPool_durable _ _ goalId); assumption. }
    eexists. eexists. split.
    { apply processAllEntriesForUser_success; eassumption. }
    cbn [Effects.goalsCreated Effects.goalsSkipped Effects.store].
    split; [apply dedup_counts|].
    split; [apply (dedup_skips _ candidate); assumption|].
    split.
    + intros id Hrow. rewrite markAllAnalyzed_aiGoals in Hrow.
      apply persist_aiGoals_lookup in Hrow as [Hold | [c [Hc Heq]]]; [exact Hold|].
      apply toAiGoal_inj in Heq. subst c.
      exfalso. revert Hc. apply dedup_drops. exact Hdup.
    + intros Hone. rewrite Hone. simpl. rewrite Hdup. simpl.
      rewrite markAllAnalyzed_aiGoals. unfold Pipeline.persist.
      rewrite createAiHabits_aiGoals, createAiTasks_aiGoals. simpl. auto.
  - vm_compute. reflexivity.
Qed.

(** The scenario of section 8, on the goals page and in a run. *)
Lemma substring_candidate_is_duplicate_witness :
  ~ In (Examples.pageSuggestion "read more books daily")
       (Client.filteredAiSuggestedGoals
          [Examples.pageGoal "Read more books"]
          [Examples.pageSuggestion "read more books daily"])
  /\ exists summary w',
       Pipeline.processAllEntriesForUser Examples.readingOracle 7 (Some 3%nat)
         {| Effects.store := Examples.readingStore; Effects.trace := [] |}
       = (inr summary, w')
       /\ (1 <= Effects.goalsSkipped summary)%nat.
Proof.
  split.
  - apply (proj1 substring_candidate_is_duplicate
             [Examples.pageGoal "Read more books"]
             [Examples.pageSuggestion "read more books daily"]
             (Examples.pageSuggestion "read more books daily")
             (Examples.pageGoal "Read more books")).
    + left. reflexivity.
    + right. exists EmptyString, " daily". reflexivity.
  - destruct (proj1 (proj2 substring_candidate_is_duplicate)
                Examples.readingOracle 7 (Some 3%nat)
                {| Effects.store := Examples.readingStore; Effects.trace := [] |}
                1 (Examples.goalNamed 7 "Read more books")
                {| Effects.ex_goals := [Examples.candidateNamed "read more books daily"];
                   Effects.ex_tasks := []; Effects.ex_habits := [] |}
                (Examples.candidateNamed "read more books daily"))
      as [summary [w' [Hrun [_ [Hskip _]]]]].
    + reflexivity.
    + reflexivity.
    + right. exists EmptyString, " daily". reflexivity.
    + vm_compute. discriminate.
    + reflexivity.
    + left. reflexivity.
    + exists summary, w'. split; assumption.
Defined.




(* ===================================================================== *)
(** * Reasoning about computations step by step *)
(* ===================================================================== *)

Section Steps.
Import Model Effects.

Context (R : relation World) `{!PreOrder R}.

Lemma Step_ret {E A} (a : A) : Step R (@ret E A a).
Proof. intros w. reflexivity. Qed.

Lemma Step_fail {E A} (e : E) : Step R (@fail E A e).
Proof. intros w. reflexivity. Qed.

Lemma Step_getStore {E} : Step R (@getStore E).
Proof. intros w. reflexivity. Qed.

Lemma Step_bind {E A B} (m : M E A) (f : A -> M E B) :
  Step R m -> (forall a, Step R (f a)) -> Step R (bind m f).
Proof.
  intros Hm Hf w. unfold bind. specialize (Hm w).
  destruct (m w) as [[e | a] w1]; simpl in *; [exact Hm|].
  etransitivity; [exact Hm | apply Hf].
Qed.

Lemma Step_catch {E E' A} (m : M E A) (h : E -> M E' A) :
  Step R m -> (forall e, Step R (h e)) -> Step R (catch m h).
Proof.
  intros Hm Hh w. unfold catch. specialize (Hm w).
  destruct (m w) as [[e | a] w1]; simpl in *; [|exact Hm].
  etransitivity; [exact Hm | apply Hh].
Qed.

Lemma Step_forEach {E A} (xs : list A) (body : A -> M E unit) :
  (forall x, Step R (body x)) -> Step R (forEach xs body).
Proof.
  intros Hbody. induction xs as [|x xs IH]; simpl.
  - apply Step_ret.
  - apply Step_bind; auto.
Qed.

Lemma Step_handle (m : M Response Response) w : Step R m -> R w (handle m w).2.
Proof.
  intros Hm. unfold handle. specialize (Hm w).
  destruct (m w) as [[r | r] w1]; exact Hm.
Qed.

End Steps.

(** A loop whose body always completes and respects a preorder does too. *)
Lemma forEach_completes {E A} (R : relation Effects.World) `{!PreOrder R}
    (xs : list A) (body : A -> Effects.M E unit) :
  (forall x w, exists w', body x w = (inr tt, w') /\ R w w') ->
  forall w, exists w', Effects.forEach xs body w = (inr tt, w') /\ R w w'.
Proof.
  intros Hbody. induction xs as [|x xs IH]; intros w; simpl.
  - exists w. split; reflexivity.
  - unfold Effects.bind. destruct (Hbody x w) as [w1 [-> H1]].
    destruct (IH w1) as [w2 [-> H2]]. exists w2. split; [reflexivity|].
    etransitivity; eassumption.
Qed.

(* ===================================================================== *)
(** * The life of a journal entry *)
(* ===================================================================== *)

Section LifetimeFacts.
Import Model Effects Store Server System.

#[local] Instance Forward_preorder : PreOrder Forward.
Proof.
  split.
  - intros w Hw. split; [exact Hw | intros id; lia].
  - intros w1 w2 w3 H12 H23 Hw. destruct (H12 Hw) as [Hw2 Hle12].
    destruct (H23 Hw2) as [Hw3 Hle23]. split; [exact Hw3|].
    intros id. specialize (Hle12 id). specialize (Hle23 id). lia.
Qed.

(** A step that leaves the journal table and its serial number alone. *)
Lemma Forward_same_tables w w' :
  journalEntries (store w') = journalEntries (store w) ->
  nextJournalEntryId (store w') = nextJournalEntryId (store w) ->
  Forward w w'.
Proof.
  intros Hj Hn Hw. split.
  - intros id. rewrite Hj, Hn. apply Hw.
  - intros id. unfold stage. rewrite Hj, Hn. lia.
Qed.

Lemma Step_emit_Forward {E} ev : Step Forward (@emit E ev).
Proof. intros w. apply Forward_same_tables; reflexivity. Qed.

Lemma Step_modify_other {E} (f : Storage -> Storage) :
  (forall s, journalEntries (f s) = journalEntries s) ->
  (forall s, nextJournalEntryId (f s) = nextJournalEntryId s) ->
  Step Forward (@modify E f).
Proof. intros Hj Hn w. apply Forward_same_tables; simpl; auto. Qed.

Lemma Step_update_other {E A} (f : Storage -> A * Storage) :
  (forall s, journalEntries (f s).2 = journalEntries s) ->
  (forall s, nextJournalEntryId (f s).2 = nextJournalEntryId s) ->
  Step Forward (@update E A f).
Proof.
  intros Hj Hn w. unfold update. specialize (Hj (store w)). specialize (Hn (store w)).
  destruct (f (store w)) as [a s']. apply Forward_same_tables; simpl; auto.
Qed.

(** Inserting under the next serial number issues a new id. *)
Lemma Step_createJournalEntry {E} e : Step Forward (@update E Z (createJournalEntry e)).
Proof.
  intros w Hw. unfold update, createJournalEntry. cbn [snd store journalEntries
    nextJournalEntryId withJournal].
  assert (Hfresh : journalEntries (store w) !! nextJournalEntryId (store w) = None).
  { destruct (journalEntries (store w) !! nextJournalEntryId (store w)) eqn:E1;
      [|reflexivity].
    assert (nextJournalEntryId (store w) < nextJournalEntryId (store w)); [|lia].
    apply Hw. rewrite E1. eauto. }
  split.
  - intros id. cbn [store journalEntries nextJournalEntryId withJournal].
    destruct (decide (nextJournalEntryId (store w) = id)) as [<- | Hne].
    + intros _. lia.
    + rewrite lookup_insert_ne by exact Hne. intros H. apply Hw in H. lia.
  - intros id. unfold stage. cbn [journalEntries nextJournalEntryId withJournal].
    destruct (decide (nextJournalEntryId (store w) = id)) as [<- | Hne].
    + rewrite lookup_insert_eq, Hfresh.
      destruct (decide (_ < _)); [lia|]. destruct (je_analyzed e); lia.
    + rewrite lookup_insert_ne by exact Hne.
      destruct (journalEntries (store w) !! id); [lia|].
      repeat destruct (decide (_ < _)); lia.
Qed.

(** Rewriting a row in place, without clearing its [analyzed] flag. *)
Lemma Step_alterJournal {E} (f : JournalEntry -> JournalEntry) id :
  (forall e, je_analyzed e = true -> je_analyzed (f e) = true) ->
  Step Forward (@modify E (alterJournal f id)).
Proof.
  intros Hf w Hw. unfold modify, alterJournal.
  cbn [snd store journalEntries nextJournalEntryId withJournal]. split.
  - intros j Hj. cbn [store journalEntries nextJournalEntryId withJournal] in *.
    apply Hw. rewrite lookup_alter in Hj.
    destruct (decide (id = j)) as [<- | Hne]; [|exact Hj].
    apply fmap_is_Some in Hj. exact Hj.
  - intros j. unfold stage. cbn [journalEntries nextJournalEntryId withJournal].
    rewrite lookup_alter. destruct (decide (id = j)) as [<- | Hne]; [|lia].
    destruct (journalEntries (store w) !! id) as [e|]; simpl; [|lia].
    destruct (je_analyzed e) eqn:Ea; [rewrite (Hf e Ea); lia|].
    destruct (je_analyzed (f e)); lia.
Qed.

(** Removing a row: its id has been issued and stays out of use. *)
Lemma Step_permanentlyDelete {E} id :
  Step Forward (@modify E (permanentlyDeleteJournalEntry id)).
Proof.
  intros w Hw. unfold modify, permanentlyDeleteJournalEntry.
  cbn [snd store journalEntries nextJournalEntryId withJournal]. split.
  - intros j Hj. cbn [store journalEntries nextJournalEntryId withJournal] in *.
    apply Hw. rewrite lookup_delete in Hj.
    destruct (decide (id = j)); [destruct Hj; discriminate | exact Hj].
  - intros j. unfold stage. cbn [journalEntries nextJournalEntryId withJournal].
    rewrite lookup_delete. destruct (decide (id = j)) as [<- | Hne]; [|lia].
    destruct (journalEntries (store w) !! id) as [e|] eqn:Ee; [|lia].
    destruct (decide (id < nextJournalEntryId (store w))) as [_ | Hge].
    + destruct (je_analyzed e); lia.
    + exfalso. apply Hge, Hw. rewrite Ee. eauto.
Qed.

Lemma Step_markAnalyzed {E} id : Step Forward (@modify E (markAnalyzed id)).
Proof. apply (Step_alterJournal (applyPatch analyzedTrue)). reflexivity. Qed.

Lemma Step_updateSentiment {E} id x :
  Step Forward (@modify E (updateJournalEntrySentiment id x)).
Proof. apply Step_alterJournal. intros e H. exact H. Qed.

Lemma Step_setDeleted {E} b id : Step Forward (@modify E (alterJournal (setDeleted b) id)).
Proof. apply Step_alterJournal. intros e H. exact H. Qed.

End LifetimeFacts.

Section HandlersGoForward.
Import Model Effects Store Server System.

Existing Instance Forward_preorder.

(** Take a computation apart along its binds, loops and case distinctions. *)
Ltac forward1 :=
  lazymatch goal with
  | |- Step _ (ret _) => apply (Step_ret Forward)
  | |- Step _ (fail _) => apply (Step_fail Forward)
  | |- Step _ getStore => apply (Step_getStore Forward)
  | |- Step _ (emit _) => apply Step_emit_Forward
  | |- Step _ (bind _ _) => apply (Step_bind Forward); [|intros ?]
  | |- Step _ (catch _ _) => apply (Step_catch Forward); [|intros ?]
  | |- Step _ (forEach _ _) => apply (Step_forEach Forward); intros ?
  | |- Step _ (modify (markAnalyzed _)) => apply Step_markAnalyzed
  | |- Step _ (modify (updateJournalEntry _ analyzedTrue)) => apply Step_markAnalyzed
  | |- Step _ (modify (updateJournalEntrySentiment _ _)) => apply Step_updateSentiment
  | |- Step _ (modify (deleteJournalEntry _)) => apply Step_setDeleted
  | |- Step _ (modify (restoreJournalEntry _)) => apply Step_setDeleted
  | |- Step _ (modify (permanentlyDeleteJournalEntry _)) => apply Step_permanentlyDelete
  | |- Step _ (update (createJournalEntry _)) => apply Step_createJournalEntry
  | |- Step _ (modify _) => apply Step_modify_other; intros; reflexivity
  | |- Step _ (update _) => apply Step_update_other; intros; reflexivity
  | |- Step _ (match ?x with _ => _ end) => destruct x
  end.

Ltac forward := repeat forward1.

Lemma requireAuth_Forward user : Step Forward (requireAuth user).
Proof. unfold requireAuth. forward. Qed.

Lemma requireSelf_Forward u userId : Step Forward (requireSelf u userId).
Proof. unfold requireSelf. forward. Qed.

Lemma updateMatchingGoal_Forward userId goal :
  Step Forward (updateMatchingGoal userId goal).
Proof. unfold updateMatchingGoal. forward. Qed.

Lemma recordChatGoal_Forward userId goal : Step Forward (recordChatGoal userId goal).
Proof.
  unfold recordChatGoal. destruct (sentgoal_isNew goal).
  - forward.
  - apply updateMatchingGoal_Forward.
Qed.

Lemma postJournalEntry_Forward o user b : Step Forward (postJournalEntry o user b).
Proof.
  unfold postJournalEntry.
  apply (Step_bind Forward); [apply requireAuth_Forward | intros u].
  apply (Step_bind Forward); [apply requireSelf_Forward | intros _].
  destruct (jb_content b) as [content|]; [|forward].
  destruct (_ || _); [forward|].
  forward. apply updateMatchingGoal_Forward.
Qed.

Lemma saveChat_Forward o user b : Step Forward (saveChat o user b).
Proof.
  unfold saveChat.
  apply (Step_bind Forward); [apply requireAuth_Forward | intros u].
  apply (Step_bind Forward); [apply requireSelf_Forward | intros _].
  apply (Step_bind Forward); [apply (Step_getStore Forward) | intros s].
  destruct (oldestFirst _) as [|c chat]; [forward|].
  forward; apply recordChatGoal_Forward.
Qed.

Lemma onOwnEntry_Forward user entryId forbidden action :
  Step Forward action -> Step Forward (onOwnEntry user entryId forbidden action).
Proof.
  intros H. unfold onOwnEntry.
  apply (Step_bind Forward); [apply requireAuth_Forward | intros u].
  forward; exact H.
Qed.

Lemma onOwnSuggestion_Forward {A} (get : Z -> Storage -> option A) owner notFound
    forbidden user id action :
  Step Forward action ->
  Step Forward (onOwnSuggestion get owner notFound forbidden user id action).
Proof.
  intros H. unfold onOwnSuggestion.
  apply (Step_bind Forward); [apply requireAuth_Forward | intros u].
  forward; exact H.
Qed.

Lemma promote_Forward accept id failure :
  (forall s r, accept id s = Some r ->
               journalEntries r.2 = journalEntries s
               /\ nextJournalEntryId r.2 = nextJournalEntryId s) ->
  Step Forward (promote accept id failure).
Proof.
  intros H. unfold promote. apply (Step_bind Forward); [|intros ?; forward].
  apply Step_update_other; intros s; specialize (H s);
    destruct (accept id s) as [[new s']|]; try reflexivity;
    apply (H (new, s')); reflexivity.
Qed.

Lemma accept_Forward kind user id : Step Forward (accept kind user id).
Proof.
  destruct kind; apply onOwnSuggestion_Forward, promote_Forward; intros s r;
    [unfold acceptAiGoal; destruct (aiGoals s !! id)
    |unfold acceptAiTask; destruct (aiTasks s !! id)
    |unfold acceptAiHabit; destruct (aiHabits s !! id)];
    intros H; inversion H; split; reflexivity.
Qed.

Lemma reject_Forward kind user id : Step Forward (reject kind user id).
Proof. destruct kind; apply onOwnSuggestion_Forward; forward. Qed.

Lemma entryHandlers_Forward user entryId :
  Step Forward (deleteEntry user entryId)
  /\ Step Forward (restoreEntry user entryId)
  /\ Step Forward (permanentlyDeleteEntry user entryId).
Proof. split; [|split]; apply onOwnEntry_Forward; forward. Qed.

Lemma persist_journal userId gs ts hs s :
  journalEntries (Pipeline.persist userId gs ts hs s) = journalEntries s
  /\ nextJournalEntryId (Pipeline.persist userId gs ts hs s) = nextJournalEntryId s.
Proof.
  unfold Pipeline.persist.
  assert (Hg : forall l s0,
             journalEntries (fold_left (fun acc c =>
                createAiGoal (Pipeline.toAiGoal userId c) acc) l s0) = journalEntries s0
             /\ nextJournalEntryId (fold_left (fun acc c =>
                createAiGoal (Pipeline.toAiGoal userId c) acc) l s0)
                = nextJournalEntryId s0).
  { induction l as [|c l IH]; intros s0; simpl; [auto|].
    destruct (IH (createAiGoal (Pipeline.toAiGoal userId c) s0)) as [-> ->]. auto. }
  assert (Ht : forall l s0,
             journalEntries (fold_left (fun acc c =>
                createAiTask (Pipeline.toAiTask userId c) acc) l s0) = journalEntries s0
             /\ nextJournalEntryId (fold_left (fun acc c =>
                createAiTask (Pipeline.toAiTask userId c) acc) l s0)
                = nextJournalEntryId s0).
  { induction l as [|c l IH]; intros s0; simpl; [auto|].
    destruct (IH (createAiTask (Pipeline.toAiTask userId c) s0)) as [-> ->]. auto. }
  assert (Hh : forall l s0,
             journalEntries (fold_left (fun acc c =>
                createAiHabit (Pipeline.toAiHabit userId c) acc) l s0) = journalEntries s0
             /\ nextJournalEntryId (fold_left (fun acc c =>
                createAiHabit (Pipeline.toAiHabit userId c) acc) l s0)
                = nextJournalEntryId s0).
  { induction l as [|c l IH]; intros s0; simpl; [auto|].
    destruct (IH (createAiHabit (Pipeline.toAiHabit userId c) s0)) as [-> ->]. auto. }
  destruct (Hh hs (fold_left (fun acc c => createAiTask (Pipeline.toAiTask userId c) acc)
                     ts (fold_left (fun acc c =>
                           createAiGoal (Pipeline.toAiGoal userId c) acc) gs s)))
    as [-> ->].
  destruct (Ht ts (fold_left (fun acc c =>
                     createAiGoal (Pipeline.toAiGoal userId c) acc) gs s)) as [-> ->].
  apply Hg.
Qed.

Lemma markAllAnalyzed_Forward {E} ids :
  Step Forward (@modify E (Pipeline.markAllAnalyzed ids)).
Proof.
  unfold Pipeline.markAllAnalyzed. induction ids as [|i ids IH].
  - intros w. simpl. destruct w. reflexivity.
  - intros w. simpl.
    transitivity (@modify E (markAnalyzed i) w).2; [apply Step_markAnalyzed|].
    apply (IH (@modify E (markAnalyzed i) w).2).
Qed.

Lemma runOnBatch_Forward o userId batch :
  Step Forward (Pipeline.runOnBatch o userId batch).
Proof.
  unfold Pipeline.runOnBatch.
  apply (Step_bind Forward); [apply (Step_getStore Forward) | intros s].
  apply (Step_bind Forward); [apply Step_emit_Forward | intros _].
  destruct (Pipeline.askExtraction o userId batch s) as [message | result];
    [apply (Step_fail Forward)|].
  destruct (Pipeline.dedup _ _ (ex_goals result)) as [gs gskip].
  destruct (Pipeline.dedup _ _ (ex_tasks result)) as [ts tskip].
  destruct (Pipeline.dedup _ _ (ex_habits result)) as [hs hskip].
  apply (Step_bind Forward); [|intros _].
  - apply Step_modify_other; intros s0; apply persist_journal.
  - apply (Step_bind Forward); [apply markAllAnalyzed_Forward | intros _].
    apply (Step_ret Forward).
Qed.

Lemma processAllEntriesForUser_Forward o userId limit :
  Step Forward (Pipeline.processAllEntriesForUser o userId limit).
Proof.
  unfold Pipeline.processAllEntriesForUser.
  apply (Step_bind Forward); [apply (Step_getStore Forward) | intros s].
  destruct (Pipeline.selectUnanalyzed userId limit s);
    [apply (Step_ret Forward) | apply runOnBatch_Forward].
Qed.

Lemma processSingleEntry_Forward o entryId :
  Step Forward (Pipeline.processSingleEntry o entryId).
Proof.
  unfold Pipeline.processSingleEntry.
  apply (Step_bind Forward); [apply (Step_getStore Forward) | intros s].
  destruct (getJournalEntryById entryId s) as [e|]; [|apply (Step_ret Forward)].
  destruct (je_analyzed e); [apply (Step_ret Forward) | apply runOnBatch_Forward].
Qed.

Lemma processAllEntries_Forward o : Step Forward (Pipeline.processAllEntries o).
Proof.
  unfold Pipeline.processAllEntries.
  apply (Step_bind Forward); [apply (Step_getStore Forward) | intros s].
  apply (Step_forEach Forward). intros userId.
  apply (Step_catch Forward); [|intros _; apply (Step_ret Forward)].
  apply (Step_bind Forward);
    [apply processAllEntriesForUser_Forward | intros _; apply (Step_ret Forward)].
Qed.

Lemma awaitRun_Forward o userId limit onError :
  Step Forward (awaitRun o userId limit onError).
Proof.
  unfold awaitRun.
  apply (Step_bind Forward); [apply Step_emit_Forward | intros _].
  apply (Step_catch Forward);
    [apply processAllEntriesForUser_Forward | intros e; apply (Step_fail Forward)].
Qed.

Lemma trigger_Forward t o user userId : Step Forward (trigger t o user userId).
Proof.
  destruct t as [l|]; simpl.
  - unfold generateSuggestions.
    apply (Step_bind Forward); [apply requireAuth_Forward | intros u].
    apply (Step_bind Forward); [apply requireSelf_Forward | intros _].
    apply (Step_bind Forward); [forward | intros _].
    apply (Step_bind Forward); [apply (Step_getStore Forward) | intros s].
    destruct (_ =? _)%nat; [apply (Step_fail Forward)|].
    apply (Step_bind Forward); [apply awaitRun_Forward | intros result].
    forward.
  - unfold processUser.
    apply (Step_bind Forward); [apply requireAuth_Forward | intros u].
    apply (Step_bind Forward); [forward | intros _].
    apply (Step_bind Forward); [apply awaitRun_Forward | intros result].
    forward.
Qed.

Lemma adminProcessAll_Forward user : Step Forward (adminProcessAll user).
Proof. unfold adminProcessAll. forward. Qed.

(** Every step of the system moves forward. *)
Lemma step_Forward o op w : Forward w (step o op w).
Proof.
  destruct op; simpl.
  - apply (Step_handle Forward), postJournalEntry_Forward.
  - apply (Step_handle Forward), saveChat_Forward.
  - apply (Step_handle Forward), entryHandlers_Forward.
  - apply (Step_handle Forward), entryHandlers_Forward.
  - apply (Step_handle Forward), entryHandlers_Forward.
  - apply (Step_handle Forward), accept_Forward.
  - apply (Step_handle Forward), reject_Forward.
  - apply (Step_handle Forward), trigger_Forward.
  - apply (Step_handle Forward), adminProcessAll_Forward.
  - apply processSingleEntry_Forward.
  - apply processAllEntries_Forward.
Qed.

Lemma stage_flag w id :
  (analyzedFlag id w = Some false <-> stage (store w) id = 1%nat)
  /\ (analyzedFlag id w = Some true <-> stage (store w) id = 2%nat).
Proof.
  unfold analyzedFlag, stage.
  destruct (journalEntries (store w) !! id) as [e|]; simpl.
  - destruct (je_analyzed e); split; split; intros H; try reflexivity;
      try discriminate; try lia.
  - destruct (decide (_ < _)); split; split; intros H; try discriminate; lia.
Qed.

Lemma transitions_step before after id w o op ops :
  transitions before after id (states w ((o, op) :: ops))
  = ((if decide (analyzedFlag id w = Some before
                 /\ analyzedFlag id (step o op w) = Some after)
      then 1 else 0)
     + transitions before after id (states (step o op w) ops))%nat.
Proof. destruct ops as [|[o' op'] ops]; reflexivity. Qed.

(** Along a run of the system, from a well-formed store: the flag never
    goes back, goes up at most once, and not at all once it is up. *)
Lemma lifetime ops : forall w id,
  WellFormed (store w) ->
  transitions true false id (states w ops) = 0%nat
  /\ (transitions false true id (states w ops) <= 1)%nat
  /\ ((2 <= stage (store w) id)%nat ->
      transitions false true id (states w ops) = 0%nat).
Proof.
  induction ops as [|[o op] ops IH]; intros w id Hw.
  - simpl. repeat split; lia.
  - destruct (step_Forward o op w Hw) as [Hw1 Hle].
    specialize (Hle id). destruct (IH (step o op w) id Hw1) as [IH1 [IH2 IH3]].
    destruct (stage_flag w id) as [F0 T0].
    destruct (stage_flag (step o op w) id) as [F1 T1].
    rewrite !transitions_step. repeat split.
    + destruct (decide _) as [[Ha Hb]|_]; [|simpl; exact IH1].
      apply T0 in Ha. apply F1 in Hb. lia.
    + destruct (decide _) as [[Ha Hb]|_]; [|simpl; exact IH2].
      apply T1 in Hb. rewrite IH3 by lia. lia.
    + intros H2. destruct (decide _) as [[Ha Hb]|_].
      * apply F0 in Ha. lia.
      * simpl. apply IH3. lia.
Qed.

End HandlersGoForward.

(** Claim C6.  Over any sequence of steps of the system (requests and
    detached runs of the suggestion module alike) that starts from a store
    whose serial number is above the ids in use, the [analyzed] flag of a
    journal entry goes from false to true at most once, and it never goes
    from true to false. *)
Theorem analyzed_flag_is_monotone
    (w : Effects.World) (ops : list (Effects.Oracle * System.Op)) (entryId : Z) :
  System.WellFormed (Effects.store w) ->
  (System.transitions false true entryId (System.states w ops) <= 1)%nat
  /\ System.transitions true false entryId (System.states w ops) = 0%nat.
Proof.
  intros Hw. destruct (lifetime ops w entryId Hw) as [H1 [H2 _]]. auto.
Qed.

(* ===================================================================== *)
(** * The handlers, request by request *)
(* ===================================================================== *)

(** Claim C10.  A request to create a journal entry whose content is absent,
    empty or white space only is refused: the handler leaves the world as it
    found it (no journal entry is created; no title is generated, no
    sentiment analysis runs, no embedding is stored and no suggestion
    processing is started, the trace being unchanged), it answers 401, 403
    or 400, and for a request authenticated as the user it names the answer
    is 400 "Content is required for journal entries". *)
Theorem blank_content_is_rejected
    (o : Effects.Oracle) (user : option Server.User) (b : Server.JournalEntryBody)
    (w : Effects.World) :
  Server.jb_content b = None
  \/ (exists content, Server.jb_content b = Some content
                      /\ JsString.all JsString.isWhitespace content = true) ->
  let answer := Effects.handle (Server.postJournalEntry o user b) w in
  answer.2 = w
  /\ (Effects.status answer.1 = 401 \/ Effects.status answer.1 = 403
      \/ Effects.status answer.1 = 400)
  /\ (forall u, user = Some u -> Server.user_id u = Server.jb_userId b ->
                answer.1 = Effects.json 400
                             (Effects.ErrorBody "Content is required for journal entries")).
Proof.
  intros Hblank. cbv zeta.
  unfold Effects.handle, Server.postJournalEntry, Effects.bind, Server.requireAuth,
    Server.requireSelf.
  destruct user as [u|]; cbn [Effects.fail Effects.ret].
  2:{ split; [reflexivity|]. split; [left; reflexivity|]. intros u Hu. discriminate. }
  destruct (Z.eqb (Server.user_id u) (Server.jb_userId b)) eqn:Eu;
    cbn [negb Effects.fail Effects.ret].
  2:{ split; [reflexivity|]. split; [right; left; reflexivity|].
      intros u' Hu' Hid. injection Hu' as <-. apply Z.eqb_neq in Eu. contradiction. }
  assert (Hanswer :
    match Server.jb_content b with
    | Some content =>
        String.eqb content EmptyString
        || String.eqb (JsString.trim content) EmptyString = true
    | None => True
    end).
  { destruct Hblank as [-> | [content [-> Hc]]]; [exact I|].
    apply trim_empty_iff in Hc. rewrite Hc, String.eqb_refl. apply orb_true_r. }
  destruct (Server.jb_content b) as [content|].
  - rewrite Hanswer. cbn [Effects.fail fst snd]. split; [reflexivity|].
    split; [right; right; reflexivity|]. intros; reflexivity.
  - cbn [Effects.fail fst snd]. split; [reflexivity|].
    split; [right; right; reflexivity|]. intros; reflexivity.
Qed.

(** A request of blanks: refused with 400, nothing stored, nothing called. *)
Lemma blank_content_is_rejected_witness :
  (Effects.handle
     (Server.postJournalEntry Examples.quiet (Some Examples.alice)
        {| Server.jb_content := Some "   "; Server.jb_userId := 7;
           Server.jb_transcript := None; Server.jb_date := None |})
     {| Effects.store := Model.emptyStorage; Effects.trace := [] |}).2
  = {| Effects.store := Model.emptyStorage; Effects.trace := [] |}.
Proof.
  apply (blank_content_is_rejected Examples.quiet (Some Examples.alice)
           {| Server.jb_content := Some "   "; Server.jb_userId := 7;
              Server.jb_transcript := None; Server.jb_date := None |}).
  right. exists "   ". split; reflexivity.
Defined.

Section LifecycleFacts.
Import Model Effects Store Server.

(** The checks the six handlers share, as one case distinction. *)
Lemma onOwnSuggestion_cases {A} (get : Z -> Storage -> option A) owner notFound
    forbidden u id action w :
  handle (onOwnSuggestion get owner notFound forbidden (Some u) id action) w
  = match get id (store w) with
    | None => (notFound, w)
    | Some suggestion =>
        if Z.eqb (user_id u) (owner suggestion) then handle action w
        else (forbidden, w)
    end.
Proof.
  unfold handle, onOwnSuggestion, bind, requireAuth, ret, getStore, fail.
  destruct (get id (store w)) as [suggestion|]; [|reflexivity].
  destruct (Z.eqb (user_id u) (owner suggestion)); reflexivity.
Qed.

Lemma promote_status accept id failure w :
  status (handle (promote accept id failure) w).1 = 200
  \/ status (handle (promote accept id failure) w).1 = 500.
Proof.
  unfold handle, promote, bind, update, ret.
  destruct (accept id (store w)) as [[new s']|]; simpl; auto.
Qed.

(** The answers of a lifecycle handler: 404 exactly when the row is missing,
    403 exactly when it is someone else's, and then nothing has changed. *)
Lemma guarded_errors {A} (get : Z -> Storage -> option A) owner notFound forbidden
    u id action w :
  status notFound = 404 -> status forbidden = 403 ->
  status (handle action w).1 <> 404 -> status (handle action w).1 <> 403 ->
  let answer := handle (onOwnSuggestion get owner notFound forbidden (Some u) id action) w in
  (NotFoundError answer.1 <-> owner <$> get id (store w) = None)
  /\ (ForbiddenError answer.1
      <-> exists x, owner <$> get id (store w) = Some x /\ x <> user_id u)
  /\ (NotFoundError answer.1 \/ ForbiddenError answer.1 -> answer.2 = w).
Proof.
  intros Hnf Hfb Ha404 Ha403. cbv zeta. rewrite onOwnSuggestion_cases.
  unfold NotFoundError, ForbiddenError.
  destruct (get id (store w)) as [suggestion|]; simpl.
  - destruct (Z.eqb (user_id u) (owner suggestion)) eqn:Eo.
    + apply Z.eqb_eq in Eo. split; [|split].
      * split; [contradiction | discriminate].
      * split; [contradiction|]. intros [x [Hx Hne]]. congruence.
      * intros [H | H]; contradiction.
    + apply Z.eqb_neq in Eo. simpl. split; [|split].
      * split; [rewrite Hfb; discriminate | discriminate].
      * split; [|intros _; exact Hfb]. intros _. exists (owner suggestion).
        split; [reflexivity | congruence].
      * reflexivity.
  - split; [|split].
    + split; [reflexivity | intros _; exact Hnf].
    + split; [rewrite Hnf; discriminate | intros [x [Hx _]]; discriminate].
    + reflexivity.
Qed.

End LifecycleFacts.

(** Claim C4.  For a suggestion id and a requesting user, accepting and
    rejecting fail with NotFoundError (404) exactly when no suggestion of
    that kind has the id, and with ForbiddenError (403) exactly when the
    suggestion exists and its userId is not the requesting user's id; in
    both cases the world is left as it was: no record is created, deleted
    or modified. *)
Theorem lifecycle_errors
    (kind : Server.Kind) (u : Server.User) (id : Z) (w : Effects.World) :
  let owner := Server.suggestionOwner kind id (Effects.store w) in
  let accepted := Effects.handle (Server.accept kind (Some u) id) w in
  let rejected := Effects.handle (Server.reject kind (Some u) id) w in
  ((Server.NotFoundError accepted.1 <-> owner = None)
   /\ (Server.ForbiddenError accepted.1
       <-> exists x, owner = Some x /\ x <> Server.user_id u)
   /\ (Server.NotFoundError accepted.1 \/ Server.ForbiddenError accepted.1 ->
       accepted.2 = w))
  /\ ((Server.NotFoundError rejected.1 <-> owner = None)
      /\ (Server.ForbiddenError rejected.1
          <-> exists x, owner = Some x /\ x <> Server.user_id u)
      /\ (Server.NotFoundError rejected.1 \/ Server.ForbiddenError rejected.1 ->
          rejected.2 = w)).
Proof.
  cbv zeta. split.
  - destruct kind; apply guarded_errors; try reflexivity;
      match goal with
      | |- Effects.status (Effects.handle (Server.promote ?a ?i ?f) ?w).1 <> _ =>
          destruct (promote_status a i f w) as [-> | ->]; discriminate
      end.
  - destruct kind; apply guarded_errors; try reflexivity; simpl; discriminate.
Qed.

(** Claim C5.  Rejecting a suggestion the requesting user owns answers 204,
    deletes the row of that id from the suggestion table of its kind and
    leaves everything else as it was: the durable goals, tasks and habits
    (no durable record is created), the journal, the two other suggestion
    tables, every serial number and the trace. *)
Theorem reject_deletes_one_row
    (kind : Server.Kind) (u : Server.User) (id : Z) (w : Effects.World) :
  Server.suggestionOwner kind id (Effects.store w) = Some (Server.user_id u) ->
  let answer := Effects.handle (Server.reject kind (Some u) id) w in
  let s := Effects.store w in
  let s' := Effects.store answer.2 in
  answer.1 = Effects.sendStatus 204
  /\ Effects.trace answer.2 = Effects.trace w
  /\ Model.aiGoals s'
     = match kind with Server.KGoal => delete id (Model.aiGoals s) | _ => Model.aiGoals s end
  /\ Model.aiTasks s'
     = match kind with Server.KTask => delete id (Model.aiTasks s) | _ => Model.aiTasks s end
  /\ Model.aiHabits s'
     = match kind with Server.KHabit => delete id (Model.aiHabits s) | _ => Model.aiHabits s end
  /\ Model.goals s' = Model.goals s
  /\ Model.tasks s' = Model.tasks s
  /\ Model.habits s' = Model.habits s
  /\ Model.journalEntries s' = Model.journalEntries s
  /\ (Model.nextJournalEntryId s', Model.nextGoalId s', Model.nextTaskId s',
      Model.nextHabitId s', Model.nextAiGoalId s', Model.nextAiTaskId s',
      Model.nextAiHabitId s')
     = (Model.nextJournalEntryId s, Model.nextGoalId s, Model.nextTaskId s,
        Model.nextHabitId s, Model.nextAiGoalId s, Model.nextAiTaskId s,
        Model.nextAiHabitId s).
Proof.
  intros Howner. cbv zeta.
  destruct kind; simpl in Howner;
    unfold Server.reject, Server.rejectAiGoalHandler, Server.rejectAiTaskHandler,
      Server.rejectAiHabitHandler;
    rewrite onOwnSuggestion_cases;
    [destruct (Store.getAiGoalById id (Effects.store w)) as [row|]
    |destruct (Store.getAiTaskById id (Effects.store w)) as [row|]
    |destruct (Store.getAiHabitById id (Effects.store w)) as [row|]];
    try discriminate; simpl in Howner; injection Howner as Howner;
    rewrite Howner, Z.eqb_refl; repeat split; reflexivity.
Qed.

(** Mallory may not reject Alice's suggestion, and nothing changes; a
    suggestion that does not exist is not found. *)
Lemma lifecycle_errors_witness :
  (Effects.handle (Server.reject Server.KGoal (Some Examples.mallory) 1)
                  Examples.suggestionWorld).2 = Examples.suggestionWorld
  /\ Server.NotFoundError
       (Effects.handle (Server.accept Server.KGoal (Some Examples.alice) 5)
                       Examples.suggestionWorld).1.
Proof.
  split.
  - apply (proj2 (proj2 (proj2 (lifecycle_errors Server.KGoal Examples.mallory 1
                                   Examples.suggestionWorld)))).
    right. reflexivity.
  - apply (proj1 (proj1 (lifecycle_errors Server.KGoal Examples.alice 5
                           Examples.suggestionWorld))).
    reflexivity.
Defined.

(** Alice rejects her suggestion: row 1 is gone, Mallory's row 2 stays. *)
Lemma reject_deletes_one_row_witness :
  Model.aiGoals
    (Effects.store (Effects.handle (Server.reject Server.KGoal (Some Examples.alice) 1)
                                   Examples.suggestionWorld).2)
  = delete 1 (Model.aiGoals Examples.suggestionStore).
Proof.
  apply (reject_deletes_one_row Server.KGoal Examples.alice 1 Examples.suggestionWorld).
  reflexivity.
Defined.

Section TriggerFacts.
Import Model Effects Store Server.

Lemma getUnanalyzed_nil userId s :
  (forall id e, journalEntries s !! id = Some e -> eligible userId (id, e) = false) ->
  getUnanalyzedJournalEntriesByUserId userId s = [].
Proof.
  intros H. destruct (getUnanalyzedJournalEntriesByUserId userId s) as [|r l] eqn:E;
    [reflexivity|].
  assert (Hin : In r (getUnanalyzedJournalEntriesByUserId userId s))
    by (rewrite E; left; reflexivity).
  apply getUnanalyzed_In in Hin as [Hrow Hel]. destruct r as [id e].
  rewrite (H id e Hrow) in Hel. discriminate.
Qed.



(** The manual trigger with nothing to analyze: the run is started, reports
    zeros, and does not reach the extraction. *)
Lemma processUser_nothing o u w :
  getUnanalyzedJournalEntriesByUserId (user_id u) (store w) = [] ->
  handle (processUser o (Some u) (user_id u)) w
  = (json 200 (ProcessedBody zeroSummary),
     {| store := store w;
        trace := trace w ++ [CallProcessAllEntriesForUser (user_id u) None] |}).
Proof.
  intros Hnone.
  unfold handle, processUser, awaitRun, requireAuth, bind, ret, catch, emit.
  rewrite Z.eqb_refl. cbn [negb andb fst snd store trace].
  rewrite processAllEntriesForUser_nothing by (unfold Pipeline.selectUnanalyzed; exact Hnone).
  reflexivity.
Qed.

End TriggerFacts.



Section SavingFacts.
Import JsString Model Effects Store Server System.

#[local] Instance SameJournal_preorder : PreOrder SameJournal.
Proof.
  split.
  - intros w. repeat split.
  - intros w1 w2 w3 (Ha & Hb & Hc) (Ha' & Hb' & Hc'). repeat split; congruence.
Qed.

#[local] Instance SameFlag_preorder id : PreOrder (SameFlag id).
Proof.
  split.
  - intros w. split; reflexivity.
  - intros w1 w2 w3 [Ha Hb] [Ha' Hb']. split; congruence.
Qed.

Lemma SameJournal_SameFlag id w w' : SameJournal w w' -> SameFlag id w w'.
Proof.
  intros (Hj & _ & Ht). split; [|exact Ht]. unfold analyzedFlag. rewrite Hj.
  reflexivity.
Qed.

Lemma updateMatchingGoal_completes userId goal w :
  exists w', updateMatchingGoal userId goal w = (inr tt, w') /\ SameJournal w w'.
Proof.
  unfold updateMatchingGoal. destruct (sentgoal_completion goal) as [completion|].
  - unfold bind, getStore. destruct (find _ _) as [[gid g]|].
    + eexists. split; [reflexivity|]. repeat split.
    + exists w. split; reflexivity.
  - exists w. split; reflexivity.
Qed.

Lemma recordChatGoal_completes userId goal w :
  exists w', recordChatGoal userId goal w = (inr tt, w') /\ SameJournal w w'.
Proof.
  unfold recordChatGoal. destruct (sentgoal_isNew goal).
  - eexists. split; [reflexivity|]. repeat split.
  - apply updateMatchingGoal_completes.
Qed.

Lemma deleteChatEntries_completes id (entries : list (Z * JournalEntry)) w :
  exists w', @forEach Response _ entries (fun r => modify (deleteJournalEntry r.1)) w
             = (inr tt, w')
             /\ SameFlag id w w'.
Proof.
  apply (forEach_completes (SameFlag id)). clear w. intros r w.
  eexists. split; [reflexivity|]. split; [|reflexivity].
  unfold analyzedFlag, modify, deleteJournalEntry, alterJournal.
  cbn [snd store journalEntries withJournal]. rewrite lookup_alter.
  destruct (decide (r.1 = id)) as [-> | Hne]; [|reflexivity].
  destruct (journalEntries (store w) !! id); reflexivity.
Qed.

(** [POST /api/journal-entries] with a content of at most 100 characters. *)
Lemma postJournalEntry_short o u b content w :
  user_id u = jb_userId b ->
  jb_content b = Some content ->
  all isWhitespace content = false ->
  (String.length content <= 100)%nat ->
  let answer := handle (postJournalEntry o (Some u) b) w in
  let id := nextJournalEntryId (store w) in
  answer.1 = json 201 (EntryBody id)
  /\ analyzedFlag id answer.2 = Some true
  /\ trace answer.2
     = trace w ++ [CallGenerateJournalTitle content; CallAnalyzeSentiment content;
                   CallStoreEmbedding id content].
Proof.
  intros Hu Hc Hblank Hlen. cbv zeta.
  assert (Hvalid : String.eqb content EmptyString
                   || String.eqb (trim content) EmptyString = false).
  { apply orb_false_iff. split; apply String.eqb_neq; intros H.
    - subst content. discriminate.
    - apply trim_empty_iff in H. congruence. }
  assert (Hshort : (100 <? String.length content)%nat = false)
    by (apply Nat.ltb_ge; exact Hlen).
  destruct (handle (postJournalEntry o (Some u) b) w) as [r wf] eqn:E.
  unfold handle, postJournalEntry, requireAuth, requireSelf in E.
  unfold bind, ret, emit, update, modify in E.
  cbn [fst snd store trace] in E.
  rewrite Hu, Z.eqb_refl, Hc, Hvalid, Hshort in E.
  cbn [negb fst snd store trace createJournalEntry] in E.
  set (id := nextJournalEntryId (store w)) in *.
  set (e := newJournalEntry _ _ _ _ _) in E.
  destruct (analyzeSentiment o content) as [x|];
    cbn [fst snd store trace] in E;
    match type of E with
    | context [forEach ?xs ?body ?w0] =>
        destruct (forEach_completes SameJournal xs body
                    (updateMatchingGoal_completes (jb_userId b)) w0)
          as [w1 [Hloop (Hj & Hn & Ht)]];
        rewrite Hloop in E
    end;
    cbn [fst snd store trace] in *; injection E as <- <-;
    (split; [reflexivity|]); (split; [|rewrite Ht, <- !app_assoc; reflexivity]);
    unfold analyzedFlag; cbn [store]; rewrite Hj;
    unfold updateJournalEntry, updateJournalEntrySentiment, alterJournal;
    cbn [journalEntries withJournal nextJournalEntryId];
    rewrite ?lookup_alter_eq, lookup_insert_eq; reflexivity.
Qed.

(** [POST /api/journal-entries/save-chat] when there is a chat to save and
    the embedding can be stored: the entry is handed to the suggestion
    module, whatever its content; the handler marks it analyzed only when
    starting the processing throws. *)
Lemma saveChat_hands_over o u b w :
  user_id u = sc_userId b ->
  List.filter (fun r => negb (je_isJournal r.2))
              (getRecentJournalEntriesByUserId (sc_userId b) 50 (store w)) <> [] ->
  let id := nextJournalEntryId (store w) in
  (forall text, storeEmbedding o id text = true) ->
  let answer := handle (saveChat o (Some u) b) w in
  answer.1 = json 201 (EntryBody id)
  /\ analyzedFlag id answer.2 = Some (startFails o id)
  /\ exists transcript,
       trace answer.2
       = trace w ++ [CallGenerateJournalTitle transcript;
                     CallAnalyzeSentiment transcript;
                     CallStoreEmbedding id transcript]
                 ++ (if startFails o id then [] else [StartProcessSingleEntry id]).
Proof.
  intros Hu Hchat id Hemb. cbv zeta.
  destruct (handle (saveChat o (Some u) b) w) as [r wf] eqn:E.
  unfold handle, saveChat, requireAuth, requireSelf in E.
  unfold bind, ret, getStore, emit, update, modify in E.
  cbn [fst snd store trace] in E.
  rewrite Hu, Z.eqb_refl in E. cbn [negb fst snd store trace] in E.
  destruct (oldestFirst _) as [|c chat] eqn:Echat.
  { exfalso. apply Hchat. apply length_zero_iff_nil.
    rewrite <- oldestFirst_length, Echat. reflexivity. }
  set (transcript := join _ _) in E.
  cbn [fst snd store trace createJournalEntry] in E. fold id in E.
  set (e := newJournalEntry _ _ _ _ _) in E.
  match type of E with
  | context [forEach ?xs (recordChatGoal ?x) ?w0] =>
      destruct (forEach_completes SameJournal xs (recordChatGoal x)
                  (recordChatGoal_completes x) w0)
        as [w1 [Hloop (Hj & Hn & Ht)]];
      rewrite Hloop in E
  end.
  cbn [fst snd store trace] in *. rewrite Hemb in E.
  assert (Hflag1 : analyzedFlag id w1 = Some false).
  { unfold analyzedFlag. rewrite Hj.
    unfold updateJournalEntrySentiment, alterJournal.
    cbn [journalEntries withJournal]. rewrite lookup_alter_eq, lookup_insert_eq.
    reflexivity. }
  destruct (startFails o id) eqn:Estart;
    match type of E with
    | context [forEach ?xs ?body ?w0] =>
        destruct (deleteChatEntries_completes id xs w0) as [w2 [Hdel [Hf2 Ht2]]];
        unfold modify in Hdel; rewrite Hdel in E
    end;
    cbn [fst snd store trace] in *; injection E as <- <-;
    (split; [reflexivity|]); split;
      try (exists transcript; rewrite Ht2, Ht, <- !app_assoc; reflexivity).
  - rewrite Hf2. unfold analyzedFlag in *. cbn [store].
    unfold updateJournalEntry, alterJournal. cbn [journalEntries withJournal].
    rewrite lookup_alter_eq. destruct (journalEntries (store w1) !! id) as [e1|];
      [reflexivity | discriminate].
  - rewrite Hf2. exact Hflag1.
Qed.

End SavingFacts.

(** Claim C3, as the code has it.  An entry saved through
    [POST /api/journal-entries] with a content of at most 100 characters is
    marked analyzed before the handler answers, and the handler starts no
    suggestion processing for it: the only calls that leave the process are
    the title generation, the sentiment analysis and the storing of the
    embedding, so the extraction is not reached. *)
Theorem short_entries_are_marked_on_direct_save
    (o : Effects.Oracle) (u : Server.User) (b : Server.JournalEntryBody)
    (content : string) (w : Effects.World) :
  Server.user_id u = Server.jb_userId b ->
  Server.jb_content b = Some content ->
  JsString.all JsString.isWhitespace content = false ->
  (String.length content <= 100)%nat ->
  let answer := Effects.handle (Server.postJournalEntry o (Some u) b) w in
  let id := Model.nextJournalEntryId (Effects.store w) in
  answer.1 = Effects.json 201 (Effects.EntryBody id)
  /\ System.analyzedFlag id answer.2 = Some true
  /\ Effects.trace answer.2
     = Effects.trace w
       ++ [Effects.CallGenerateJournalTitle content;
           Effects.CallAnalyzeSentiment content;
           Effects.CallStoreEmbedding id content].
Proof. apply postJournalEntry_short. Qed.

(** A note of five characters, saved directly. *)
Lemma short_entries_are_marked_on_direct_save_witness :
  System.analyzedFlag 1
    (Effects.handle
       (Server.postJournalEntry Examples.quiet (Some Examples.alice)
          {| Server.jb_content := Some "Tired"; Server.jb_userId := 7;
             Server.jb_transcript := None; Server.jb_date := Some 5 |})
       {| Effects.store := Model.emptyStorage; Effects.trace := [] |}).2
  = Some true.
Proof.
  apply (short_entries_are_marked_on_direct_save Examples.quiet Examples.alice
           {| Server.jb_content := Some "Tired"; Server.jb_userId := 7;
              Server.jb_transcript := None; Server.jb_date := Some 5 |}
           "Tired" {| Effects.store := Model.emptyStorage; Effects.trace := [] |});
    [reflexivity | reflexivity | reflexivity | simpl; lia].
Defined.

(** Claim C3, as the specification words it, fails on the code: the chat
    whose last message is "ok" is saved as a journal entry with the content
    "ok", two characters long; when the handler has answered the entry is
    not marked analyzed and the suggestion processing has been started for
    it. *)
Lemma short_chat_entry_is_not_marked :
  let answer :=
    Effects.handle
      (Server.saveChat Examples.quiet (Some Examples.alice)
         {| Server.sc_userId := 7; Server.sc_date := None |})
      {| Effects.store := Examples.chatStore; Effects.trace := [] |} in
  answer.1 = Effects.json 201 (Effects.EntryBody 3)
  /\ Model.je_content <$> Model.journalEntries (Effects.store answer.2) !! 3 = Some "ok"
  /\ (String.length "ok" <= 100)%nat
  /\ System.analyzedFlag 3 answer.2 = Some false
  /\ In (Effects.StartProcessSingleEntry 3) (Effects.trace answer.2).
Proof.
  cbv zeta. split; [vm_compute; reflexivity|].
  split; [vm_compute; reflexivity|].
  split; [simpl; lia|].
  split; [vm_compute; reflexivity|].
  vm_compute. auto.
Qed.

Section BatchFacts.
Import Model Effects Store Server Pipeline.






End BatchFacts.




(** A life of an entry: saved unanalyzed, analyzed by the detached run the
    handler started, then left alone by a later run: the flag goes up
    once. *)
Lemma analyzed_flag_is_monotone_witness :
  System.WellFormed Model.emptyStorage
  /\ System.transitions false true 1
       (System.states
          {| Effects.store := Model.emptyStorage; Effects.trace := [] |}
          [(Examples.quiet,
            System.PostJournalEntry (Some Examples.alice) Examples.saveLongNote);
           (Examples.quiet, System.BackgroundSingleEntry 1);
           (Examples.quiet,
            System.Run Server.ProcessUser (Some Examples.alice) 7)]) = 1%nat
  /\ (System.transitions false true 1
        (System.states
           {| Effects.store := Model.emptyStorage; Effects.trace := [] |}
           [(Examples.quiet,
             System.PostJournalEntry (Some Examples.alice) Examples.saveLongNote);
            (Examples.quiet, System.BackgroundSingleEntry 1%Z);
            (Examples.quiet,
             System.Run Server.ProcessUser (Some Examples.alice) 7%Z)]) <= 1)%nat.
Proof.
  assert (Hw : System.WellFormed Model.emptyStorage).
  { intros id [e He]. cbn in He. rewrite lookup_empty in He. discriminate. }
  split; [exact Hw|]. split; [vm_compute; reflexivity|].
  apply (analyzed_flag_is_monotone
           {| Effects.store := Model.emptyStorage; Effects.trace := [] |}).
  exact Hw.
Defined.

(* ===================================================================== *)
(** * The scenarios of section 8 of the specification *)
(* ===================================================================== *)

Section Scenarios.
Import Model Effects Store Server Pipeline.

Lemma markAllAnalyzed_lookup ids s id :
  journalEntries (markAllAnalyzed ids s) !! id
  = (if bool_decide (id ∈ ids) then setAnalyzed true else fun e => e)
      <$> journalEntries s !! id.
Proof.
  unfold markAllAnalyzed. revert s. induction ids as [|i ids IH]; intros s.
  - simpl. destruct (journalEntries s !! id); reflexivity.
  - cbn [fold_left]. rewrite IH. unfold markAnalyzed, updateJournalEntry, alterJournal.
    cbn [journalEntries withJournal]. rewrite lookup_alter.
    destruct (decide (i = id)) as [-> | Hne].
    + rewrite (bool_decide_eq_true_2 (id ∈ id :: ids)) by (apply elem_of_cons; left; reflexivity).
      destruct (journalEntries s !! id) as [e|]; [|reflexivity].
      simpl. destruct (bool_decide (id ∈ ids)); reflexivity.
    + destruct (bool_decide (id ∈ ids)) eqn:E.
      * apply bool_decide_eq_true_1 in E.
        rewrite (bool_decide_eq_true_2 (id ∈ i :: ids))
          by (apply elem_of_cons; right; exact E).
        reflexivity.
      * apply bool_decide_eq_false_1 in E.
        rewrite (bool_decide_eq_false_2 (id ∈ i :: ids))
          by (intros H; apply elem_of_cons in H as [H | H];
              [congruence | contradiction]).
        reflexivity.
Qed.

(** Idempotence: when the batch of a successful run holds every unanalyzed
    journal entry of the user, nothing is left for the next run. *)
Lemma nothing_left_after_full_batch o userId limit w result :
  let batch := selectUnanalyzed userId limit (store w) in
  batch = getUnanalyzedJournalEntriesByUserId userId (store w) ->
  batch <> [] ->
  askExtraction o userId batch (store w) = inr result ->
  getUnanalyzedJournalEntriesByUserId userId
    (store (processAllEntriesForUser o userId limit w).2) = [].
Proof.
  cbv zeta. intros Hfull Hne Hex.
  rewrite (processAllEntriesForUser_success o userId limit w result Hne Hex).
  cbn [snd store]. apply getUnanalyzed_nil. intros id e Hrow.
  rewrite markAllAnalyzed_lookup in Hrow.
  destruct (persist_journal userId
              (dedup gc_name (goalPool userId (store w)) (ex_goals result)).1
              (dedup tc_title (taskPool userId (store w)) (ex_tasks result)).1
              (dedup hc_title (habitPool userId (store w)) (ex_habits result)).1
              (store w)) as [Hj _].
  rewrite Hj in Hrow.
  destruct (journalEntries (store w) !! id) as [e0|] eqn:E0; [|discriminate].
  simpl in Hrow. injection Hrow as <-.
  destruct (bool_decide (id ∈ map fst (selectUnanalyzed userId limit (store w))))
    eqn:Ein.
  - unfold eligible. simpl. rewrite andb_false_r. reflexivity.
  - destruct (eligible userId (id, e0)) eqn:Eel; [|reflexivity].
    exfalso. apply bool_decide_eq_false_1 in Ein. apply Ein.
    rewrite Hfull. apply list_elem_of_In.
    apply (in_map fst _ (id, e0)). apply getUnanalyzed_In. auto.
Qed.

(** The extraction fails for a batch of three entries: the request is
    answered with an error, the three entries stay unanalyzed and no
    suggestion row is written. *)
Example extraction_error_leaves_entries :
  let failing :=
    {| apiKeyConfigured := true; now := 1000;
       generateJournalTitle := fun _ => None;
       analyzeSentiment := fun _ => None;
       storeEmbedding := fun _ _ => true;
       startFails := fun _ => false;
       extract := fun _ _ _ => inl "OpenAI API request timed out" |} in
  let answer :=
    handle (generateSuggestions ListGoals failing (Some Examples.alice) 7)
           {| store := Examples.busyStore; trace := [] |} in
  status answer.1 = 500
  /\ store answer.2 = Examples.busyStore
  /\ trace answer.2 = [CallProcessAllEntriesForUser 7 (Some 3%nat); CallExtract [3; 2; 4]].
Proof. cbv zeta. repeat split; vm_compute; reflexivity. Qed.

(** Two candidates of one batch that are near-duplicates of each other: the
    first is kept, the second is skipped through the pool of the run. *)
Example intra_batch_duplicate_is_skipped :
  dedup gc_name []
        [Examples.candidateNamed "meditate 10 min daily";
         Examples.candidateNamed "daily meditation"]
  = ([Examples.candidateNamed "meditate 10 min daily"], 1%nat).
Proof. vm_compute. reflexivity. Qed.

End Scenarios.

(* ===================================================================== *)
(** * The goals page: what the user is shown and what is sent *)
(* ===================================================================== *)

Section PageFacts.
Import JsString Client GoalsPage.

Lemma append_inj_r p a b : p +:+ a = p +:+ b -> a = b.
Proof.
  induction p as [|c p IH]; [auto|].
  rewrite !append_cons. intros H. injection H as H. auto.
Qed.

Lemma numberToString_inj n m : numberToString n = numberToString m -> n = m.
Proof.
  unfold numberToString. intros H.
  apply (f_equal NilEmpty.uint_of_string) in H. rewrite !NilEmpty.usu in H.
  injection H as H. apply (f_equal Nat.of_uint) in H.
  rewrite !Unsigned.of_to in H. exact H.
Qed.

(** Items numbered by their position have distinct identifiers. *)
Lemma NoDup_numbered {A B} (prefix : string) (id : B -> string)
    (item : nat -> A -> B) (l : list A) :
  (forall i x, id (item i x) = prefix +:+ numberToString i) ->
  NoDup (map id (imap item l)).
Proof.
  intros Hid. apply NoDup_alt. intros i j x Hi Hj.
  change (map id (imap item l)) with (id <$> imap item l) in *.
  rewrite list_lookup_fmap, list_lookup_imap in Hi, Hj.
  destruct (l !! i) as [a|]; [|discriminate].
  destruct (l !! j) as [b|]; [|discriminate].
  simpl in Hi, Hj. rewrite Hid in Hi, Hj.
  injection Hi as Hi. injection Hj as Hj.
  apply numberToString_inj, (append_inj_r prefix). congruence.
Qed.

Lemma determineFrequency_cases habitName :
  let name := toLowerCase habitName in
  determineFrequency habitName =
  if includes name "weekly" || includes name "each week" then "weekly"
  else if includes name "monthly" || includes name "each month" then "monthly"
  else "daily".
Proof. reflexivity. Qed.

Lemma determineFrequency_In habitName :
  In (determineFrequency habitName) ["daily"; "weekly"; "monthly"].
Proof.
  rewrite determineFrequency_cases. cbv zeta.
  destruct (_ || _); [simpl; auto|]. destruct (_ || _); simpl; auto.
Qed.

Lemma filter_filter_comm {A} (p q : A -> bool) l :
  List.filter p (List.filter q l) = List.filter q (List.filter p l).
Proof.
  induction l as [|x l IH]; [reflexivity|]. simpl.
  destruct (q x) eqn:Eq, (p x) eqn:Ep; simpl; rewrite ?Eq, ?Ep, IH; reflexivity.
Qed.

Lemma filteredAiSuggestedGoals_filter goals keep l :
  List.filter keep (filteredAiSuggestedGoals goals l)
  = filteredAiSuggestedGoals goals (List.filter keep l).
Proof.
  unfold filteredAiSuggestedGoals. destruct (0 <? length goals)%nat; [|reflexivity].
  apply filter_filter_comm.
Qed.

Lemma filter_length_le {A} (p : A -> bool) l :
  (length (List.filter p l) <= length l)%nat.
Proof. induction l as [|x l IH]; simpl; [lia|]. destruct (p x); simpl; lia. Qed.

(** Removing the one element that carries a given identifier. *)
Lemma filter_remove_one {A} (id : A -> string) (x : A) (l : list A) :
  NoDup (map id l) -> In x l ->
  S (length (List.filter (fun y => negb (String.eqb (id y) (id x))) l)) = length l.
Proof.
  induction l as [|y l IH]; intros Hnd Hin; [destruct Hin|].
  simpl in Hnd. apply NoDup_cons in Hnd as [Hy Hnd]. simpl.
  destruct Hin as [-> | Hin].
  - rewrite String.eqb_refl. simpl. f_equal.
    clear IH. induction l as [|z l IH]; [reflexivity|].
    simpl in Hy, Hnd. apply NoDup_cons in Hnd as [_ Hnd].
    apply not_elem_of_cons in Hy as [Hzx Hy]. simpl.
    destruct (String.eqb_spec (id z) (id x)) as [E|_]; [congruence|].
    simpl. f_equal. auto.
  - destruct (String.eqb_spec (id y) (id x)) as [E|_].
    + exfalso. apply Hy. rewrite E. apply list_elem_of_In, in_map, Hin.
    + simpl. f_equal. auto.
Qed.

Lemma similarGoal_None goals name :
  similarGoal goals name = None <->
  forall goal, In goal goals ->
    includes (toLowerCase (goal_name goal)) (toLowerCase name) = false
    /\ includes (toLowerCase name) (toLowerCase (goal_name goal)) = false.
Proof.
  unfold similarGoal. split.
  - intros H goal Hin. apply orb_false_iff.
    exact (find_none _ _ H goal Hin).
  - intros H. destruct (List.find _ goals) as [g|] eqn:E; [|reflexivity].
    apply find_some in E as [Hin Hg]. destruct (H g Hin) as [H1 H2].
    rewrite H1, H2 in Hg. discriminate.
Qed.

Lemma similarNames_false a u :
  similarNames a u = false -> includes u a = false /\ includes a u = false.
Proof.
  unfold similarNames. intros H.
  do 3 (apply orb_false_iff in H as [H _]).
  apply orb_false_iff in H. exact H.
Qed.

Lemma similarTitles_substring a u :
  Substring a u \/ Substring u a -> similarTitles a u = true.
Proof.
  unfold similarTitles. intros [H | H]; apply includes_spec in H; rewrite H;
    rewrite ?orb_true_r; reflexivity.
Qed.

End PageFacts.

(** X1.  [determineFrequency] classifies every habit name as "daily",
    "weekly" or "monthly", the three values the habit form accepts: "weekly"
    exactly when the lower-cased name mentions "weekly" or "each week",
    "monthly" exactly when it does not and mentions "monthly" or "each
    month", "daily" otherwise; capitals in the name make no difference. *)
Theorem determineFrequency_is_a_frequency (habitName : string) :
  let name := JsString.toLowerCase habitName in
  let weekly := JsString.includes name "weekly" || JsString.includes name "each week" in
  let monthly := JsString.includes name "monthly"
                 || JsString.includes name "each month" in
  In (Client.determineFrequency habitName) ["daily"; "weekly"; "monthly"]
  /\ (Client.determineFrequency habitName = "weekly" <-> weekly = true)
  /\ (Client.determineFrequency habitName = "monthly"
      <-> weekly = false /\ monthly = true)
  /\ (Client.determineFrequency habitName = "daily"
      <-> weekly = false /\ monthly = false)
  /\ Client.determineFrequency (JsString.toLowerCase habitName)
     = Client.determineFrequency habitName.
Proof.
  intros name weekly monthly.
  split; [apply determineFrequency_In|].
  assert (E : Client.determineFrequency habitName
              = if weekly then "weekly" else if monthly then "monthly" else "daily")
    by reflexivity.
  rewrite E.
  split; [|split; [|split]].
  - destruct weekly, monthly; split; intros H; try reflexivity; discriminate.
  - destruct weekly, monthly; split; intros H; try reflexivity;
      try discriminate; destruct H; discriminate || auto.
  - destruct weekly, monthly; split; intros H; try reflexivity;
      try discriminate; destruct H; discriminate || auto.
  - rewrite <- E. rewrite !determineFrequency_cases. cbv zeta.
    rewrite toLowerCase_idem. reflexivity.
Qed.

(** X2.  Whatever the server answers, the page has suggestions to show: the
    lists of suggested goals and of suggested habits are never empty (the
    built-in examples stand in for a kind the answer lacks), no two
    suggestions of a list share an identifier, and every suggested habit
    has one of the frequencies "daily", "weekly", "monthly". *)
Theorem suggestions_are_never_empty (goals : option (list GoalsPage.AISuggestion)) :
  let suggested := GoalsPage.processSuggestions goals in
  suggested.1 <> []
  /\ suggested.2 <> []
  /\ NoDup (map Client.sg_id suggested.1)
  /\ NoDup (map GoalsPage.sh_id suggested.2)
  /\ Forall (fun h => In (GoalsPage.sh_frequency h) ["daily"; "weekly"; "monthly"])
            suggested.2.
Proof.
  cbv zeta.
  assert (Hg : NoDup (map Client.sg_id GoalsPage.AI_SUGGESTED_GOALS))
    by (apply (bool_decide_unpack _); vm_compute; exact I).
  assert (Hh : NoDup (map GoalsPage.sh_id GoalsPage.AI_SUGGESTED_HABITS))
    by (apply (bool_decide_unpack _); vm_compute; exact I).
  assert (Hf : Forall (fun h => In (GoalsPage.sh_frequency h)
                                   ["daily"; "weekly"; "monthly"])
                      GoalsPage.AI_SUGGESTED_HABITS)
    by (repeat constructor; simpl; auto).
  unfold GoalsPage.processSuggestions.
  destruct goals as [[|s l]|]; cbn [fst snd];
    try (repeat split; [discriminate | discriminate | assumption..]).
  set (all := s :: l).
  assert (Hgi : NoDup (map Client.sg_id (GoalsPage.goalItems all))).
  { apply (NoDup_numbered "ai-goal-"). reflexivity. }
  assert (Hhi : NoDup (map GoalsPage.sh_id (GoalsPage.habitItems all))).
  { apply (NoDup_numbered "ai-habit-"). reflexivity. }
  assert (Hfi : Forall (fun h => In (GoalsPage.sh_frequency h)
                                    ["daily"; "weekly"; "monthly"])
                       (GoalsPage.habitItems all)).
  { apply Forall_forall. intros h Hin.
    apply elem_of_lookup_imap_1 in Hin as (i & y & -> & _).
    apply determineFrequency_In. }
  destruct (GoalsPage.goalItems all) as [|g gs] eqn:Eg;
    destruct (GoalsPage.habitItems all) as [|h hs] eqn:Eh; cbn [length Nat.ltb Nat.leb];
    repeat split; try discriminate; assumption.
Qed.

Section PageFacts2.
Import JsString Client GoalsPage.

Lemma NoDup_map_inj {A} (id : A -> string) (l : list A) x y :
  NoDup (map id l) -> In x l -> In y l -> id x = id y -> x = y.
Proof.
  induction l as [|z l IH]; intros Hnd Hx Hy E; [destruct Hx|].
  simpl in Hnd. apply NoDup_cons in Hnd as [Hz Hnd].
  destruct Hx as [-> | Hx], Hy as [-> | Hy]; auto.
  - exfalso. apply Hz. rewrite E. apply list_elem_of_In, in_map, Hy.
  - exfalso. apply Hz. rewrite <- E. apply list_elem_of_In, in_map, Hx.
Qed.

Lemma filter_sublist {A} (p : A -> bool) l : sublist (List.filter p l) l.
Proof.
  induction l as [|x l IH]; simpl; [constructor|].
  destruct (p x); [apply sublist_skip | apply sublist_cons]; exact IH.
Qed.

Lemma similarHabit_None habits title :
  (forall habit, In habit habits ->
      includes (toLowerCase (habit_title habit)) (toLowerCase title) = false
      /\ includes (toLowerCase title) (toLowerCase (habit_title habit)) = false) ->
  similarHabit habits title = None.
Proof.
  intros H. unfold similarHabit.
  destruct (List.find _ habits) as [h|] eqn:E; [|reflexivity].
  apply find_some in E as [Hin Hh]. destruct (H h Hin) as [H1 H2].
  rewrite H1, H2 in Hh. discriminate.
Qed.

Lemma similarTitles_false a u :
  similarTitles a u = false -> includes u a = false /\ includes a u = false.
Proof.
  unfold similarTitles. intros H.
  do 4 (apply orb_false_iff in H as [H _]).
  apply orb_false_iff in H. exact H.
Qed.

Lemma similarTitles_keyword k a u :
  In k ["water"; "walk"; "read"] ->
  includes a k = true -> includes u k = true -> similarTitles a u = true.
Proof.
  unfold similarTitles. intros [<- | [<- | [<- | []]]] Ha Hu; rewrite Ha, Hu;
    rewrite ?orb_true_r; reflexivity.
Qed.

Lemma hidden_habit habits suggestions aiHabit userHabit :
  In userHabit habits ->
  similarTitles (toLowerCase (sh_title aiHabit)) (toLowerCase (habit_title userHabit))
  = true ->
  ~ In aiHabit (filteredAiSuggestedHabits habits suggestions).
Proof.
  intros Hin Hsim Hshown. unfold filteredAiSuggestedHabits in Hshown.
  apply filter_In in Hshown as [_ Hkeep]. cbv zeta in Hkeep.
  apply negb_true_iff in Hkeep.
  assert (E : existsb (fun userHabit0 =>
                         similarTitles (toLowerCase (sh_title aiHabit))
                                       (toLowerCase (habit_title userHabit0)))
                      habits = true).
  { apply existsb_exists. exists userHabit. split; assumption. }
  congruence.
Qed.

(** The groups after adding the goals [l] to the groups [m]. *)
Lemma addToCategory_fold l : forall m m',
  fold_left addToCategory l (Some m) = Some m' ->
  forall category,
    m' !! category =
    match List.filter (fun g => String.eqb (categoryOf g) category) l with
    | [] => m !! category
    | members => Some (default [] (m !! category) ++ members)
    end.
Proof.
  induction l as [|g l IH]; intros m m' H category.
  - simpl in H. injection H as <-. reflexivity.
  - change (fold_left addToCategory l (addToCategory (Some m) g) = Some m') in H.
    destruct (addToCategory (Some m) g) as [m1|] eqn:Estep.
    2:{ exfalso. clear -H. induction l as [|x l IH]; simpl in H; [discriminate|auto]. }
    unfold addToCategory in Estep.
    destruct (bool_decide (categoryOf g ∈ objectPrototypeKeys)); [discriminate|].
    injection Estep as <-.
    rewrite (IH _ _ H category). simpl.
    destruct (String.eqb_spec (categoryOf g) category) as [E | E].
    + rewrite E, lookup_insert_eq. simpl.
      destruct (List.filter _ l) as [|x xs].
      * reflexivity.
      * rewrite <- app_assoc. reflexivity.
    + rewrite lookup_insert_ne by exact E. reflexivity.
Qed.

Lemma addToCategory_fold_None l : fold_left addToCategory l None = None.
Proof. induction l as [|x l IH]; simpl; auto. Qed.

Lemma goalsByCategory_fails l : forall m,
  fold_left addToCategory l (Some m) = None <->
  exists g, In g l /\ In (categoryOf g) objectPrototypeKeys.
Proof.
  induction l as [|g l IH]; intros m.
  - simpl. split; [discriminate | intros [g [[] _]]].
  - change (fold_left addToCategory (g :: l) (Some m))
      with (fold_left addToCategory l (addToCategory (Some m) g)).
    unfold addToCategory at 2.
    destruct (bool_decide (categoryOf g ∈ objectPrototypeKeys)) eqn:E.
    + rewrite addToCategory_fold_None. split; [|reflexivity]. intros _.
      exists g. split; [left; reflexivity|].
      apply bool_decide_eq_true in E. apply list_elem_of_In, E.
    + rewrite IH. apply bool_decide_eq_false in E. split.
      * intros [x [Hin Hx]]. exists x. split; [right; exact Hin | exact Hx].
      * intros [x [[-> | Hin] Hx]].
        -- exfalso. apply E, list_elem_of_In, Hx.
        -- exists x. split; assumption.
Qed.

Lemma find_id_In (l : list Goal) x :
  NoDup (map goal_id l) -> In x l ->
  List.find (fun g => goal_id g =? goal_id x) l = Some x.
Proof.
  induction l as [|y l IH]; intros Hnd Hin; [destruct Hin|].
  simpl in Hnd. apply NoDup_cons in Hnd as [Hy Hnd]. simpl.
  destruct Hin as [-> | Hin]; [rewrite Z.eqb_refl; reflexivity|].
  destruct (Z.eqb_spec (goal_id y) (goal_id x)) as [E|_]; [|auto].
  exfalso. apply Hy. rewrite E. apply list_elem_of_In.
  apply (in_map goal_id) in Hin. exact Hin.
Qed.

Lemma find_notGoal_None goalId (l : list DeletedGoal) :
  (forall d, In d l -> goal_id (dg_goal d) <> goalId) ->
  List.find (fun g => goal_id (dg_goal g) =? goalId) l = None
  /\ List.filter (notGoal goalId) l = l.
Proof.
  induction l as [|d l IH]; intros H; [split; reflexivity|].
  assert (Hd : goal_id (dg_goal d) <> goalId) by (apply H; left; reflexivity).
  destruct IH as [IH1 IH2]; [intros x Hx; apply H; right; exact Hx|].
  unfold notGoal in *. simpl. apply Z.eqb_neq in Hd. rewrite Hd. simpl.
  rewrite IH1, IH2. split; reflexivity.
Qed.

Lemma find_app_None {A} (p : A -> bool) l l' :
  List.find p l = None -> List.find p (l ++ l') = List.find p l'.
Proof.
  induction l as [|x l IH]; [reflexivity|]. simpl.
  destruct (p x); [discriminate | exact IH].
Qed.

Lemma ceilDiv_spec a b q : 0 < b -> (ceilDiv a b <= q <-> a <= q * b).
Proof.
  intros Hb. unfold ceilDiv. split; intros H.
  - pose proof (Z.mul_div_le (- a) b Hb). nia.
  - assert (- q <= - a / b); [|lia].
    apply Z.div_le_lower_bound; [exact Hb | nia].
Qed.

End PageFacts2.

(** X3.  Adopting a suggested goal sends one request, to create a goal with
    the name and the category of the suggestion, target 100, progress 0 and
    the user as owner, and takes exactly the adopted suggestion off the list:
    it is gone, every other suggestion stays, and the list is one shorter,
    provided the suggestions carry distinct identifiers (which the page
    ensures, see X2). *)
Theorem adopting_removes_one_suggestion
    (userId : Z) (aiGoal : Client.SuggestedGoal) (st : GoalsPage.State) :
  userId <> 0 ->
  NoDup (map Client.sg_id (GoalsPage.aiSuggestedGoals st)) ->
  In aiGoal (GoalsPage.aiSuggestedGoals st) ->
  let after := GoalsPage.adoptAiGoal (Some userId) aiGoal st in
  ~ In aiGoal (GoalsPage.aiSuggestedGoals after.1)
  /\ (forall g, In g (GoalsPage.aiSuggestedGoals st) -> g <> aiGoal ->
                In g (GoalsPage.aiSuggestedGoals after.1))
  /\ S (length (GoalsPage.aiSuggestedGoals after.1))
     = length (GoalsPage.aiSuggestedGoals st)
  /\ NoDup (map Client.sg_id (GoalsPage.aiSuggestedGoals after.1))
  /\ exists values,
       after.2 = [GoalsPage.AddGoal values]
       /\ GoalsPage.gv_name values = Client.sg_name aiGoal
       /\ GoalsPage.gv_category values = Client.sg_category aiGoal
       /\ GoalsPage.gv_target values = 100
       /\ GoalsPage.gv_progress values = 0
       /\ GoalsPage.gv_userId values = userId.
Proof.
  intros Hu Hnd Hin. cbv zeta. unfold GoalsPage.adoptAiGoal.
  replace (GoalsPage.noUser (Some userId)) with false
    by (symmetry; apply Z.eqb_neq; exact Hu).
  cbn [fst snd GoalsPage.aiSuggestedGoals GoalsPage.setSuggestedGoals].
  split; [|split; [|split; [|split]]].
  - intros H. apply filter_In in H as [_ H]. rewrite String.eqb_refl in H.
    discriminate.
  - intros g Hg Hne. apply filter_In. split; [exact Hg|].
    apply negb_true_iff, String.eqb_neq. intros E. apply Hne.
    exact (NoDup_map_inj Client.sg_id _ g aiGoal Hnd Hg Hin E).
  - apply (filter_remove_one Client.sg_id); assumption.
  - eapply sublist_NoDup; [exact Hnd|].
    apply (fmap_sublist Client.sg_id), filter_sublist.
  - eexists. split; [reflexivity|]. repeat split.
Qed.

(** The first built-in suggestion, adopted by user 7. *)
Lemma adopting_removes_one_suggestion_witness :
  S (length (GoalsPage.aiSuggestedGoals
               (GoalsPage.adoptAiGoal (Some 7) Samples.meditation
                                      Samples.freshPage).1))
  = 3%nat.
Proof.
  refine (proj1 (proj2 (proj2
    (adopting_removes_one_suggestion 7 Samples.meditation Samples.freshPage
                                     _ _ _)))).
  - lia.
  - apply (bool_decide_unpack _). vm_compute. exact I.
  - simpl. auto.
Defined.

(** X4.  Adopting a suggestion updates the list of shown suggestions by
    hand; the result is the list the filtering effect computes from the
    goals and the remaining suggestions, so the two never disagree. *)
Theorem adopting_agrees_with_the_filter
    (userId : option Z) (aiGoal : Client.SuggestedGoal) (goals : list Client.Goal)
    (st : GoalsPage.State) :
  GoalsPage.refilter goals st = st ->
  let after := (GoalsPage.adoptAiGoal userId aiGoal st).1 in
  GoalsPage.refilter goals after = after.
Proof.
  intros Hsync. cbv zeta. unfold GoalsPage.adoptAiGoal.
  destruct (GoalsPage.noUser userId); [exact Hsync|].
  cbn [fst]. unfold GoalsPage.refilter, GoalsPage.setSuggestedGoals.
  cbn [GoalsPage.aiSuggestedGoals GoalsPage.filteredGoals
       GoalsPage.aiSuggestedHabits GoalsPage.deletedGoals
       GoalsPage.showNewGoalDialog GoalsPage.showNewHabitDialog].
  f_equal.
  assert (E : GoalsPage.filteredGoals st
              = Client.filteredAiSuggestedGoals goals (GoalsPage.aiSuggestedGoals st)).
  { rewrite <- Hsync at 1. reflexivity. }
  rewrite E. symmetry. apply filteredAiSuggestedGoals_filter.
Qed.

(** The page after the filtering effect ran on the built-in suggestions and
    a goal about reading. *)
Lemma adopting_agrees_with_the_filter_witness :
  let goals := [Samples.goal 1 "Read more books" "Learning" 0] in
  let st := GoalsPage.refilter goals Samples.freshPage in
  let after := (GoalsPage.adoptAiGoal (Some 7) Samples.meditation st).1 in
  map Client.sg_id (GoalsPage.filteredGoals st) = ["ai-1"; "ai-2"]
  /\ GoalsPage.refilter goals after = after.
Proof.
  cbv zeta. split; [vm_compute; reflexivity|].
  apply (adopting_agrees_with_the_filter (Some 7) Samples.meditation
           [Samples.goal 1 "Read more books" "Learning" 0]).
  vm_compute. reflexivity.
Defined.

(** X5.  The list of suggested habits the page shows is the list of
    suggestions without some of its elements, in the same order; with no
    habit of the user nothing is hidden; a suggestion whose lower-cased
    title occurs in, or contains, the lower-cased title of a habit of the
    user is hidden, and so is one that shares the word "water", "walk" or
    "read" with a habit of the user. *)
Theorem similar_habit_suggestions_are_hidden
    (habits : list GoalsPage.Habit) (suggestions : list GoalsPage.SuggestedHabit) :
  GoalsPage.filteredAiSuggestedHabits [] suggestions = suggestions
  /\ sublist (GoalsPage.filteredAiSuggestedHabits habits suggestions) suggestions
  /\ (forall aiHabit userHabit,
        In userHabit habits ->
        JsString.Substring (JsString.toLowerCase (GoalsPage.sh_title aiHabit))
                           (JsString.toLowerCase (GoalsPage.habit_title userHabit))
        \/ JsString.Substring (JsString.toLowerCase (GoalsPage.habit_title userHabit))
                              (JsString.toLowerCase (GoalsPage.sh_title aiHabit)) ->
        ~ In aiHabit (GoalsPage.filteredAiSuggestedHabits habits suggestions))
  /\ (forall aiHabit userHabit keyword,
        In userHabit habits ->
        In keyword ["water"; "walk"; "read"] ->
        JsString.Substring keyword (JsString.toLowerCase (GoalsPage.sh_title aiHabit)) ->
        JsString.Substring keyword
                           (JsString.toLowerCase (GoalsPage.habit_title userHabit)) ->
        ~ In aiHabit (GoalsPage.filteredAiSuggestedHabits habits suggestions)).
Proof.
  split; [|split; [|split]].
  - unfold GoalsPage.filteredAiSuggestedHabits. simpl.
    induction suggestions as [|x l IH]; simpl; congruence.
  - apply filter_sublist.
  - intros aiHabit userHabit Hin Hsub.
    apply (hidden_habit _ _ _ userHabit Hin), similarTitles_substring, Hsub.
  - intros aiHabit userHabit keyword Hin Hk Ha Hu.
    apply (hidden_habit _ _ _ userHabit Hin).
    apply (similarTitles_keyword keyword); [exact Hk | |]; apply includes_spec;
      assumption.
Qed.

(** X6.  The filter of suggestions is at least as strict as the check of the
    forms: a suggested goal that the page shows is not similar to any goal
    in the sense of [onGoalSubmit], so that submitting a goal of that name
    creates it without asking; likewise for a suggested habit that is shown
    and [onHabitSubmit]. *)
Theorem shown_suggestions_pass_the_duplicate_check :
  (forall (goals : list Client.Goal) (suggestions : list Client.SuggestedGoal)
          (aiGoal : Client.SuggestedGoal) (confirm : string -> bool)
          (values : GoalsPage.GoalFormValues) (st : GoalsPage.State),
      In aiGoal (Client.filteredAiSuggestedGoals goals suggestions) ->
      GoalsPage.gv_name values = Client.sg_name aiGoal ->
      GoalsPage.similarGoal goals (Client.sg_name aiGoal) = None
      /\ GoalsPage.onGoalSubmit confirm goals values st
         = (st, [GoalsPage.AddGoal values]))
  /\ (forall (habits : list GoalsPage.Habit)
             (suggestions : list GoalsPage.SuggestedHabit)
             (aiHabit : GoalsPage.SuggestedHabit) (confirm : string -> bool)
             (values : GoalsPage.HabitFormValues) (st : GoalsPage.State),
      In aiHabit (GoalsPage.filteredAiSuggestedHabits habits suggestions) ->
      GoalsPage.hv_title values = GoalsPage.sh_title aiHabit ->
      GoalsPage.similarHabit habits (GoalsPage.sh_title aiHabit) = None
      /\ GoalsPage.onHabitSubmit confirm habits values st
         = (st, [GoalsPage.AddHabit values])).
Proof.
  split.
  - intros goals suggestions aiGoal confirm values st Hshown Hname.
    assert (Hnone : GoalsPage.similarGoal goals (Client.sg_name aiGoal) = None).
    { apply similarGoal_None. intros goal Hin.
      unfold Client.filteredAiSuggestedGoals in Hshown.
      destruct goals as [|g0 goals]; [destruct Hin|].
      change (0 <? length (g0 :: goals))%nat with true in Hshown.
      apply filter_In in Hshown as [_ Hkeep]. apply negb_true_iff in Hkeep.
      unfold Client.similarToExisting in Hkeep.
      apply similarNames_false.
      destruct (Client.similarNames _ _) eqn:E; [|reflexivity].
      exfalso. rewrite <- not_true_iff_false in Hkeep. apply Hkeep.
      apply existsb_exists. exists goal. split; [exact Hin | exact E]. }
    split; [exact Hnone|].
    unfold GoalsPage.onGoalSubmit. rewrite Hname, Hnone. reflexivity.
  - intros habits suggestions aiHabit confirm values st Hshown Htitle.
    assert (Hnone : GoalsPage.similarHabit habits (GoalsPage.sh_title aiHabit) = None).
    { apply similarHabit_None. intros habit Hin.
      unfold GoalsPage.filteredAiSuggestedHabits in Hshown.
      apply filter_In in Hshown as [_ Hkeep]. cbv zeta in Hkeep.
      apply negb_true_iff in Hkeep.
      apply similarTitles_false.
      destruct (GoalsPage.similarTitles _ _) eqn:E; [|reflexivity].
      exfalso. rewrite <- not_true_iff_false in Hkeep. apply Hkeep.
      apply existsb_exists. exists habit. split; [exact Hin | exact E]. }
    split; [exact Hnone|].
    unfold GoalsPage.onHabitSubmit. rewrite Htitle, Hnone. reflexivity.
Qed.

(** A suggestion about meditation next to a goal about reading: it is
    shown, and submitting it creates the goal at once. *)
Lemma shown_suggestions_pass_the_duplicate_check_witness :
  let goals := [Samples.goal 1 "Read more books" "Learning" 0] in
  let aiGoal := Examples.pageSuggestion "Meditate for 10 minutes daily" in
  In aiGoal (Client.filteredAiSuggestedGoals goals
               [aiGoal; Examples.pageSuggestion "Read 20 books this year"])
  /\ GoalsPage.similarGoal goals (Client.sg_name aiGoal) = None.
Proof.
  cbv zeta.
  assert (H : In (Examples.pageSuggestion "Meditate for 10 minutes daily")
                (Client.filteredAiSuggestedGoals
                   [Samples.goal 1 "Read more books" "Learning" 0]
                   [Examples.pageSuggestion "Meditate for 10 minutes daily";
                    Examples.pageSuggestion "Read 20 books this year"]))
    by (vm_compute; auto).
  split; [exact H|].
  exact (proj1 (proj1 shown_suggestions_pass_the_duplicate_check
                  _ _ _ (fun _ => false)
                  {| GoalsPage.gv_name := "Meditate for 10 minutes daily";
                     GoalsPage.gv_description := EmptyString;
                     GoalsPage.gv_targetDate := EmptyString;
                     GoalsPage.gv_category := "Health";
                     GoalsPage.gv_target := 100; GoalsPage.gv_progress := 0;
                     GoalsPage.gv_unit := "%"; GoalsPage.gv_colorScheme := 1;
                     GoalsPage.gv_userId := 7 |}
                  Samples.freshPage H eq_refl)).
Defined.

(** X7.  [goalsByCategory] groups the goals by their category, a goal
    without category counting as "Other": when the grouping succeeds the
    group of a category holds exactly the goals of that category, in the
    order of the list, and a category without goals has no group.  The
    grouping fails (with a [TypeError]) exactly when some goal has the name
    of a property of [Object.prototype] as its category. *)
Theorem goals_are_grouped_by_category (goals : list Client.Goal) :
  (forall groups, GoalsPage.goalsByCategory goals = Some groups ->
     forall category,
       groups !! category =
       match List.filter (fun g => String.eqb (GoalsPage.categoryOf g) category) goals
       with
       | [] => None
       | members => Some members
       end)
  /\ (GoalsPage.goalsByCategory goals = None <->
      exists g, In g goals
                /\ In (GoalsPage.categoryOf g) GoalsPage.objectPrototypeKeys).
Proof.
  split.
  - intros groups H category.
    rewrite (addToCategory_fold goals ∅ groups H category).
    rewrite lookup_empty. reflexivity.
  - apply goalsByCategory_fails.
Qed.

(** Three goals, two of them about health and one without category. *)
Lemma goals_are_grouped_by_category_witness :
  let goals := [Samples.goal 1 "Run" "Health" 0; Samples.goal 2 "Paint" EmptyString 0;
                Samples.goal 3 "Swim" "Health" 0] in
  exists groups,
    GoalsPage.goalsByCategory goals = Some groups
    /\ groups !! "Health"
       = Some [Samples.goal 1 "Run" "Health" 0; Samples.goal 3 "Swim" "Health" 0]
    /\ groups !! "Other" = Some [Samples.goal 2 "Paint" EmptyString 0]
    /\ groups !! "Career" = None.
Proof.
  cbv zeta.
  destruct (GoalsPage.goalsByCategory _) as [groups|] eqn:E;
    [|vm_compute in E; discriminate].
  exists groups. split; [reflexivity|].
  pose proof (proj1 (goals_are_grouped_by_category _) groups E) as H.
  split; [|split].
  - rewrite (H "Health"). reflexivity.
  - rewrite (H "Other"). reflexivity.
  - rewrite (H "Career"). reflexivity.
Defined.

(** X8.  The recycle bin of the page.  Restoring a goal that is not in the
    bin does nothing and sends nothing.  Restoring a goal that is in the
    bin sends one request to create a goal, with the name, category, target,
    progress and owner of the copy in the bin, and takes every copy of that
    goal out of the bin; deleting a goal for good takes its copies out of
    the bin and sends nothing to the server.  The other goals of the bin
    stay, in their order. *)
Theorem recycle_bin_of_goals (goalId : Z) (st : GoalsPage.State) :
  let restored := GoalsPage.restoreGoal goalId st in
  let removed := GoalsPage.permanentlyDeleteGoal goalId st in
  let others := List.filter (GoalsPage.notGoal goalId) (GoalsPage.deletedGoals st) in
  ((forall d, In d (GoalsPage.deletedGoals st) ->
              Client.goal_id (GoalsPage.dg_goal d) <> goalId) ->
   restored = (st, []))
  /\ (forall d, In d (GoalsPage.deletedGoals st) ->
                Client.goal_id (GoalsPage.dg_goal d) = goalId ->
      GoalsPage.deletedGoals restored.1 = others
      /\ exists d' values,
           In d' (GoalsPage.deletedGoals st)
           /\ Client.goal_id (GoalsPage.dg_goal d') = goalId
           /\ restored.2 = [GoalsPage.AddGoal values; GoalsPage.Toast "Goal restored"]
           /\ GoalsPage.gv_name values = Client.goal_name (GoalsPage.dg_goal d')
           /\ GoalsPage.gv_category values = Client.goal_category (GoalsPage.dg_goal d')
           /\ GoalsPage.gv_target values = Client.goal_target (GoalsPage.dg_goal d')
           /\ GoalsPage.gv_progress values = Client.goal_progress (GoalsPage.dg_goal d')
           /\ GoalsPage.gv_userId values = Client.goal_userId (GoalsPage.dg_goal d'))
  /\ GoalsPage.deletedGoals removed.1 = others
  /\ removed.2 = [GoalsPage.Toast "Goal deleted permanently"]
  /\ (forall d, In d others <->
                In d (GoalsPage.deletedGoals st)
                /\ Client.goal_id (GoalsPage.dg_goal d) <> goalId).
Proof.
  cbv zeta. split; [|split; [|split; [|split]]].
  - intros Hnone. unfold GoalsPage.restoreGoal.
    rewrite (proj1 (find_notGoal_None _ _ Hnone)). reflexivity.
  - intros d Hin Hid. unfold GoalsPage.restoreGoal.
    destruct (List.find _ (GoalsPage.deletedGoals st)) as [d'|] eqn:E.
    + apply find_some in E as [Hin' Hid']. apply Z.eqb_eq in Hid'.
      split; [reflexivity|]. exists d'. eexists.
      split; [exact Hin'|]. split; [exact Hid'|]. split; [reflexivity|].
      repeat split.
    + exfalso. apply (find_none _ _ E) in Hin. apply Z.eqb_neq in Hin. auto.
  - reflexivity.
  - reflexivity.
  - intros d. rewrite filter_In. unfold GoalsPage.notGoal.
    rewrite negb_true_iff, Z.eqb_neq. reflexivity.
Qed.

(** X9.  Round trip through the recycle bin: deleting a goal of the list
    (whose identifiers are distinct, and of which the bin has no copy) and
    restoring it leaves the bin as it was, and the request that restores it
    re-creates the goal with its name, description, target date, category,
    target, progress and owner; the unit and the colour scheme are kept
    unless they were empty or 0, which become "%" and 1. *)
Theorem deleted_goal_can_be_restored
    (now : Z) (goals : list Client.Goal) (goal : Client.Goal) (st : GoalsPage.State) :
  In goal goals ->
  NoDup (map Client.goal_id goals) ->
  (forall d, In d (GoalsPage.deletedGoals st) ->
             Client.goal_id (GoalsPage.dg_goal d) <> Client.goal_id goal) ->
  let deleted := GoalsPage.deleteGoal now goals (Client.goal_id goal) st in
  let restored := GoalsPage.restoreGoal (Client.goal_id goal) deleted.1 in
  deleted.2 = [GoalsPage.DeleteGoal (Client.goal_id goal)]
  /\ GoalsPage.deletedGoals deleted.1
     = GoalsPage.deletedGoals st
       ++ [{| GoalsPage.dg_goal := goal; GoalsPage.dg_deletedAt := now |}]
  /\ restored.1 = st
  /\ restored.2
     = [GoalsPage.AddGoal
          {| GoalsPage.gv_name := Client.goal_name goal;
             GoalsPage.gv_description := GoalsPage.orEmpty (Client.goal_description goal);
             GoalsPage.gv_targetDate := GoalsPage.orEmpty (Client.goal_targetDate goal);
             GoalsPage.gv_category := Client.goal_category goal;
             GoalsPage.gv_target := Client.goal_target goal;
             GoalsPage.gv_progress := Client.goal_progress goal;
             GoalsPage.gv_unit :=
               if String.eqb (Client.goal_unit goal) EmptyString
               then "%" else Client.goal_unit goal;
             GoalsPage.gv_colorScheme :=
               if Client.goal_colorScheme goal =? 0
               then 1 else Client.goal_colorScheme goal;
             GoalsPage.gv_userId := Client.goal_userId goal |};
        GoalsPage.Toast "Goal restored"].
Proof.
  intros Hin Hnd Hfresh. cbv zeta. unfold GoalsPage.deleteGoal.
  rewrite (find_id_In goals goal Hnd Hin). cbn [fst snd].
  split; [reflexivity|]. split; [reflexivity|].
  unfold GoalsPage.restoreGoal.
  cbn [GoalsPage.deletedGoals GoalsPage.setDeletedGoals].
  destruct (find_notGoal_None _ _ Hfresh) as [Hfind Hfilter].
  rewrite (find_app_None _ _ _ Hfind). simpl. rewrite Z.eqb_refl.
  rewrite List.filter_app, Hfilter. simpl. unfold GoalsPage.notGoal at 1.
  cbn [GoalsPage.dg_goal]. rewrite Z.eqb_refl. simpl. rewrite app_nil_r.
  split; [destruct st; reflexivity | reflexivity].
Qed.

(** A goal at 40 per cent, deleted at time 1000 and restored. *)
Lemma deleted_goal_can_be_restored_witness :
  (GoalsPage.restoreGoal 4
     (GoalsPage.deleteGoal 1000 [Samples.marathon] 4 Samples.freshPage).1).1
  = Samples.freshPage.
Proof.
  refine (proj1 (proj2 (proj2
    (deleted_goal_can_be_restored 1000 [Samples.marathon] Samples.marathon
       Samples.freshPage _ _ _)))).
  - simpl. auto.
  - apply (bool_decide_unpack _). vm_compute. exact I.
  - intros d [].
Defined.

(** X10.  The days an item of the recycle bin has left: an item deleted
    this instant has the whole retention period (7 days, 30 for the premium
    user); the number never grows as time passes; it is 0 or less exactly
    from the moment the retention period is over; an item deleted in the
    past never shows more than the retention period; the premium user
    always sees 23 days more. *)
Theorem days_remaining_counts_down (isPremium : bool) (deletedAt now : Z) :
  let retention := if isPremium then 30 else 7 in
  GoalsPage.daysRemaining isPremium deletedAt deletedAt = retention
  /\ (forall later, now <= later ->
        GoalsPage.daysRemaining isPremium deletedAt later
        <= GoalsPage.daysRemaining isPremium deletedAt now)
  /\ (GoalsPage.daysRemaining isPremium deletedAt now <= 0
      <-> deletedAt + retention * GoalsPage.millisecondsPerDay <= now)
  /\ (GoalsPage.daysRemaining isPremium deletedAt now <= retention
      <-> deletedAt <= now)
  /\ GoalsPage.daysRemaining true deletedAt now
     = GoalsPage.daysRemaining false deletedAt now + 23.
Proof.
  cbv zeta. unfold GoalsPage.daysRemaining, GoalsPage.millisecondsPerDay.
  change (24 * 60 * 60 * 1000) with 86400000.
  assert (Hpos : 0 < 86400000) by lia.
  split; [|split; [|split; [|split]]].
  - unfold GoalsPage.ceilDiv. destruct isPremium.
    + replace (- (deletedAt + 30 * 24 * 60 * 60 * 1000 - deletedAt))
        with (-30 * 86400000) by lia.
      rewrite Z.div_mul by lia. reflexivity.
    + replace (- (deletedAt + 7 * 24 * 60 * 60 * 1000 - deletedAt))
        with (-7 * 86400000) by lia.
      rewrite Z.div_mul by lia. reflexivity.
  - intros later Hlater. apply (ceilDiv_spec _ _ _ Hpos).
    set (q := GoalsPage.ceilDiv _ _).
    assert (Hq : q <= q) by lia. apply (ceilDiv_spec _ _ _ Hpos) in Hq. lia.
  - rewrite (ceilDiv_spec _ _ _ Hpos). destruct isPremium; lia.
  - rewrite (ceilDiv_spec _ _ _ Hpos). destruct isPremium; lia.
  - unfold GoalsPage.ceilDiv.
    replace (- (deletedAt + 30 * 24 * 60 * 60 * 1000 - now))
      with (- (deletedAt + 7 * 24 * 60 * 60 * 1000 - now) + (-23) * 86400000) by lia.
    rewrite Z.div_add by lia. lia.
Qed.

(* ===================================================================== *)
(** * Users and goals: what a request can change *)
(* ===================================================================== *)

Section AccountFacts.
Import Json Accounts.

(** The fields the loop has copied after going through [fields]. *)
Lemma copy_fields_lookup (body : Object) (fields : list string) :
  forall (acc : Object) (k : string),
    fold_left (fun updateData field =>
                 match body !! field with
                 | Some value => <[field := value]> updateData
                 | None => updateData
                 end) fields acc !! k
    = if bool_decide (k ∈ fields)
      then match body !! k with Some v => Some v | None => acc !! k end
      else acc !! k.
Proof.
  induction fields as [|f fields IH]; intros acc k; cbn [fold_left].
  - case_bool_decide as H; [|reflexivity]. apply elem_of_nil in H. destruct H.
  - rewrite IH.
    destruct (decide (k = f)) as [-> | Hne].
    + rewrite (bool_decide_eq_true_2 (f ∈ f :: fields)) by (apply elem_of_cons; auto).
      destruct (body !! f) as [v|] eqn:E.
      * rewrite lookup_insert_eq. case_bool_decide; reflexivity.
      * case_bool_decide; reflexivity.
    + assert (Hk : (match body !! f with
                    | Some value => <[f:=value]> acc
                    | None => acc
                    end) !! k = acc !! k).
      { destruct (body !! f); [rewrite lookup_insert_ne by congruence|];
          reflexivity. }
      rewrite Hk.
      case_bool_decide as H1; case_bool_decide as H2; try reflexivity.
      * exfalso. apply H2, elem_of_cons. auto.
      * exfalso. apply elem_of_cons in H2 as [H2 | H2]; auto.
Qed.

Lemma copyAllowed_lookup body k :
  copyAllowed body !! k = if bool_decide (k ∈ allowedFields) then body !! k else None.
Proof.
  unfold copyAllowed. rewrite copy_fields_lookup, lookup_empty.
  destruct (bool_decide _), (body !! k); reflexivity.
Qed.

Lemma buildUpdateData_lookup body currentEmail token k :
  buildUpdateData body currentEmail token !! k
  = if emailChanged (copyAllowed body) currentEmail
    then if String.eqb k "verificationToken" then Some (Str token)
         else if String.eqb k "isVerified" then Some (Bool false)
         else copyAllowed body !! k
    else copyAllowed body !! k.
Proof.
  unfold buildUpdateData. destruct (emailChanged _ _); [|reflexivity].
  destruct (String.eqb_spec k "verificationToken") as [-> | H1].
  - apply lookup_insert_eq.
  - rewrite lookup_insert_ne by congruence.
    destruct (String.eqb_spec k "isVerified") as [-> | H2].
    + apply lookup_insert_eq.
    + rewrite lookup_insert_ne by congruence. reflexivity.
Qed.

End AccountFacts.

(** X11.  The object [PATCH /api/users/:id] hands to the storage layer
    holds the twelve profile fields of the body that are present, as they
    are, and nothing else of the body: a request cannot set the password,
    the administrator flag, the identifier or the user name, and it cannot
    verify an address itself.  The fields "isVerified" (false) and
    "verificationToken" are added exactly when the body gives an address
    that counts as true and differs from the requester's address. *)
Theorem profile_update_is_limited_to_the_allowed_fields
    (body : Json.Object) (currentEmail : Json.Value) (token : string) :
  let updateData := Accounts.buildUpdateData body currentEmail token in
  let changed := Json.truthy (body !! "email")
                 && negb (bool_decide (body !! "email" = Some currentEmail)) in
  (forall field, In field Accounts.allowedFields -> updateData !! field = body !! field)
  /\ (forall field, ~ In field Accounts.allowedFields ->
                    field <> "isVerified" -> field <> "verificationToken" ->
                    updateData !! field = None)
  /\ updateData !! "password" = None
  /\ updateData !! "isAdmin" = None
  /\ updateData !! "id" = None
  /\ updateData !! "username" = None
  /\ updateData !! "isVerified" = (if changed then Some (Json.Bool false) else None)
  /\ updateData !! "verificationToken" = (if changed then Some (Json.Str token) else None).
Proof.
  cbv zeta.
  assert (Hmail : Accounts.emailChanged (Accounts.copyAllowed body) currentEmail
                  = Json.truthy (body !! "email")
                    && negb (bool_decide (body !! "email" = Some currentEmail))).
  { unfold Accounts.emailChanged. rewrite copyAllowed_lookup. reflexivity. }
  assert (Hother : forall field, ~ In field Accounts.allowedFields ->
                     field <> "isVerified" -> field <> "verificationToken" ->
                     Accounts.buildUpdateData body currentEmail token !! field = None).
  { intros field Hout H1 H2. rewrite buildUpdateData_lookup, copyAllowed_lookup.
    rewrite bool_decide_eq_false_2 by (rewrite list_elem_of_In; exact Hout).
    apply String.eqb_neq in H1, H2. rewrite H1, H2.
    destruct (Accounts.emailChanged _ _); reflexivity. }
  assert (Hnot : forall field, bool_decide (field ∈ Accounts.allowedFields) = false ->
                               ~ In field Accounts.allowedFields).
  { intros field H. apply bool_decide_eq_false in H.
    rewrite <- list_elem_of_In. exact H. }
  split; [|split; [exact Hother|]].
  - intros field Hin. rewrite buildUpdateData_lookup, copyAllowed_lookup.
    rewrite bool_decide_eq_true_2 by (rewrite list_elem_of_In; exact Hin).
    assert (H1 : String.eqb field "verificationToken" = false).
    { apply String.eqb_neq. intros ->. revert Hin. apply Hnot. reflexivity. }
    assert (H2 : String.eqb field "isVerified" = false).
    { apply String.eqb_neq. intros ->. revert Hin. apply Hnot. reflexivity. }
    rewrite H1, H2. destruct (Accounts.emailChanged _ _); reflexivity.
  - repeat split; try (apply Hother; [apply Hnot; reflexivity | discriminate..]).
    + rewrite buildUpdateData_lookup, copyAllowed_lookup, Hmail.
      destruct (_ && _); reflexivity.
    + rewrite buildUpdateData_lookup, copyAllowed_lookup, Hmail.
      destruct (_ && _); reflexivity.
Qed.

(** X12.  Whatever the storage layer does, the two handlers on one user
    never send the field "password" of the user; a requester who is
    neither that user nor an administrator is answered 403, an anonymous
    one 401, and the storage layer is not called for them. *)
Theorem user_answers_never_carry_the_password
    {S : Type} (getUser : Z -> S -> option Json.Object)
    (updateUser : Z -> Json.Object -> S -> Json.Object * S)
    (user : option Json.Requester) (userId : Z) (body : Json.Object)
    (token : string) (s : S) :
  let read := Accounts.getUserHandler getUser user userId s in
  let written := Accounts.patchUser updateUser user userId body token s in
  (forall code row, read.1 = Json.Row code row \/ written.1 = Json.Row code row ->
                    row !! "password" = None)
  /\ (user = None ->
      read = (Json.Status 401, s) /\ written = (Json.Status 401, s))
  /\ (forall u, user = Some u -> Json.req_id u <> userId -> Json.req_isAdmin u = false ->
      read = (Json.Status 403, s) /\ written = (Json.Status 403, s)).
Proof.
  cbv zeta. split; [|split].
  - intros code row [H | H].
    + unfold Accounts.getUserHandler in H. destruct user as [u|]; [|discriminate].
      destruct (_ && _); [discriminate|].
      destruct (getUser userId s); [|discriminate].
      injection H as _ <-. apply lookup_delete_eq.
    + unfold Accounts.patchUser in H. destruct user as [u|]; [|discriminate].
      destruct (_ && _); [discriminate|].
      destruct (updateUser _ _ _) as [updated s']. injection H as _ <-.
      apply lookup_delete_eq.
  - intros ->. split; reflexivity.
  - intros u -> Hid Hadmin. unfold Accounts.getUserHandler, Accounts.patchUser.
    apply Z.eqb_neq in Hid. rewrite Hid, Hadmin. split; reflexivity.
Qed.

(** X13.  [POST /api/forgot-password] does not tell whether an address is
    known: every request that gives an address is answered 200 with the
    same message, whether or not a user has that address; when no user has
    it the storage layer is left alone.  A request without address is
    answered 400 and changes nothing. *)
Theorem forgot_password_does_not_tell
    {S : Type} (getUserByEmail : Json.Value -> S -> option (Z * Json.Object))
    (updateUser : Z -> Json.Object -> S -> Json.Object * S)
    (body : Json.Object) (resetToken resetExpiry : string) (s : S) :
  let answer :=
    Accounts.forgotPassword getUserByEmail updateUser body resetToken resetExpiry s in
  (Json.truthy (body !! "email") = true ->
   answer.1 = Json.Message 200 Accounts.resetLinkSent)
  /\ (Json.truthy (body !! "email") = false ->
      answer = (Json.Failure 400 "Email is required", s))
  /\ (forall email, body !! "email" = Some email -> getUserByEmail email s = None ->
      answer.2 = s).
Proof.
  cbv zeta. unfold Accounts.forgotPassword.
  destruct (body !! "email") as [email|] eqn:E.
  - split; [|split].
    + intros Ht. rewrite Ht. simpl.
      destruct (getUserByEmail email s) as [[id row]|]; [|reflexivity].
      destruct (updateUser _ _ _). reflexivity.
    + intros Ht. rewrite Ht. reflexivity.
    + intros email' He Hnone. injection He as <-. rewrite Hnone.
      destruct (negb _); reflexivity.
  - split; [discriminate|]. split; [reflexivity | discriminate].
Qed.

Section GoalFacts.
Import Json GoalsApi GoalsPage.

Lemma encodeGoal_lookup values :
  encodeGoal values !! "name" = Some (Str (gv_name values))
  /\ encodeGoal values !! "description" = Some (Str (gv_description values))
  /\ encodeGoal values !! "targetDate" = Some (Str (gv_targetDate values))
  /\ encodeGoal values !! "category" = Some (Str (gv_category values))
  /\ encodeGoal values !! "target" = Some (Num (gv_target values))
  /\ encodeGoal values !! "progress" = Some (Num (gv_progress values))
  /\ encodeGoal values !! "unit" = Some (Str (gv_unit values))
  /\ encodeGoal values !! "colorScheme" = Some (Num (gv_colorScheme values))
  /\ encodeGoal values !! "userId" = Some (Num (gv_userId values)).
Proof. repeat split; reflexivity. Qed.

Lemma encodeGoal_size values : size (encodeGoal values) = 9%nat.
Proof. reflexivity. Qed.

End GoalFacts.

(** X14.  A goal restored from the recycle bin starts over: the page sends
    the progress the goal had when it was deleted, but [POST /api/goals]
    does not read the progress of the body and creates every goal with
    progress 0; the name, description, target date, category, target, unit,
    colour scheme and owner are created as sent.  A body whose [userId] is
    not the requester's is refused with 403. *)
Theorem restored_goal_starts_over
    (u : Json.Requester) (goalId : Z) (st : GoalsPage.State)
    (values : GoalsPage.GoalFormValues) :
  In (GoalsPage.AddGoal values) (GoalsPage.restoreGoal goalId st).2 ->
  (exists d, In d (GoalsPage.deletedGoals st)
             /\ Client.goal_id (GoalsPage.dg_goal d) = goalId
             /\ GoalsPage.gv_progress values
                = Client.goal_progress (GoalsPage.dg_goal d)
             /\ GoalsPage.gv_name values = Client.goal_name (GoalsPage.dg_goal d))
  /\ (Json.req_id u = GoalsPage.gv_userId values ->
      GoalsApi.postGoal (Some u) (GoalsApi.encodeGoal values)
      = inr {| GoalsApi.ig_userId := Some (Json.Num (GoalsPage.gv_userId values));
               GoalsApi.ig_name := Some (Json.Str (GoalsPage.gv_name values));
               GoalsApi.ig_description :=
                 Some (Json.Str (GoalsPage.gv_description values));
               GoalsApi.ig_category := Some (Json.Str (GoalsPage.gv_category values));
               GoalsApi.ig_targetDate :=
                 Some (Json.Str (GoalsPage.gv_targetDate values));
               GoalsApi.ig_target := Some (Json.Num (GoalsPage.gv_target values));
               GoalsApi.ig_progress := Json.Num 0;
               GoalsApi.ig_unit := Some (Json.Str (GoalsPage.gv_unit values));
               GoalsApi.ig_colorScheme :=
                 Some (Json.Num (GoalsPage.gv_colorScheme values)) |})
  /\ (Json.req_id u <> GoalsPage.gv_userId values ->
      GoalsApi.postGoal (Some u) (GoalsApi.encodeGoal values) = inl 403).
Proof.
  intros Hsent. split; [|split].
  - unfold GoalsPage.restoreGoal in Hsent.
    destruct (List.find _ (GoalsPage.deletedGoals st)) as [d|] eqn:E;
      [|destruct Hsent].
    apply find_some in E as [Hin Hid]. apply Z.eqb_eq in Hid.
    destruct Hsent as [H | [H | []]]; [|discriminate].
    injection H as <-. exists d. repeat split; assumption.
  - intros Hu. unfold GoalsApi.postGoal.
    destruct (encodeGoal_lookup values) as (-> & -> & -> & -> & -> & _ & -> & -> & ->).
    rewrite Hu, bool_decide_eq_true_2 by reflexivity. reflexivity.
  - intros Hu. unfold GoalsApi.postGoal.
    destruct (encodeGoal_lookup values) as (_ & _ & _ & _ & _ & _ & _ & _ & ->).
    rewrite bool_decide_eq_false_2 by congruence. reflexivity.
Qed.

(** The marathon at 40 per cent, in the bin, restored by its owner. *)
Lemma restored_goal_starts_over_witness :
  let st := (GoalsPage.deleteGoal 1000 [Samples.marathon] 4 Samples.freshPage).1 in
  exists values goal,
    (GoalsPage.restoreGoal 4 st).2
    = [GoalsPage.AddGoal values; GoalsPage.Toast "Goal restored"]
    /\ GoalsPage.gv_progress values = 40
    /\ GoalsApi.postGoal (Some People.runner) (GoalsApi.encodeGoal values) = inr goal
    /\ GoalsApi.ig_progress goal = Json.Num 0
    /\ GoalsApi.ig_name goal = Some (Json.Str "Run a marathon").
Proof.
  cbv zeta. eexists. eexists. split; [reflexivity|]. split; [reflexivity|].
  split.
  - refine (proj1 (proj2 (restored_goal_starts_over People.runner 4
             (GoalsPage.deleteGoal 1000 [Samples.marathon] 4 Samples.freshPage).1
             _ _)) _).
    + left. reflexivity.
    + reflexivity.
  - split; reflexivity.
Defined.

(** X15.  The two ways the page updates a goal reach different code of
    [PATCH /api/goals/:goalId].  The "Update" button sends the progress
    alone, raised by 10 and capped at 100: the handler updates the progress
    of the goal in place.  The form sends the nine values of the goal: the
    handler deletes the goal and creates a new one from the body, with the
    requester as owner whatever [userId] the body names, and with the
    progress of the body.  Either way a goal of another user is refused
    with 403 and a missing goal with 404. *)
Theorem goal_updates_by_button_and_by_form
    (u : Json.Requester) (goal : Client.Goal) (values : GoalsPage.GoalFormValues) :
  let pressed := match GoalsPage.updateProgress goal with
                 | GoalsPage.UpdateGoalProgress _ progress =>
                     GoalsApi.encodeProgress progress
                 | _ => ∅
                 end in
  let raised := Z.min 100 (Client.goal_progress goal + 10) in
  GoalsApi.patchGoal (Some u) (Some (Json.req_id u)) pressed
  = inr (GoalsApi.ProgressOnly (Json.Num raised))
  /\ raised <= 100
  /\ (Client.goal_progress goal <= 100 -> Client.goal_progress goal <= raised)
  /\ (exists updatedData,
        GoalsApi.patchGoal (Some u) (Some (Json.req_id u)) (GoalsApi.encodeGoal values)
        = inr (GoalsApi.Recreate updatedData)
        /\ updatedData !! "userId" = Some (Json.Num (Json.req_id u))
        /\ updatedData !! "progress" = Some (Json.Num (GoalsPage.gv_progress values))
        /\ forall key, key <> "userId" ->
                       updatedData !! key = GoalsApi.encodeGoal values !! key)
  /\ (forall owner body, owner <> Json.req_id u ->
        GoalsApi.patchGoal (Some u) (Some owner) body = inl 403)
  /\ (forall body, GoalsApi.patchGoal (Some u) None body = inl 404).
Proof.
  cbv zeta. unfold GoalsPage.updateProgress.
  split; [|split; [|split; [|split; [|split]]]].
  - unfold GoalsApi.patchGoal. rewrite Z.eqb_refl. reflexivity.
  - lia.
  - lia.
  - exists (<["userId" := Json.Num (Json.req_id u)]> (GoalsApi.encodeGoal values)).
    split; [|split; [|split]].
    + unfold GoalsApi.patchGoal. rewrite Z.eqb_refl.
      destruct (encodeGoal_lookup values) as (_ & _ & _ & _ & _ & -> & _).
      rewrite encodeGoal_size. reflexivity.
    + apply lookup_insert_eq.
    + rewrite lookup_insert_ne by discriminate.
      apply (encodeGoal_lookup values).
    + intros key Hkey. rewrite lookup_insert_ne by congruence. reflexivity.
  - intros owner body Hne. unfold GoalsApi.patchGoal.
    apply Z.eqb_neq in Hne. rewrite Hne. reflexivity.
  - reflexivity.
Qed.

Section ChatFacts.
Import JsString Json Chat.

Lemma dropChars_app p rest : dropChars (String.length p) (p +:+ rest) = rest.
Proof. induction p as [|c p IH]; [reflexivity|]. rewrite append_cons. exact IH. Qed.

Lemma startsWith_app p rest : startsWith (p +:+ rest) p = true.
Proof. apply startsWith_spec. exists rest. reflexivity. Qed.

(** Taking out a pattern the text starts with leaves the rest of the text. *)
Lemma removeFirst_prefix p rest : removeFirst (p +:+ rest) p = rest.
Proof.
  destruct (p +:+ rest) as [|c r] eqn:E.
  - destruct p; [|rewrite append_cons in E; discriminate].
    rewrite append_nil_l in E. subst rest. reflexivity.
  - cbn [removeFirst]. rewrite <- E, startsWith_app. apply dropChars_app.
Qed.

Lemma trim_no_outer_space s c r :
  trim s = String c r -> isWhitespace c = false.
Proof.
  unfold trim, trimEnd, trimStart.
  destruct (dropStartWhile isWhitespace s) as [|d t] eqn:E; [discriminate|].
  apply dropStartWhile_head in E. simpl.
  destruct (dropEndWhile isWhitespace t).
  - rewrite E. intros H. injection H as <- _. exact E.
  - intros H. injection H as <- _. exact E.
Qed.

End ChatFacts.

(** X16.  [POST /api/chat-response] for the user the request names.  A
    content that starts with "__MULTI_PART_PROMPT__:" is sent to the
    language model without that prefix and trimmed, in front of the
    conversation a system message that quotes the same prompt; a content
    that starts with "ASK_ME_ABOUT:" is sent without the prefix and trimmed,
    with a history of the system message alone, so that the conversation so
    far is dropped; any other content is sent as it is with the
    conversation.  The model is called for the user named in the body and
    under a name that is not empty; the prompt of the first two forms does
    not begin with white space. *)
Theorem chat_prompts_lose_their_prefix
    (u : Json.Requester) (b : Chat.ChatBody) (rest : string) :
  Json.req_id u = Chat.cb_userId b ->
  let conversation :=
    map (fun entry => {| Chat.role := entry.1; Chat.content := Chat.Plain entry.2 |})
        (Chat.cb_history b) in
  let sent := fun prompt history flag =>
    inr {| Chat.prompt := prompt; Chat.history := history;
           Chat.username := Chat.displayName u; Chat.userId := Chat.cb_userId b;
           Chat.isMultiPart := flag |} in
  (Chat.cb_content b = Chat.multiPartPrefix +:+ rest ->
   Chat.chatResponse (Some u) b
   = sent (JsString.trim rest)
          ({| Chat.role := "system";
              Chat.content := Chat.MultiPartGuide (JsString.trim rest) |}
           :: conversation)
          (Some true))
  /\ (Chat.cb_content b = Chat.askPrefix +:+ rest ->
      Chat.chatResponse (Some u) b
      = sent (JsString.trim rest)
             [{| Chat.role := "system";
                 Chat.content := Chat.AskGuide (JsString.trim rest) |}]
             (Some false))
  /\ (JsString.startsWith (Chat.cb_content b) Chat.multiPartPrefix = false ->
      JsString.startsWith (Chat.cb_content b) Chat.askPrefix = false ->
      Chat.chatResponse (Some u) b = sent (Chat.cb_content b) conversation None)
  /\ Chat.displayName u <> EmptyString
  /\ (forall c r, JsString.trim rest = String c r -> JsString.isWhitespace c = false).
Proof.
  intros Hu. cbv zeta. unfold Chat.chatResponse. rewrite Hu, Z.eqb_refl.
  cbn [negb]. split; [|split; [|split; [|split]]].
  - intros ->. rewrite startsWith_app, removeFirst_prefix. reflexivity.
  - intros ->.
    replace (JsString.startsWith (Chat.askPrefix +:+ rest) Chat.multiPartPrefix)
      with false by reflexivity.
    rewrite startsWith_app, removeFirst_prefix. reflexivity.
  - intros -> ->. reflexivity.
  - unfold Chat.displayName.
    destruct (String.eqb_spec (Json.req_username u) EmptyString);
      [discriminate | assumption].
  - intros c r. apply trim_no_outer_space.
Qed.

(** A multi-part prompt of user 7. *)
Lemma chat_prompts_lose_their_prefix_witness :
  exists call,
    Chat.chatResponse (Some People.runner)
      {| Chat.cb_content := "__MULTI_PART_PROMPT__: Three good things ";
         Chat.cb_userId := 7; Chat.cb_history := [("user", "Hello")] |}
    = inr call
    /\ Chat.prompt call = "Three good things"
    /\ length (Chat.history call) = 2%nat.
Proof.
  eexists. split.
  - apply (proj1 (chat_prompts_lose_their_prefix People.runner
                    {| Chat.cb_content := "__MULTI_PART_PROMPT__: Three good things ";
                       Chat.cb_userId := 7; Chat.cb_history := [("user", "Hello")] |}
                    " Three good things " eq_refl)).
    reflexivity.
  - split; reflexivity.
Defined.

(* ===================================================================== *)
(** * Requests on journal entries: who may do what *)
(* ===================================================================== *)

(** X17.  The four requests on one journal entry (read, delete, restore,
    delete for ever) of an authenticated user: the answer is 404 exactly
    when there is no entry of that identifier, 403 exactly when the entry
    belongs to another user, and 200 exactly when it is the user's own.
    Unless the answer is 200 nothing changes; no request calls an outside
    service, touches another entry, or, when it only reads, changes
    anything at all. *)
Theorem entry_requests_are_guarded
    (request : Entries.EntryRequest) (u : Server.User) (id : Z) (w : Effects.World) :
  let answer := Effects.handle (Entries.entryRequest request (Some u) id) w in
  let entry := Model.journalEntries (Effects.store w) !! id in
  (Effects.status answer.1 = 404 <-> entry = None)
  /\ (Effects.status answer.1 = 403
      <-> exists e, entry = Some e /\ Model.je_userId e <> Server.user_id u)
  /\ (Effects.status answer.1 = 200
      <-> exists e, entry = Some e /\ Model.je_userId e = Server.user_id u)
  /\ (Effects.status answer.1 <> 200 -> answer.2 = w)
  /\ Effects.trace answer.2 = Effects.trace w
  /\ (forall other, other <> id ->
        Model.journalEntries (Effects.store answer.2) !! other
        = Model.journalEntries (Effects.store w) !! other)
  /\ (request = Entries.Read -> answer.2 = w).
Proof.
  cbv zeta.
  destruct w as [s t].
  destruct (Model.journalEntries s !! id) as [e|] eqn:E.
  - destruct (Z.eqb_spec (Model.je_userId e) (Server.user_id u)) as [Hown | Hother].
    + assert (Hrun : forall action forbidden,
                Effects.handle (Server.onOwnEntry (Some u) id forbidden action)
                               {| Effects.store := s; Effects.trace := t |}
                = Effects.handle action {| Effects.store := s; Effects.trace := t |}).
      { intros action forbidden. unfold Effects.handle, Server.onOwnEntry,
          Server.requireAuth, Effects.bind, Effects.ret, Effects.getStore.
        cbn [Effects.store]. unfold Store.getJournalEntryById. rewrite E.
        rewrite Hown, Z.eqb_refl. reflexivity. }
      destruct request; cbn [Entries.entryRequest].
      * unfold Effects.handle, Entries.getEntry, Server.requireAuth, Effects.bind,
          Effects.ret, Effects.getStore, Store.getJournalEntryById.
        cbn [Effects.store]. rewrite E, Hown, Z.eqb_refl. cbn.
        repeat split; try discriminate; try reflexivity; eauto; try congruence.
        intros [e' [He' Hne]]. congruence.
      * unfold Server.deleteEntry. rewrite Hrun. cbn.
        repeat split; try discriminate; try reflexivity; eauto; try congruence.
        -- intros [e' [He' Hne]]. congruence.
        -- intros other Hne. rewrite lookup_alter_ne by congruence. reflexivity.
      * unfold Server.restoreEntry. rewrite Hrun. cbn.
        repeat split; try discriminate; try reflexivity; eauto; try congruence.
        -- intros [e' [He' Hne]]. congruence.
        -- intros other Hne. rewrite lookup_alter_ne by congruence. reflexivity.
      * unfold Server.permanentlyDeleteEntry. rewrite Hrun. cbn.
        repeat split; try discriminate; try reflexivity; eauto; try congruence.
        -- intros [e' [He' Hne]]. congruence.
        -- intros other Hne. rewrite lookup_delete_ne by congruence. reflexivity.
    + assert (Hno : Z.eqb (Model.je_userId e) (Server.user_id u) = false)
        by (apply Z.eqb_neq; exact Hother).
      destruct request; cbn [Entries.entryRequest];
        unfold Effects.handle, Entries.getEntry, Server.deleteEntry,
          Server.restoreEntry, Server.permanentlyDeleteEntry, Server.onOwnEntry,
          Server.requireAuth, Effects.bind, Effects.ret, Effects.getStore,
          Store.getJournalEntryById;
        cbn [Effects.store]; rewrite E, Hno; cbn;
        repeat split; try discriminate; try reflexivity; eauto; try congruence;
        intros [e' [He' Heq]]; congruence.
  - destruct request; cbn [Entries.entryRequest];
      unfold Effects.handle, Entries.getEntry, Server.deleteEntry,
        Server.restoreEntry, Server.permanentlyDeleteEntry, Server.onOwnEntry,
        Server.requireAuth, Effects.bind, Effects.ret, Effects.getStore,
        Store.getJournalEntryById;
      cbn [Effects.store]; rewrite E; cbn;
      repeat split; try discriminate; try reflexivity; try congruence;
      intros [e' [He' _]]; discriminate.
Qed.

(** X18.  A request that comes without a logged-in user changes nothing:
    whichever handler it goes to, the store and the trace of calls to
    outside services are as before. *)
Theorem anonymous_requests_change_nothing (o : Effects.Oracle) (w : Effects.World) :
  (forall op, Entries.requester op = Some None -> System.step o op w = w)
  /\ (forall id, Effects.handle (Entries.getEntry None id) w
                 = (Effects.sendStatus 401, w))
  /\ Entries.generateJournalTitles o None w = (inl (Entries.Refused 401), w).
Proof.
  split; [|split; [reflexivity | reflexivity]].
  intros op Hop.
  destruct op as [user b | user b | user id | user id | user id | kind user id
                 | kind user id | t user userId | user | id | ];
    try discriminate; injection Hop as ->.
  - reflexivity.
  - reflexivity.
  - reflexivity.
  - reflexivity.
  - reflexivity.
  - destruct kind; reflexivity.
  - destruct kind; reflexivity.
  - destruct t as [l|]; reflexivity.
  - reflexivity.
Qed.

(* ===================================================================== *)
(** * The PayPal settings: what is saved is what is read *)
(* ===================================================================== *)

Section SettingsFacts.
Import Json PaypalSettings.

Lemma setting_upsert_eq key fallback value c :
  value <> EmptyString -> setting key fallback (upsert key value c) = value.
Proof.
  intros H. unfold setting, upsert. cbn [systemSettings].
  rewrite lookup_insert_eq. apply String.eqb_neq in H. rewrite H. reflexivity.
Qed.

Lemma setting_upsert_ne key key' fallback value c :
  key <> key' -> setting key fallback (upsert key' value c) = setting key fallback c.
Proof.
  intros H. unfold setting, upsert. cbn [systemSettings].
  rewrite lookup_insert_ne by congruence. reflexivity.
Qed.

Lemma setting_setEnv key fallback k v c :
  setting key fallback (setEnv k v c) = setting key fallback c.
Proof. reflexivity. Qed.

Lemma nonEmptyString_Some x s :
  nonEmptyString x = Some s -> x = Some (Str s) /\ s <> EmptyString.
Proof.
  unfold nonEmptyString. destruct x as [[| | |t]|]; try discriminate.
  destruct (String.eqb_spec t EmptyString); [discriminate|].
  intros H. injection H as <-. split; [reflexivity | assumption].
Qed.

End SettingsFacts.

(** X19.  Saving the PayPal settings and reading them back.  Unless the
    answer is "saved" the settings are as before: for a requester who is no
    administrator, and for a body that fails the validation (client
    identifier or secret missing or empty, a mode other than "sandbox" and
    "live", a callback URL that is no URL).  After "saved" the administrator
    reads the client identifier, the secret and the mode of the body; the
    callback URL read is the one of the body when the body has one, and the
    one stored before otherwise; the two environment variables hold the
    identifier and the secret. *)
Theorem paypal_settings_round_trip
    (isUrl : string -> bool) (user : option Json.Requester) (body : Json.Object)
    (c : PaypalSettings.Config) :
  let answer := PaypalSettings.postSettings isUrl user body c in
  (answer.1 <> PaypalSettings.Saved -> answer.2 = c)
  /\ (PaypalSettings.requireAdmin user = false ->
      answer.1 = PaypalSettings.Unauthorized
      /\ PaypalSettings.getSettings user c = PaypalSettings.Unauthorized)
  /\ (answer.1 = PaypalSettings.Saved ->
      exists id secret m,
        body !! "clientId" = Some (Json.Str id) /\ id <> EmptyString
        /\ body !! "clientSecret" = Some (Json.Str secret) /\ secret <> EmptyString
        /\ body !! "mode" = Some (Json.Str m) /\ (m = "sandbox" \/ m = "live")
        /\ PaypalSettings.getSettings user answer.2
           = PaypalSettings.Current
               {| PaypalSettings.clientId := id;
                  PaypalSettings.clientSecret := secret;
                  PaypalSettings.mode := m;
                  PaypalSettings.callbackUrl :=
                    match body !! "callbackUrl" with
                    | Some (Json.Str url) =>
                        if String.eqb url EmptyString
                        then PaypalSettings.setting "paypal_callback_url" EmptyString c
                        else url
                    | _ => PaypalSettings.setting "paypal_callback_url" EmptyString c
                    end |}
        /\ PaypalSettings.env answer.2 !! "PAYPAL_CLIENT_ID" = Some id
        /\ PaypalSettings.env answer.2 !! "PAYPAL_CLIENT_SECRET" = Some secret).
Proof.
  cbv zeta. unfold PaypalSettings.postSettings, PaypalSettings.getSettings.
  destruct (PaypalSettings.requireAdmin user) eqn:Eadmin.
  2:{ split; [reflexivity|]. split; [auto | discriminate]. }
  destruct (PaypalSettings.parseSettings isUrl body) as [[[[id secret] m] url]|] eqn:Ep.
  2:{ split; [reflexivity|]. split; [discriminate | discriminate]. }
  cbn [fst snd]. split; [congruence|]. split; [discriminate|]. intros _.
  unfold PaypalSettings.parseSettings in Ep.
  destruct (PaypalSettings.nonEmptyString (body !! "clientId")) as [id'|] eqn:Eid;
    [|discriminate].
  destruct (PaypalSettings.nonEmptyString (body !! "clientSecret")) as [secret'|]
    eqn:Esecret; [|discriminate].
  destruct (body !! "mode") as [[| | |m']|] eqn:Em; try discriminate.
  destruct (String.eqb m' "sandbox" || String.eqb m' "live") eqn:Emode;
    [|discriminate].
  apply nonEmptyString_Some in Eid as [Eid Hid].
  apply nonEmptyString_Some in Esecret as [Esecret Hsecret].
  assert (Hm : m' = "sandbox" \/ m' = "live").
  { apply orb_true_iff in Emode as [H | H]; apply String.eqb_eq in H; auto. }
  assert (Hmne : m' <> EmptyString) by (destruct Hm; subst; discriminate).
  exists id', secret', m'.
  assert (Hread : forall c4 url',
            PaypalSettings.systemSettings c4 !! "paypal_client_id" = Some id' ->
            PaypalSettings.systemSettings c4 !! "paypal_client_secret" = Some secret' ->
            PaypalSettings.systemSettings c4 !! "paypal_mode" = Some m' ->
            PaypalSettings.setting "paypal_callback_url" EmptyString c4 = url' ->
            PaypalSettings.Current
              {| PaypalSettings.clientId :=
                   PaypalSettings.setting "paypal_client_id" EmptyString c4;
                 PaypalSettings.clientSecret :=
                   PaypalSettings.setting "paypal_client_secret" EmptyString c4;
                 PaypalSettings.mode := PaypalSettings.setting "paypal_mode" "sandbox" c4;
                 PaypalSettings.callbackUrl :=
                   PaypalSettings.setting "paypal_callback_url" EmptyString c4 |}
            = PaypalSettings.Current
                {| PaypalSettings.clientId := id';
                   PaypalSettings.clientSecret := secret';
                   PaypalSettings.mode := m';
                   PaypalSettings.callbackUrl := url' |}).
  { intros c4 url' H1 H2 H3 H4. unfold PaypalSettings.setting in *.
    rewrite H1, H2, H3.
    apply String.eqb_neq in Hid, Hsecret, Hmne. rewrite Hid, Hsecret, Hmne.
    rewrite H4. reflexivity. }
  assert (Hlook : forall (A : Type) (k k' : string) (v : A) (m0 : gmap string A),
            k <> k' -> <[k' := v]> m0 !! k = m0 !! k).
  { intros A k k' v m0 H. apply lookup_insert_ne. congruence. }
  repeat (split; [assumption || reflexivity|]).
  destruct (body !! "callbackUrl") as [[| | |u]|] eqn:Eurl; try discriminate.
  - destruct (isUrl u); [|discriminate]. injection Ep as <- <- <- <-.
    destruct (String.eqb_spec u EmptyString) as [Hu | Hu].
    + split; [|split].
      * apply Hread; unfold PaypalSettings.setEnv, PaypalSettings.upsert;
          cbn [PaypalSettings.systemSettings];
          rewrite ?(Hlook _ "paypal_client_id" "paypal_mode") by discriminate;
          rewrite ?(Hlook _ "paypal_client_id" "paypal_client_secret") by discriminate;
          rewrite ?(Hlook _ "paypal_client_secret" "paypal_mode") by discriminate;
          rewrite ?lookup_insert_eq; try reflexivity.
        unfold PaypalSettings.setting. cbn [PaypalSettings.systemSettings].
        rewrite !Hlook by discriminate. reflexivity.
      * unfold PaypalSettings.setEnv. cbn [PaypalSettings.env].
        rewrite Hlook by discriminate. apply lookup_insert_eq.
      * unfold PaypalSettings.setEnv. cbn [PaypalSettings.env].
        apply lookup_insert_eq.
    + split; [|split].
      * apply Hread; unfold PaypalSettings.setEnv, PaypalSettings.upsert;
          cbn [PaypalSettings.systemSettings];
          rewrite ?(Hlook _ "paypal_client_id" "paypal_callback_url") by discriminate;
          rewrite ?(Hlook _ "paypal_client_secret" "paypal_callback_url")
            by discriminate;
          rewrite ?(Hlook _ "paypal_mode" "paypal_callback_url") by discriminate;
          rewrite ?(Hlook _ "paypal_client_id" "paypal_mode") by discriminate;
          rewrite ?(Hlook _ "paypal_client_id" "paypal_client_secret") by discriminate;
          rewrite ?(Hlook _ "paypal_client_secret" "paypal_mode") by discriminate;
          rewrite ?lookup_insert_eq; try reflexivity.
        unfold PaypalSettings.setting. cbn [PaypalSettings.systemSettings].
        rewrite lookup_insert_eq. apply String.eqb_neq in Hu. rewrite Hu.
        reflexivity.
      * unfold PaypalSettings.setEnv. cbn [PaypalSettings.env].
        rewrite Hlook by discriminate. apply lookup_insert_eq.
      * unfold PaypalSettings.setEnv. cbn [PaypalSettings.env].
        apply lookup_insert_eq.
  - injection Ep as <- <- <- <-. split; [|split].
    + apply Hread; unfold PaypalSettings.setEnv, PaypalSettings.upsert;
        cbn [PaypalSettings.systemSettings];
        rewrite ?(Hlook _ "paypal_client_id" "paypal_mode") by discriminate;
        rewrite ?(Hlook _ "paypal_client_id" "paypal_client_secret") by discriminate;
        rewrite ?(Hlook _ "paypal_client_secret" "paypal_mode") by discriminate;
        rewrite ?lookup_insert_eq; try reflexivity.
      unfold PaypalSettings.setting. cbn [PaypalSettings.systemSettings].
      rewrite !Hlook by discriminate. reflexivity.
    + unfold PaypalSettings.setEnv. cbn [PaypalSettings.env].
      rewrite Hlook by discriminate. apply lookup_insert_eq.
    + unfold PaypalSettings.setEnv. cbn [PaypalSettings.env].
      apply lookup_insert_eq.
Qed.

(** The administrator saves live settings without callback URL over stored
    settings that have one. *)
Lemma paypal_settings_round_trip_witness :
  PaypalSettings.getSettings (Some People.root)
    (PaypalSettings.postSettings (fun _ => true) (Some People.root)
       Samples2.liveSettings Samples2.storedCallback).2
  = PaypalSettings.Current
      {| PaypalSettings.clientId := "abc"; PaypalSettings.clientSecret := "s3cret";
         PaypalSettings.mode := "live";
         PaypalSettings.callbackUrl := "https://example.org/back" |}.
Proof.
  assert (Hsaved : (PaypalSettings.postSettings (fun _ => true) (Some People.root)
                      Samples2.liveSettings Samples2.storedCallback).1
                   = PaypalSettings.Saved) by (vm_compute; reflexivity).
  destruct (proj2 (proj2 (paypal_settings_round_trip (fun _ => true)
              (Some People.root) Samples2.liveSettings Samples2.storedCallback)) Hsaved)
    as (id & secret & m & Hid & _ & Hsecret & _ & Hm & _ & Hread & _).
  rewrite Hread. vm_compute in Hid, Hsecret, Hm.
  injection Hid as <-. injection Hsecret as <-. injection Hm as <-.
  reflexivity.
Defined.

(* ===================================================================== *)
(** * Which handler answers a request *)
(* ===================================================================== *)

Section RoutingFacts.
Import JsString Routing.




End RoutingFacts.


(* ===================================================================== *)
(** * Titles for the entries that have none *)
(* ===================================================================== *)

Section TitleFacts.
Import JsString Model Effects Store Server System Entries.

(** The loop over the entries. *)
Lemma titleLoop o xs : forall stats w,
  exists stats' w',
    foldEach xs stats (titleStep o) w = (inr stats', w')
    /\ total stats' = total stats
    /\ (generated stats' + skipped stats' + failed stats'
        = generated stats + skipped stats + failed stats + length xs)%nat
    /\ (skipped stats' = skipped stats + length (List.filter titled xs))%nat
    /\ (forall id, ~ In id (map fst (List.filter (fun r => negb (titled r)) xs)) ->
          journalEntries (store w') !! id = journalEntries (store w) !! id)
    /\ (forall id, setTitle EmptyString <$> journalEntries (store w') !! id
                   = setTitle EmptyString <$> journalEntries (store w) !! id)
    /\ (exists calls,
          trace w' = trace w ++ calls
          /\ length calls = length (List.filter (fun r => negb (titled r)) xs))
    /\ goals (store w') = goals (store w)
    /\ aiGoals (store w') = aiGoals (store w).
Proof.
  induction xs as [|x xs IH]; intros stats w.
  - exists stats, w. cbn [foldEach List.filter length map]. unfold ret.
    repeat split; try lia.
    exists []. rewrite app_nil_r. split; reflexivity.
  - cbn [foldEach]. unfold bind at 1. unfold titleStep at 1.
    cbn [List.filter].
    change (titled x) with (negb (String.eqb (je_title x.2) EmptyString)).
    destruct (String.eqb (je_title x.2) EmptyString) eqn:Et; cbn [negb].
    + (* no title yet *)
      unfold bind, emit, modify, ret. cbn [fst snd store trace].
      destruct (generateJournalTitle o _) as [title|].
      * match goal with
        | |- context [foldEach xs ?st (titleStep o) ?w0] =>
            destruct (IH st w0)
              as (stats' & w' & -> & Ht & Hsum & Hskip & Hsame & Hrow & Hcalls & Hg & Ha)
        end.
        exists stats', w'. cbn [total generated skipped failed store trace
                                 journalEntries withJournal alterJournal] in *.
        split; [reflexivity|]. split; [exact Ht|].
        split; [cbn [length]; lia|]. split; [exact Hskip|].
        split; [|split; [|split; [|split]]].
        -- intros id Hid. cbn [map In] in Hid. rewrite Hsame by tauto.
           unfold alterJournal. cbn [journalEntries withJournal].
           apply lookup_alter_ne. tauto.
        -- intros id. rewrite Hrow. unfold alterJournal.
           cbn [journalEntries withJournal]. rewrite lookup_alter.
           destruct (decide (x.1 = id)) as [-> | Hne]; [|reflexivity].
           destruct (journalEntries (store w) !! id); reflexivity.
        -- destruct Hcalls as [calls [Hc Hl]]. eexists. split.
           ++ rewrite Hc, <- app_assoc. reflexivity.
           ++ cbn [length app]. rewrite Hl. reflexivity.
        -- rewrite Hg. reflexivity.
        -- rewrite Ha. reflexivity.
      * match goal with
        | |- context [foldEach xs ?st (titleStep o) ?w0] =>
            destruct (IH st w0)
              as (stats' & w' & -> & Ht & Hsum & Hskip & Hsame & Hrow & Hcalls & Hg & Ha)
        end.
        exists stats', w'. cbn [total generated skipped failed store trace] in *.
        split; [reflexivity|]. split; [exact Ht|].
        split; [cbn [length]; lia|]. split; [exact Hskip|].
        split; [|split; [|split; [|split]]].
        -- intros id Hid. cbn [map In] in Hid. apply Hsame. tauto.
        -- exact Hrow.
        -- destruct Hcalls as [calls [Hc Hl]]. eexists. split.
           ++ rewrite Hc, <- app_assoc. reflexivity.
           ++ cbn [length app]. rewrite Hl. reflexivity.
        -- exact Hg.
        -- exact Ha.
    + (* the entry has a title *)
      unfold ret.
      match goal with
      | |- context [foldEach xs ?st (titleStep o) ?w0] =>
          destruct (IH st w0)
            as (stats' & w' & -> & Ht & Hsum & Hskip & Hsame & Hrow & Hcalls & Hg & Ha)
      end.
      exists stats', w'. cbn [total generated skipped failed] in *.
      split; [reflexivity|]. split; [exact Ht|].
      split; [cbn [length]; lia|]. split; [cbn [length]; lia|].
      repeat split; assumption.
Qed.

Lemma journalRows_In s id e :
  In (id, e) (journalRows s) <-> journalEntries s !! id = Some e /\ je_isJournal e = true.
Proof. unfold journalRows. rewrite filter_In, rows_In. reflexivity. Qed.

End TitleFacts.

(** X21.  [POST /api/admin/generate-journal-titles], asked by an
    administrator, answers with counters that add up: every journal entry
    is counted once, as generated, skipped or failed, and the entries
    skipped are those that had a title.  The title generator is called once
    for each entry without title and for no other.  An entry that had a
    title, and an entry that is no journal entry, is left as it was; of the
    other entries only the title changes; no entry appears or disappears.
    For anyone else the answer is 403 and nothing happens. *)
Theorem journal_titles_are_generated_once
    (o : Effects.Oracle) (u : Server.User) (w : Effects.World) :
  let answer := Entries.generateJournalTitles o (Some u) w in
  let entries := Entries.journalRows (Effects.store w) in
  let untitled := List.filter (fun r => String.eqb (Model.je_title r.2) EmptyString)
                              entries in
  (Server.user_isAdmin u = false -> answer = (inl (Entries.Refused 403), w))
  /\ (Server.user_isAdmin u = true ->
      exists stats,
        answer.1 = inr (Entries.TitlesGenerated stats)
        /\ Entries.total stats = length entries
        /\ (Entries.generated stats + Entries.skipped stats + Entries.failed stats
            = Entries.total stats)%nat
        /\ (Entries.skipped stats + length untitled = Entries.total stats)%nat
        /\ (exists calls, Effects.trace answer.2 = Effects.trace w ++ calls
                          /\ length calls = length untitled)
        /\ (forall id e,
              Model.journalEntries (Effects.store w) !! id = Some e ->
              Model.je_isJournal e = false \/ Model.je_title e <> EmptyString ->
              Model.journalEntries (Effects.store answer.2) !! id = Some e)
        /\ (forall id,
              Entries.setTitle EmptyString
                <$> Model.journalEntries (Effects.store answer.2) !! id
              = Entries.setTitle EmptyString
                  <$> Model.journalEntries (Effects.store w) !! id)).
Proof.
  cbv zeta. unfold Entries.generateJournalTitles. split.
  - intros ->. reflexivity.
  - intros ->. cbn [negb]. unfold Effects.bind at 1, Effects.getStore.
    unfold Effects.bind.
    destruct (titleLoop o (Entries.journalRows (Effects.store w))
                {| Entries.total := length (Entries.journalRows (Effects.store w));
                   Entries.generated := 0; Entries.skipped := 0;
                   Entries.failed := 0 |} w)
      as (stats & w' & -> & Ht & Hsum & Hskip & Hsame & Hrow & Hcalls & _ & _).
    cbn [Entries.total Entries.generated Entries.skipped Entries.failed] in *.
    exists stats. unfold Effects.ret. cbn [fst snd].
    assert (Hsplit : forall l : list (Z * Model.JournalEntry),
              (length (List.filter Entries.titled l)
               + length (List.filter (fun r => String.eqb (Model.je_title r.2)
                                                           EmptyString) l)
               = length l)%nat).
    { induction l as [|x l IHl]; [reflexivity|]. cbn [List.filter].
      unfold Entries.titled at 1. destruct (String.eqb _ _); cbn [negb length]; lia. }
    assert (Hsame' : forall l : list (Z * Model.JournalEntry),
              List.filter (fun r => negb (Entries.titled r)) l
              = List.filter (fun r => String.eqb (Model.je_title r.2) EmptyString) l).
    { intros l. apply filter_ext. intros r. unfold Entries.titled.
      apply negb_involutive. }
    split; [reflexivity|]. split; [exact Ht|]. split; [lia|].
    split; [specialize (Hsplit (Entries.journalRows (Effects.store w))); lia|].
    split; [rewrite <- Hsame'; exact Hcalls|].
    split; [|exact Hrow].
    intros id e He Hkeep. rewrite Hsame; [exact He|].
    rewrite Hsame'. intros Hin. apply in_map_iff in Hin as [[id' e'] [Hid Hin]].
    cbn [fst] in Hid. subst id'. apply filter_In in Hin as [Hin Hno].
    apply journalRows_In in Hin as [He' Hj]. cbn [snd] in Hno.
    apply String.eqb_eq in Hno. rewrite He in He'. injection He' as <-.
    destruct Hkeep; congruence.
Qed.

(** Two journal entries, one of them with a title, and a chat message. *)
Lemma journal_titles_are_generated_once_witness :
  exists stats,
    (Entries.generateJournalTitles Samples2.titling (Some People.admin)
       {| Effects.store := Samples2.halfTitled; Effects.trace := [] |}).1
    = inr (Entries.TitlesGenerated stats)
    /\ Entries.total stats = 2%nat
    /\ (Entries.generated stats + Entries.skipped stats + Entries.failed stats
        = Entries.total stats)%nat.
Proof.
  destruct (proj2 (journal_titles_are_generated_once Samples2.titling People.admin
                     {| Effects.store := Samples2.halfTitled; Effects.trace := [] |})
                  eq_refl)
    as (stats & Hrun & Htotal & Hsum & _).
  exists stats. split; [exact Hrun|]. split; [|exact Hsum].
  rewrite Htotal. vm_compute. reflexivity.
Defined.

(* ===================================================================== *)
(** * Goals and journal entries *)
(* ===================================================================== *)

Section ProgressFacts.
Import JsString Model Effects Store Server Progress.

#[local] Instance Follows_preorder sgs userId : PreOrder (Follows sgs userId).
Proof.
  split.
  - intros w gid. destruct (goals (store w) !! gid); [left|]; reflexivity.
  - intros w1 w2 w3 H12 H23 gid. specialize (H12 gid). specialize (H23 gid).
    destruct (goals (store w1) !! gid) as [g|].
    + destruct H12 as [H12 | (Hu & c & Hrep & H12)]; rewrite H12 in H23.
      * exact H23.
      * destruct H23 as [H23 | (_ & c' & (sg & Hin & Hc & Hname) & H23)].
        -- right. split; [exact Hu|]. exists c. split; assumption.
        -- right. split; [exact Hu|]. exists c'. split; [|exact H23].
           exists sg. split; [exact Hin|]. split; [exact Hc|exact Hname].
    + rewrite H12 in H23. exact H23.
Qed.

Lemma Follows_same_goals sgs userId w w' :
  goals (store w') = goals (store w) -> Follows sgs userId w w'.
Proof.
  intros Hg gid. rewrite Hg.
  destruct (goals (store w) !! gid); [left|]; reflexivity.
Qed.

Lemma Follows_weaken sgs sgs' userId w w' :
  (forall sg, In sg sgs -> In sg sgs') ->
  Follows sgs userId w w' -> Follows sgs' userId w w'.
Proof.
  intros Hsub H gid. specialize (H gid).
  destruct (goals (store w) !! gid) as [g|]; [|exact H].
  destruct H as [H | (Hu & c & (sg & Hin & Hc & Hname) & H)]; [left; exact H|].
  right. split; [exact Hu|]. exists c. split; [|exact H].
  exists sg. split; [apply Hsub, Hin|]. split; assumption.
Qed.

(** One goal of the analysis. *)
Lemma updateMatchingGoal_Follows sgs userId sg :
  In sg sgs -> Step (Follows sgs userId) (updateMatchingGoal userId sg).
Proof.
  intros Hin w. unfold updateMatchingGoal.
  destruct (sentgoal_completion sg) as [c|] eqn:Hc; [|reflexivity].
  unfold bind, getStore.
  destruct (find _ _) as [[mid m]|] eqn:Hfind; [|reflexivity].
  apply find_some in Hfind as [Hm Hname]. cbn [snd] in Hname.
  apply String.eqb_eq in Hname.
  unfold getGoalsByUserId in Hm. apply filter_In in Hm as [Hm Hu].
  apply rows_In in Hm. cbn [snd] in Hu. apply Z.eqb_eq in Hu.
  unfold modify, updateGoalProgress. cbn [fst snd store goals withGoals].
  intros gid. cbn [store goals withGoals]. rewrite lookup_alter.
  destruct (decide (mid = gid)) as [<- | Hne].
  - rewrite Hm. right. split; [exact Hu|]. exists c. split; [|reflexivity].
    exists sg. split; [exact Hin|]. split; [exact Hc|exact Hname].
  - destruct (goals (store w) !! gid); [left|]; reflexivity.
Qed.

(** A loop is judged on the elements it runs over. *)
Lemma Step_forEach_In {E A} (R : relation World) `{!PreOrder R}
    (xs : list A) (body : A -> M E unit) :
  (forall x, In x xs -> Step R (body x)) -> Step R (forEach xs body).
Proof.
  induction xs as [|x xs IH]; intros Hbody; cbn [forEach].
  - apply (Step_ret R).
  - apply (Step_bind R); [apply Hbody; left; reflexivity|].
    intros _. apply IH. intros y Hy. apply Hbody. right. exact Hy.
Qed.

Lemma Follows_modify {E} sgs userId (f : Storage -> Storage) :
  (forall s, goals (f s) = goals s) -> Step (Follows sgs userId) (@modify E f).
Proof. intros Hf w. apply Follows_same_goals. apply Hf. Qed.

Lemma Follows_emit {E} sgs userId ev : Step (Follows sgs userId) (@emit E ev).
Proof. intros w. apply Follows_same_goals. reflexivity. Qed.

(** What the handler does once the content has been analyzed. *)
Lemma afterAnalysis_Follows sgs userId o id content sentiment :
  (forall sg, In sg (sent_goals sentiment) -> In sg sgs) ->
  Step (Follows sgs userId)
    (bind (if (100 <? String.length content)%nat
           then if startFails o id
                then modify (updateJournalEntry id analyzedTrue)
                else emit (StartProcessSingleEntry id)
           else modify (updateJournalEntry id analyzedTrue))
       (fun _ =>
          bind (forEach (sent_goals sentiment) (updateMatchingGoal userId))
            (fun _ =>
               bind (emit (CallStoreEmbedding id content))
                 (fun _ => @ret Response _ (json 201 (EntryBody id)))))).
Proof.
  intros Hsub. apply (Step_bind (Follows sgs userId)).
  { destruct (_ <? _)%nat; [destruct (startFails o id)|];
      first [apply Follows_modify; reflexivity | apply Follows_emit]. }
  intros _. apply (Step_bind (Follows sgs userId)).
  { apply (Step_forEach_In (Follows sgs userId)). intros sg Hin.
    apply updateMatchingGoal_Follows, Hsub, Hin. }
  intros _. apply (Step_bind (Follows sgs userId)); [apply Follows_emit|].
  intros _ w0. reflexivity.
Qed.

(** The handler, whatever it answers. *)
Lemma postJournalEntry_Follows o user b :
  Step (Follows (reported o b) (jb_userId b)) (postJournalEntry o user b).
Proof.
  unfold postJournalEntry, reported.
  apply (Step_bind (Follows _ _)).
  { unfold requireAuth. destruct user; intros w0; reflexivity. }
  intros u. apply (Step_bind (Follows _ _)).
  { unfold requireSelf. destruct (negb _); intros w0; reflexivity. }
  intros _.
  destruct (jb_content b) as [content|]; [|intros w0; reflexivity].
  destruct (_ || _); [intros w0; reflexivity|].
  apply (Step_bind (Follows _ _)); [apply Follows_emit | intros _].
  apply (Step_bind (Follows _ _)).
  { intros w0. apply Follows_same_goals. reflexivity. }
  intros id. apply (Step_bind (Follows _ _)); [apply Follows_emit | intros _].
  destruct (analyzeSentiment o content) as [sentiment|].
  - intros w0. unfold bind at 1. unfold bind at 1. unfold modify at 1, ret at 1.
    cbn [fst snd].
    etransitivity;
      [|apply (afterAnalysis_Follows _ _ o id content sentiment); auto].
    apply Follows_same_goals. reflexivity.
  - intros w0. unfold bind at 1. unfold ret at 1.
    apply (afterAnalysis_Follows _ _ o id content defaultSentiment).
    intros sg [].
Qed.

End ProgressFacts.


(** X22.  [POST /api/journal-entries] creates no goal and removes none,
    whatever it answers.  A goal that it changes is a goal of the user the
    entry is saved for whose name is, up to the case of the letters, the
    name of a goal that the analysis of the content reports together with a
    completion; the goal gets that completion as its progress and nothing
    else of it changes. *)
Theorem journal_entry_moves_only_reported_goals
    (o : Effects.Oracle) (user : option Server.User) (b : Server.JournalEntryBody)
    (w : Effects.World) (gid : Z) :
  let answer := Effects.handle (Server.postJournalEntry o user b) w in
  match Model.goals (Effects.store w) !! gid with
  | None => Model.goals (Effects.store answer.2) !! gid = None
  | Some g =>
      Model.goals (Effects.store answer.2) !! gid = Some g
      \/ (Model.g_userId g = Server.jb_userId b
          /\ exists content sentiment sg c,
               Server.jb_content b = Some content
               /\ Effects.analyzeSentiment o content = Some sentiment
               /\ In sg (Model.sent_goals sentiment)
               /\ Model.sentgoal_completion sg = Some c
               /\ JsString.toLowerCase (Model.g_name g)
                  = JsString.toLowerCase (Model.sentgoal_name sg)
               /\ Model.goals (Effects.store answer.2) !! gid
                  = Some (Store.setProgress c g))
  end.
Proof.
  cbv zeta.
  pose proof (Step_handle _ _ w (postJournalEntry_Follows o user b) gid) as H.
  destruct (Model.goals (Effects.store w) !! gid) as [g|]; [|exact H].
  destruct H as [H | (Hu & c & (sg & Hin & Hc & Hname) & H)]; [left; exact H|].
  right. split; [exact Hu|]. unfold Progress.reported in Hin.
  destruct (Server.jb_content b) as [content|] eqn:Econtent; [|destruct Hin].
  destruct (Effects.analyzeSentiment o content) as [sentiment|] eqn:Esent;
    [|destruct Hin].
  exists content, sentiment, sg, c. repeat split; assumption.
Qed.

(* ===================================================================== *)
(** * A chat that is saved *)
(* ===================================================================== *)

Section ChatSavingFacts.
Import JsString Model Effects Store Server System.

#[local] Instance SameJournal_is_preorder : PreOrder SameJournal.
Proof.
  split.
  - intros w. split; [|split]; reflexivity.
  - intros w1 w2 w3 (Ha & Hb & Hc) (Ha' & Hb' & Hc').
    split; [|split]; congruence.
Qed.

(** The loop that clears the chat. *)
Lemma deleteChatEntries_rows (entries : list (Z * JournalEntry)) : forall w,
  exists w',
    @forEach Response _ entries (fun r => modify (deleteJournalEntry r.1)) w
    = (inr tt, w')
    /\ forall k,
         journalEntries (store w') !! k
         = if bool_decide (k ∈ map fst entries)
           then setDeleted true <$> journalEntries (store w) !! k
           else journalEntries (store w) !! k.
Proof.
  induction entries as [|x xs IH]; intros w.
  - exists w. split; [reflexivity|]. intros k. reflexivity.
  - cbn [forEach]. unfold bind at 1. unfold modify at 1.
    destruct (IH {| store := deleteJournalEntry x.1 (store w); trace := trace w |})
      as [w' [-> Hrows]].
    exists w'. split; [reflexivity|]. intros k. rewrite Hrows.
    cbn [store map]. unfold deleteJournalEntry, alterJournal.
    cbn [journalEntries withJournal]. rewrite lookup_alter.
    destruct (decide (x.1 = k)) as [<- | Hk].
    + rewrite (bool_decide_eq_true_2 (x.1 ∈ x.1 :: map fst xs))
        by (left; reflexivity).
      case_bool_decide; [|reflexivity].
      destruct (journalEntries (store w) !! x.1); reflexivity.
    + rewrite (bool_decide_ext (k ∈ x.1 :: map fst xs) (k ∈ map fst xs)).
      * reflexivity.
      * rewrite elem_of_cons. split; [intros [-> | H]; [congruence | exact H]|].
        intros H. right. exact H.
Qed.

(** A message of the chat is a row of the table. *)
Lemma recent_In userId n s id e :
  In (id, e) (getRecentJournalEntriesByUserId userId n s) ->
  journalEntries s !! id = Some e.
Proof.
  unfold getRecentJournalEntriesByUserId, entriesOf. intros H.
  apply list_elem_of_In in H. apply (subseteq_take _ _ _) in H.
  apply list_elem_of_In in H. rewrite <- in_rev, oldestFirst_In in H.
  rewrite !filter_In, rows_In in H. tauto.
Qed.

(** What the handler leaves in the table of the journal entries. *)
Lemma saveChat_rows o u b w :
  user_id u = sc_userId b ->
  journalEntries (store w) !! nextJournalEntryId (store w) = None ->
  let chat := List.filter (fun r => negb (je_isJournal r.2))
                (getRecentJournalEntriesByUserId (sc_userId b) 50 (store w)) in
  chat <> [] ->
  let id := nextJournalEntryId (store w) in
  (forall text, storeEmbedding o id text = true) ->
  let answer := handle (saveChat o (Some u) b) w in
  (exists e,
     journalEntries (store answer.2) !! id = Some e
     /\ je_userId e = sc_userId b
     /\ je_isJournal e = true
     /\ je_deleted e = false
     /\ je_transcript e
        = Some (join (newline +:+ newline)
                  (map (fun r => transcriptLine r.2) (oldestFirst chat)))
     /\ je_content e
        = match last (List.filter (fun r => negb (je_isAiResponse r.2))
                        (oldestFirst chat)) with
          | Some r => je_content r.2
          | None => "Chat transcript"
          end)
  /\ (forall cid c, In (cid, c) chat ->
        journalEntries (store answer.2) !! cid = Some (setDeleted true c))
  /\ (forall k, k <> id -> ~ In k (map fst chat) ->
        journalEntries (store answer.2) !! k = journalEntries (store w) !! k).
Proof.
  intros Hu Hfresh chat Hchat id Hemb. cbv zeta.
  assert (Hmember : forall k, k ∈ map fst (oldestFirst chat) <-> In k (map fst chat)).
  { intros k. rewrite list_elem_of_In, !in_map_iff.
    split; intros [r [Hr Hin]]; exists r; (split; [exact Hr|]);
      apply oldestFirst_In; exact Hin. }
  assert (Hrow : forall cid c, In (cid, c) chat ->
            journalEntries (store w) !! cid = Some c /\ cid <> id).
  { intros cid c Hin. apply filter_In in Hin as [Hin _].
    apply recent_In in Hin. split; [exact Hin|]. intros ->.
    unfold id in Hin. congruence. }
  assert (Hid : ~ In id (map fst chat)).
  { intros H. apply in_map_iff in H as [[k c] [Hk Hin]]. cbn [fst] in Hk.
    subst k. apply Hrow in Hin as [_ Hne]. congruence. }
  destruct (handle (saveChat o (Some u) b) w) as [r wf] eqn:E.
  unfold handle, saveChat, requireAuth, requireSelf in E.
  unfold bind, ret, getStore, emit, update, modify in E.
  cbn [fst snd store trace] in E.
  rewrite Hu, Z.eqb_refl in E. cbn [negb fst snd store trace] in E.
  fold chat in E.
  destruct (oldestFirst chat) as [|c0 rest] eqn:Echat.
  { exfalso. apply Hchat. apply length_zero_iff_nil.
    rewrite <- oldestFirst_length, Echat. reflexivity. }
  rewrite <- Echat in *.
  set (transcript := join _ _) in *.
  cbn [fst snd store trace createJournalEntry] in E. fold id in E.
  set (e := newJournalEntry _ _ _ _ _) in E.
  match type of E with
  | context [forEach ?xs (recordChatGoal ?x) ?w0] =>
      destruct (forEach_completes SameJournal xs (recordChatGoal x)
                  (recordChatGoal_completes x) w0)
        as [w1 [Hloop (Hj & Hn & Ht)]];
      rewrite Hloop in E
  end.
  cbn [fst snd store trace] in *. rewrite Hemb in E.
  unfold updateJournalEntrySentiment, alterJournal in Hj.
  cbn [journalEntries withJournal] in Hj.
  destruct (startFails o id) eqn:Estart;
    match type of E with
    | context [forEach ?xs ?body ?w0] =>
        destruct (deleteChatEntries_rows xs w0) as [w2 [Hdel Hrows]];
        unfold modify in Hdel; rewrite Hdel in E
    end;
    cbn [fst snd store trace] in *; injection E as <- <-; cbn [snd];
    (split; [|split]).
  - eexists. rewrite Hrows, bool_decide_eq_false_2 by (rewrite Hmember; exact Hid).
    unfold updateJournalEntry, alterJournal. cbn [journalEntries withJournal].
    rewrite lookup_alter_eq, Hj, lookup_alter_eq, lookup_insert_eq.
    split; [reflexivity|]. repeat split.
  - intros cid c Hin. destruct (Hrow _ _ Hin) as [Hc Hne].
    rewrite Hrows, bool_decide_eq_true_2
      by (rewrite Hmember; apply in_map_iff; exists (cid, c); split;
          [reflexivity | exact Hin]).
    unfold updateJournalEntry, alterJournal. cbn [journalEntries withJournal].
    rewrite lookup_alter_ne, Hj, lookup_alter_ne, lookup_insert_ne, Hc
      by congruence.
    reflexivity.
  - intros k Hk Hout.
    rewrite Hrows, bool_decide_eq_false_2 by (rewrite Hmember; exact Hout).
    unfold updateJournalEntry, alterJournal. cbn [journalEntries withJournal].
    rewrite lookup_alter_ne, Hj, lookup_alter_ne, lookup_insert_ne by congruence.
    reflexivity.
  - eexists. rewrite Hrows, bool_decide_eq_false_2 by (rewrite Hmember; exact Hid).
    rewrite Hj, lookup_alter_eq, lookup_insert_eq.
    split; [reflexivity|]. repeat split.
  - intros cid c Hin. destruct (Hrow _ _ Hin) as [Hc Hne].
    rewrite Hrows, bool_decide_eq_true_2
      by (rewrite Hmember; apply in_map_iff; exists (cid, c); split;
          [reflexivity | exact Hin]).
    rewrite Hj, lookup_alter_ne, lookup_insert_ne, Hc by congruence.
    reflexivity.
  - intros k Hk Hout.
    rewrite Hrows, bool_decide_eq_false_2 by (rewrite Hmember; exact Hout).
    rewrite Hj, lookup_alter_ne, lookup_insert_ne by congruence.
    reflexivity.
Qed.

End ChatSavingFacts.

(** X23.  [POST /api/journal-entries/save-chat], asked by the user for
    their own chat when the table has not yet a row under its next serial
    number and the embedding can be stored: the table gets one new row, a
    journal entry of the user outside the recycle bin whose transcript lists
    the chat messages oldest first and whose content is the latest message of
    the user (or "Chat transcript" when the user wrote none); every chat
    message that went into the transcript is moved to the recycle bin,
    otherwise unchanged; every other row is left as it was. *)
Theorem saved_chat_clears_the_chat
    (o : Effects.Oracle) (u : Server.User) (b : Server.SaveChatBody)
    (w : Effects.World) :
  Server.user_id u = Server.sc_userId b ->
  Model.journalEntries (Effects.store w)
    !! Model.nextJournalEntryId (Effects.store w) = None ->
  let chat := List.filter (fun r => negb (Model.je_isJournal r.2))
                (Store.getRecentJournalEntriesByUserId (Server.sc_userId b) 50
                   (Effects.store w)) in
  chat <> [] ->
  let id := Model.nextJournalEntryId (Effects.store w) in
  (forall text, Effects.storeEmbedding o id text = true) ->
  let answer := Effects.handle (Server.saveChat o (Some u) b) w in
  (exists e,
     Model.journalEntries (Effects.store answer.2) !! id = Some e
     /\ Model.je_userId e = Server.sc_userId b
     /\ Model.je_isJournal e = true
     /\ Model.je_deleted e = false
     /\ Model.je_transcript e
        = Some (Server.join (Server.newline +:+ Server.newline)
                  (map (fun r => Server.transcriptLine r.2)
                       (Store.oldestFirst chat)))
     /\ Model.je_content e
        = match last (List.filter (fun r => negb (Model.je_isAiResponse r.2))
                        (Store.oldestFirst chat)) with
          | Some r => Model.je_content r.2
          | None => "Chat transcript"
          end)
  /\ (forall cid c, In (cid, c) chat ->
        Model.journalEntries (Effects.store answer.2) !! cid
        = Some (Store.setDeleted true c))
  /\ (forall k, k <> id -> ~ In k (map fst chat) ->
        Model.journalEntries (Effects.store answer.2) !! k
        = Model.journalEntries (Effects.store w) !! k).
Proof. apply saveChat_rows. Qed.

(** A chat of three messages and a journal entry: the latest message of the
    user becomes the content of the saved entry, the first message goes to
    the recycle bin and the journal entry stays. *)
Lemma saved_chat_clears_the_chat_witness :
  let w := {| Effects.store := Samples2.chatting; Effects.trace := [] |} in
  let answer := Effects.handle
                  (Server.saveChat Samples2.titling (Some Examples.alice)
                     {| Server.sc_userId := 7; Server.sc_date := None |}) w in
  (exists e, Model.journalEntries (Effects.store answer.2) !! 5 = Some e
             /\ Model.je_content e = "Tomorrow again.")
  /\ Model.journalEntries (Effects.store answer.2) !! 1
     = Some (Store.setDeleted true (Examples.entry 7 "I ran today." 10 false false))
  /\ Model.journalEntries (Effects.store answer.2) !! 4
     = Some (Examples.entry 7 "A long day at work." 9 true true).
Proof.
  cbv zeta.
  assert (Hchat : List.filter (fun r => negb (Model.je_isJournal r.2))
                    (Store.getRecentJournalEntriesByUserId 7 50 Samples2.chatting)
                  <> []) by (vm_compute; discriminate).
  destruct (saved_chat_clears_the_chat Samples2.titling Examples.alice
              {| Server.sc_userId := 7; Server.sc_date := None |}
              {| Effects.store := Samples2.chatting; Effects.trace := [] |}
              eq_refl eq_refl Hchat (fun _ => eq_refl))
    as ((e & Hget & _ & _ & _ & _ & Hcontent) & Hcleared & Hkept).
  split; [|split].
  - exists e. split; [exact Hget|]. rewrite Hcontent. vm_compute. reflexivity.
  - apply Hcleared. vm_compute. auto.
  - etransitivity; [apply Hkept|].
    + vm_compute. discriminate.
    + vm_compute. intros H. repeat destruct H as [H | H]; try discriminate H.
      exact H.
    + vm_compute. reflexivity.
Defined.
